(** * ShellMate: the command-generation pipeline

    A shallow embedding of [aws/lambda_function.py] (the request service and
    its retrying backend invoker) and of [shellmate/src/shellmate.py] (the
    command-line client), followed by the properties proved about them.

    Conventions.
    - A Python [str] is a [string]; its characters are read as code points
      (the Latin-1 range).
    - A Python [dict] keyed by strings is a [gmap string _]; a dict literal
      whose order is printed by [json.dumps] is an association list.
    - A call that may raise returns an [outcome].
    - Durations and clock readings are rationals ([Q]), as every float is
      one; the rounding of floating-point addition is not modelled.
    - Input and output are explicit: the outside world is a record of
      oracles, and every function returns the trace of what it did. *)

From Stdlib Require Import QArith Qround Lqa Ascii.
From Stdlib Require String.
From stdpp Require Import base option list strings gmap pretty.

(** ** Python strings *)

Module PyStr.

Definition backslash : ascii := Ascii.ascii_of_nat 92.
Definition newline : ascii := Ascii.ascii_of_nat 10.
Definition nl : string := String newline EmptyString.

(** [str.isspace] on one character: U+0009..U+000D, U+001C..U+0020,
    U+0085 and U+00A0. *)
Definition isspace (c : ascii) : bool :=
  let n := Ascii.nat_of_ascii c in
  ((9 <=? n)%nat && (n <=? 13)%nat)
  || ((28 <=? n)%nat && (n <=? 32)%nat)
  || (n =? 133)%nat || (n =? 160)%nat.

Fixpoint lstrip (s : string) : string :=
  match s with
  | EmptyString => EmptyString
  | String c s' => if isspace c then lstrip s' else s
  end.

Fixpoint rstrip (s : string) : string :=
  match s with
  | EmptyString => EmptyString
  | String c s' =>
      match rstrip s' with
      | EmptyString => if isspace c then EmptyString else String c EmptyString
      | r => String c r
      end
  end.

(** No white space at the start of [s]. *)
Definition starts_clean (s : string) : Prop :=
  match s with
  | EmptyString => True
  | String c _ => isspace c = false
  end.

(** [s.strip()] *)
Definition strip (s : string) : string := rstrip (lstrip s).

(** [p in s] for strings: [p] occurs in [s] as a contiguous substring. *)
Fixpoint occurs (p s : string) : bool :=
  String.prefix p s ||
  match s with
  | EmptyString => false
  | String _ s' => occurs p s'
  end.

(** The scan of [str.replace] for a non-empty [old]: the occurrences are
    taken left to right and do not overlap; [skip] counts the characters
    of the current occurrence that are still to be dropped. *)
Fixpoint replace_scan (old new : string) (skip : nat) (s : string) : string :=
  match s with
  | EmptyString => EmptyString
  | String c s' =>
      match skip with
      | S k => replace_scan old new k s'
      | O =>
          if String.prefix old s
          then new +:+ replace_scan old new (String.length old - 1) s'
          else String c (replace_scan old new 0 s')
      end
  end.

(** [s.replace(old, new)]; an empty [old] matches before every character
    and at the end. *)
Definition replace (s old new : string) : string :=
  match old with
  | EmptyString =>
      new +:+ String.concat EmptyString
                (map (fun c => String c new) (String.list_ascii_of_string s))
  | _ => replace_scan old new 0 s
  end.

(** Every backslash of [s] written twice. *)
Fixpoint double_backslashes (s : string) : string :=
  match s with
  | EmptyString => EmptyString
  | String c s' =>
      if Ascii.eqb c backslash
      then String backslash (String backslash (double_backslashes s'))
      else String c (double_backslashes s')
  end.

(** [sep.join(parts)] *)
Definition join (sep : string) (parts : list string) : string :=
  String.concat sep parts.

(** [s.lower()] on the letters of the Latin-1 range. *)
Definition lower_char (c : ascii) : ascii :=
  let n := Ascii.nat_of_ascii c in
  if ((65 <=? n)%nat && (n <=? 90)%nat)
     || ((192 <=? n)%nat && (n <=? 222)%nat && negb (n =? 215)%nat)
  then Ascii.ascii_of_nat (n + 32) else c.

Fixpoint lower (s : string) : string :=
  match s with
  | EmptyString => EmptyString
  | String c s' => String (lower_char c) (lower s')
  end.

(** [os.path.basename(p)] on a POSIX path: what follows the last slash. *)
Fixpoint basename (p : string) : string :=
  match p with
  | EmptyString => EmptyString
  | String c p' =>
      if occurs "/" p' then basename p'
      else if Ascii.eqb c "/"%char then p' else p
  end.

End PyStr.

(** ** Python values, exceptions and effects *)

Module Py.

(** The values [json.loads] produces. Numbers are kept to the integers:
    the code below observes of a number only that it is neither a string
    nor a dict, and whether it is zero. *)
#[warnings="-register-all"] Inductive pyval :=
| PNone
| PBool (b : bool)
| PInt (z : Z)
| PStr (s : string)
| PList (l : list pyval)
| PDict (d : gmap string pyval).

(** The exceptions the code meets, all subclasses of [Exception].
    [ClientError code message] carries [e.response['Error']['Code']] and
    [e.response['Error'].get('Message', '')]. *)
Inductive exn :=
| ClientError (code message : string)
| AttributeError
| TypeError
| KeyError
| IndexError
| JSONDecodeError
| UnboundLocalError
| OtherError (description : string).

Inductive outcome (A : Type) :=
| Returned (a : A)
| Raised (e : exn).
Arguments Returned {A} a.
Arguments Raised {A} e.

(** A computation with effects: the trace of events it caused, in order,
    and how it ended. *)
Definition io (E A : Type) : Type := (list E * outcome A)%type.

Definition ret {E A} (a : A) : io E A := ([], Returned a).
Definition raise {E A} (e : exn) : io E A := ([], Raised e).
Definition lift {E A} (o : outcome A) : io E A := ([], o).

Definition bind {E A B} (m : io E A) (k : A -> io E B) : io E B :=
  match m with
  | (t, Returned a) => let '(t', r) := k a in (t ++ t', r)
  | (t, Raised e) => (t, Raised e)
  end.

(** [try: m except Exception as e: handler e] *)
Definition try_except {E A} (m : io E A) (handler : exn -> io E A) : io E A :=
  match m with
  | (t, Returned a) => (t, Returned a)
  | (t, Raised e) => let '(t', r) := handler e in (t ++ t', r)
  end.

(** [bool(v)], as tested by [if not v]. *)
Definition truthy (v : pyval) : bool :=
  match v with
  | PNone => false
  | PBool b => b
  | PInt z => negb (z =? 0)%Z
  | PStr s => negb (String.eqb s EmptyString)
  | PList l => match l with [] => false | _ => true end
  | PDict d => negb (bool_decide (d = ∅))
  end.

(** [v.get(key, default)]: only a dict has the method. *)
Definition dict_get (v : pyval) (key : string) (dflt : pyval) : outcome pyval :=
  match v with
  | PDict d => Returned (default dflt (d !! key))
  | _ => Raised AttributeError
  end.

(** [v.strip()]: only a string has the method. *)
Definition method_strip (v : pyval) : outcome string :=
  match v with
  | PStr s => Returned (PyStr.strip s)
  | _ => Raised AttributeError
  end.

(** [v[key]] for a string key. *)
Definition getitem (v : pyval) (key : string) : outcome pyval :=
  match v with
  | PDict d =>
      match d !! key with
      | Some x => Returned x
      | None => Raised KeyError
      end
  | _ => Raised TypeError
  end.

(** [v[0]] *)
Definition getitem0 (v : pyval) : outcome pyval :=
  match v with
  | PList (x :: _) => Returned x
  | PList [] => Raised IndexError
  | PStr (String c _) => Returned (PStr (String c EmptyString))
  | PStr EmptyString => Raised IndexError
  | PDict _ => Raised KeyError
  | _ => Raised TypeError
  end.

End Py.

Notation "'let*' x := m 'in' k" := (Py.bind m (fun x => k))
  (at level 10, x pattern, m at level 100, k at level 200,
   format "'[v' 'let*'  x  :=  m  'in' '/' k ']'").

(** ** The request service: [aws/lambda_function.py] *)

Module Lambda.
Import Py.

(** What the service does to the outside: a call of
    [bedrock.invoke_model], numbered by the attempt that makes it, and a
    [time.sleep]. Log lines are not part of the trace. *)
Inductive effect :=
| Invoke (attempt : nat)
| Sleep (delay : Q).

(** The outside world of one request: what [bedrock.invoke_model] does at
    each attempt (it returns a response, given here by the text that
    [response['body'].read()] yields, or raises), and what [time.time()]
    reads when the failure of an attempt is handled. *)
Record world := World {
  invoke_model : nat -> outcome string;
  time : nat -> Q
}.

Record response := Response {
  statusCode : Z;
  headers : gmap string string;
  body : string
}.

(** *** [json.dumps] of a dict of strings

    Default settings: separators [", "] and [": "], and [ensure_ascii],
    which escapes every character outside [' '..'~']. *)

Definition quote : ascii := Ascii.ascii_of_nat 34.

Definition hex_digit (n : nat) : ascii :=
  default "0"%char (String.list_ascii_of_string "0123456789abcdef" !! n).

Definition json_escape_char (c : ascii) : string :=
  let n := Ascii.nat_of_ascii c in
  let esc (x : ascii) := String PyStr.backslash (String x EmptyString) in
  if (n =? 34)%nat then esc quote
  else if (n =? 92)%nat then esc PyStr.backslash
  else if (n =? 10)%nat then esc "n"%char
  else if (n =? 13)%nat then esc "r"%char
  else if (n =? 9)%nat then esc "t"%char
  else if (n =? 8)%nat then esc "b"%char
  else if (n =? 12)%nat then esc "f"%char
  else if (n <? 32)%nat || (126 <? n)%nat
  then String PyStr.backslash
         ("u00" +:+ String (hex_digit (n / 16)) (String (hex_digit (n mod 16)) EmptyString))
  else String c EmptyString.

Fixpoint json_escape (s : string) : string :=
  match s with
  | EmptyString => EmptyString
  | String c s' => json_escape_char c +:+ json_escape s'
  end.

Definition json_string (s : string) : string :=
  String quote (json_escape s +:+ String quote EmptyString).

Definition json_dumps (fields : list (string * string)) : string :=
  "{" +:+ PyStr.join ", "
            (map (fun kv => json_string kv.1 +:+ ": " +:+ json_string kv.2) fields)
      +:+ "}".

(** The text [{"error": "<message>"}], for a message that needs no
    escaping. *)
Definition quoted (s : string) : string :=
  String quote (s +:+ String quote EmptyString).

Definition error_text (message : string) : string :=
  "{" +:+ quoted "error" +:+ ": " +:+ quoted message +:+ "}".

(** *** The backend invoker: the retry loop of [generate_shell_command] *)

Definition max_retries : nat := 5.
Definition base_delay : Z := 2.

Definition throttling_codes : list string :=
  ["ThrottlingException"; "TooManyRequestsException";
   "ServiceQuotaExceededException"].

(** [x % m] on floats: the result has the sign of [m]. *)
Definition py_mod (x m : Q) : Q := (x - m * inject_Z (Qfloor (x / m)))%Q.

(** [base_delay * (2 ** attempt) + (time.time() % 0.5)] *)
Definition throttle_delay (attempt : nat) (now : Q) : Q :=
  (inject_Z (base_delay * 2 ^ Z.of_nat attempt) + py_mod now (1 # 2))%Q.

(** [1 + (attempt * 0.5)] *)
Definition retry_delay (attempt : nat) : Q :=
  (1 + inject_Z (Z.of_nat attempt) * (1 # 2))%Q.

(** How one iteration of the [for] loop ends. *)
Inductive step :=
| Break (text : string)
| Continue (delay : Q)
| Reraise (e : exn).

(** The [except ClientError] clause, for the error the attempt raised;
    any other exception is not caught by it. *)
Definition on_failure (attempt : nat) (now : Q) (e : exn) : step :=
  match e with
  | ClientError error_code _ =>
      if bool_decide (error_code ∈ throttling_codes) && (attempt <? max_retries)%nat
      then Continue (throttle_delay attempt now)
      else if String.eqb error_code "ValidationException" then Reraise e
      else if (attempt <? max_retries)%nat then Continue (retry_delay attempt)
      else Reraise e
  | _ => Reraise e
  end.

Definition attempt_once (w : world) (attempt : nat) : step :=
  match invoke_model w attempt with
  | Returned text => Break text
  | Raised e => on_failure attempt (time w attempt) e
  end.

(** [for attempt in attempts: ...], then the use of [response]; when the
    loop runs out without a [break], [response] was never bound. *)
Fixpoint retry_loop (w : world) (attempts : list nat) : io effect string :=
  match attempts with
  | [] => raise UnboundLocalError
  | attempt :: rest =>
      match attempt_once w attempt with
      | Break text => ([Invoke attempt], Returned text)
      | Reraise e => ([Invoke attempt], Raised e)
      | Continue delay =>
          let '(t, r) := retry_loop w rest in
          (Invoke attempt :: Sleep delay :: t, r)
      end
  end.

(** [range(max_retries + 1)] *)
Definition invoke_with_retry (w : world) : io effect string :=
  retry_loop w (seq 0 (max_retries + 1)).

(** The number of backend calls in a trace, and the delays slept. *)
Fixpoint attempts (t : list effect) : nat :=
  match t with
  | [] => 0
  | Invoke _ :: t' => S (attempts t')
  | Sleep _ :: t' => attempts t'
  end.

Fixpoint sleeps (t : list effect) : list Q :=
  match t with
  | [] => []
  | Invoke _ :: t' => sleeps t'
  | Sleep delay :: t' => delay :: sleeps t'
  end.

(** *** The response sanitizer *)

Definition fence : string := "```".
Definition bash_fence : string := "```bash".

(** [text.strip()], then
    [command.replace('```bash', '').replace('```', '').strip()] *)
Definition sanitize (text : string) : string :=
  PyStr.strip
    (PyStr.replace (PyStr.replace (PyStr.strip text) bash_fence EmptyString) fence EmptyString).

Section WithJson.

(** [json.loads], the parser of the standard library: [None] stands for
    [JSONDecodeError]. *)
Variable json_loads : string -> option pyval.

Definition loads (s : string) : outcome pyval :=
  match json_loads s with
  | Some v => Returned v
  | None => Raised JSONDecodeError
  end.

(** [response_body['content'][0]['text']] and its clean-up. *)
Definition extract_command (text : string) : outcome string :=
  match loads text with
  | Raised e => Raised e
  | Returned response_body =>
      match getitem response_body "content" with
      | Raised e => Raised e
      | Returned content =>
          match getitem0 content with
          | Raised e => Raised e
          | Returned first =>
              match getitem first "text" with
              | Raised e => Raised e
              | Returned (PStr raw) => Returned (sanitize raw)
              | Returned _ => Raised AttributeError
              end
          end
      end
  end.

(** [generate_shell_command(query, context)]. The prompt is built
    before the [try]: reading [context.get] raises when [context] is
    not a dict. Inside the [try], every exception ends in
    [return None]. The backend is an oracle for this one request, so
    the prompt text itself is not modelled. *)
Definition generate_shell_command (w : world) (query : string) (context : pyval)
  : io effect (option string) :=
  let* _ := lift (dict_get context "os" (PStr "posix")) in
  let* _ := lift (dict_get context "cwd" (PStr ".")) in
  try_except
    (let* text := invoke_with_retry w in
     let* command := lift (extract_command text) in
     ret (Some command))
    (fun _ => ret None).

Definition json_headers : gmap string string :=
  {[ "Content-Type" := "application/json";
     "Access-Control-Allow-Origin" := "*" ]}.

Definition error_response (status : Z) (message : string) : response :=
  Response status json_headers (json_dumps [("error", message)]).

(** Lines 26 to 29: the request body. *)
Definition request_body (event : gmap string pyval) : outcome pyval :=
  match event !! "body" with
  | Some (PStr s) => loads s
  | Some v => Returned v
  | None => Returned (PDict event)
  end.

(** The body of the [try] of [lambda_handler]. *)
Definition lambda_handler_try (w : world) (event : gmap string pyval)
  : io effect response :=
  let* body := lift (request_body event) in
  let* raw_query := lift (dict_get body "query" (PStr EmptyString)) in
  let* query := lift (method_strip raw_query) in
  let* user_context := lift (dict_get body "context" (PDict ∅)) in
  if String.eqb query EmptyString then
    ret (error_response 400 "Query parameter is required")
  else
    let* command := generate_shell_command w query user_context in
    match command with
    | None | Some EmptyString =>
        ret (error_response 500 "Failed to generate shell command")
    | Some command =>
        ret (Response 200 json_headers
               (json_dumps [("command", command); ("query", query)]))
    end.

(** [lambda_handler(event, context)] *)
Definition lambda_handler (w : world) (event : gmap string pyval)
  : io effect response :=
  try_except (lambda_handler_try w event)
    (fun _ => ret (error_response 500 "Internal server error")).

(** Two readings used to state the properties of the handler. *)

(** What [generate_shell_command] returns once the retry loop has run. *)
Definition generated (r : outcome string) : option string :=
  match r with
  | Returned text =>
      match extract_command text with
      | Returned command => Some command
      | Raised _ => None
      end
  | Raised _ => None
  end.

(** The answer to a request whose query is in order, from what the
    generation gave. *)
Definition answer (query : string) (g : io effect (option string))
  : io effect response :=
  match g with
  | (t, Returned (Some (String c command'))) =>
      (t, Returned (Response 200 json_headers
             (json_dumps [("command", String c command'); ("query", query)])))
  | (t, Returned _) =>
      (t, Returned (error_response 500 "Failed to generate shell command"))
  | (t, Raised _) =>
      (t, Returned (error_response 500 "Internal server error"))
  end.

End WithJson.

(** [handle_cors_preflight()] *)
Definition handle_cors_preflight : response :=
  Response 200
    {[ "Access-Control-Allow-Origin" := "*";
       "Access-Control-Allow-Methods" := "POST, GET, OPTIONS";
       "Access-Control-Allow-Headers" := "Content-Type, Authorization" ]}
    EmptyString.

End Lambda.

(** ** The command-line client: [shellmate/src/shellmate.py] *)

Module Shellmate.
Import Py.

(** [urllib.request.Request(self.api_endpoint, data=..., headers=...)],
    with the fields of the JSON payload. *)
Record request := Request {
  url : string;
  request_headers : gmap string string;
  data_query : string;
  data_os : string;
  data_cwd : string
}.

(** How the [try] of [query_ai] ends for the request it builds: with an
    exception raised before the request is sent ([os.getcwd], or
    [urllib.request.Request], which refuses an endpoint without a scheme),
    with one of the exceptions that sending the request and decoding the
    reply raise and that [query_ai] tells apart, or with the decoded JSON
    value. *)
Inductive reply :=
| Unsent (message : string)
| HTTPError (code : Z) (reason : string)
| URLError (reason : string)
| JSONError (message : string)
| Failure (message : string)
| Json (result : pyval).

(** How [input(prompt)] ends. *)
Inductive typed :=
| Line (text : string)
| KeyboardInterrupt
| EOFError
| InputFailure (message : string).

(** How [os.system(command)] ends. *)
Inductive ran :=
| Status (status : Z)
| SystemFailure (message : string).

(** What the client does to the outside. [Stdout line] is [print(line)]
    and [Stderr line] is [print(line, file=sys.stderr)]; [Usage] is the
    usage text and message that [parser.error] writes to the error
    stream; [Traceback] is the interpreter reporting an uncaught
    exception there. *)
Inductive effect :=
| Stdout (line : string)
| Stderr (line : string)
| Usage (message : string)
| Traceback (e : exn)
| Urlopen (req : request)
| SetPreInputHook (prefill : option pyval)
| Input (prompt : string)
| System (command : string).

(** The machine the client runs on. [urlopen] tells how the [try] of
    [query_ai] ends; it is asked with the request as [query_ai] builds
    it, also when the answer is that it could not be sent. *)
Record world := World {
  environ : gmap string string;
  os_name : string;
  getcwd : string;
  urlopen : request -> reply;
  input : string -> typed;
  system : string -> ran
}.

(** The attributes [__init__] sets. *)
Record ShellMate := {
  api_endpoint : string;
  api_key : option string
}.

(** The command line as [parser.parse_args()] returns it. *)
Record Namespace := {
  query : list string;
  seamless : bool
}.

(** What [print] sends to standard output: each line and its newline. *)
Fixpoint stdout_text (t : list effect) : string :=
  match t with
  | [] => EmptyString
  | Stdout line :: t' => line +:+ String PyStr.newline (stdout_text t')
  | _ :: t' => stdout_text t'
  end.


(** The commands handed to [os.system]. *)
Fixpoint executed (t : list effect) : list string :=
  match t with
  | [] => []
  | System command :: t' => command :: executed t'
  | _ :: t' => executed t'
  end.

Definition type_name (v : pyval) : string :=
  match v with
  | PNone => "NoneType"
  | PBool _ => "bool"
  | PInt _ => "int"
  | PStr _ => "str"
  | PList _ => "list"
  | PDict _ => "dict"
  end.

Definition no_attribute (v : pyval) (attribute : string) : string :=
  "'" +:+ type_name v +:+ "' object has no attribute '" +:+ attribute +:+ "'".

(** [ShellMate()]: both arguments default to [None]; without an endpoint
    the constructor ends the process with [sys.exit(1)]. *)
Definition ShellMate_init (w : world) : list effect * (ShellMate + Z) :=
  match environ w !! "SHELLMATE_API_ENDPOINT" with
  | None | Some EmptyString =>
      ([Stderr "Error: SHELLMATE_API_ENDPOINT environment variable not set"],
       inr 1%Z)
  | Some endpoint =>
      ([], inl {| api_endpoint := endpoint;
                  api_key := environ w !! "SHELLMATE_API_KEY" |})
  end.

Definition build_request (w : world) (self : ShellMate)
    (natural_language_query : string) : request :=
  let base : gmap string string := {[ "Content-Type" := "application/json" ]} in
  {| url := api_endpoint self;
     request_headers :=
       match api_key self with
       | None | Some EmptyString => base
       | Some key => <[ "X-API-Key" := key ]> base
       end;
     data_query := natural_language_query;
     data_os := os_name w;
     data_cwd := getcwd w |}.

(** [query_ai(self, natural_language_query)]: the [command] of the reply,
    or [None] after a diagnostic on the error stream. An exception raised
    before [urlopen] is reached is one of those caught by
    [except Exception], and then no request is sent. *)
Definition query_ai (w : world) (self : ShellMate)
    (natural_language_query : string) : list effect * pyval :=
  let req := build_request w self natural_language_query in
  let failed (diagnostic : string) := ([Urlopen req; Stderr diagnostic], PNone) in
  match urlopen w req with
  | Unsent message => ([Stderr ("Unexpected error: " +:+ message)], PNone)
  | Json result =>
      match dict_get result "command" (PStr EmptyString) with
      | Returned command => ([Urlopen req], command)
      | Raised _ => failed ("Unexpected error: " +:+ no_attribute result "get")
      end
  | HTTPError code reason =>
      failed ("HTTP Error " +:+ pretty code +:+ ": " +:+ reason)
  | URLError reason => failed ("URL Error: " +:+ reason)
  | JSONError message => failed ("JSON Error: " +:+ message)
  | Failure message => failed ("Unexpected error: " +:+ message)
  end.

(** The display-prompt switch:
    [os.environ.get('SHELLMATE_SHOW_PROMPT', 'true').lower()
     in ('true', '1', 'yes')] *)
Definition show_prompt_setting (w : world) : bool :=
  bool_decide
    (PyStr.lower (default "true" (environ w !! "SHELLMATE_SHOW_PROMPT"))
     ∈ ["true"; "1"; "yes"]).

Definition prompt_char (w : world) : string :=
  let shell_name := PyStr.basename (default "/bin/bash" (environ w !! "SHELL")) in
  if bool_decide (shell_name ∈ ["bash"; "sh"]) then "$ "
  else if String.eqb shell_name "zsh" then "% "
  else "$ ".

Section WithStr.

(** [str(v)], the builtin, as the f-strings apply it to a value that
    is not a string. *)
Variable py_str : pyval -> string.

Definition format_value (v : pyval) : string :=
  match v with
  | PStr s => s
  | _ => py_str v
  end.

(** [execute_command(self, command, show_prompt=None)] *)
Definition execute_command (w : world) (command : pyval)
    (show_prompt : option bool) : list effect * bool :=
  if negb (truthy command) then
    ([Stderr "No command generated"], false)
  else
    let show_prompt := default (show_prompt_setting w) show_prompt in
    let staged :=
      [Stdout ("Generated command: " +:+ format_value command);
       SetPreInputHook (Some command)]
      ++ (if show_prompt
          then [Stdout "Press Enter to execute, or Ctrl+C to cancel:"]
          else [])
      ++ [Input (prompt_char w)] in
    match input w (prompt_char w) with
    | Line user_command =>
        if negb (String.eqb (PyStr.strip user_command) EmptyString) then
          match system w user_command with
          | Status result =>
              (staged ++ [SetPreInputHook None; System user_command],
               (result =? 0)%Z)
          | SystemFailure message =>
              (staged ++ [SetPreInputHook None; System user_command;
                          Stderr ("Error: " +:+ message);
                          SetPreInputHook None],
               false)
          end
        else
          (staged ++ [SetPreInputHook None; Stdout "No command to execute"],
           false)
    | KeyboardInterrupt | EOFError =>
        (staged ++ [Stdout (String PyStr.newline "Command cancelled");
                    SetPreInputHook None],
         false)
    | InputFailure message =>
        (staged ++ [Stderr ("Error: " +:+ message); SetPreInputHook None],
         false)
    end.

(** [run(self, query, seamless=False)]. In seamless mode
    [command.replace] raises when the command is not a string. *)
Definition run (w : world) (self : ShellMate) (query : string)
    (seamless : bool) : io effect bool :=
  let '(t, command) := query_ai w self query in
  if negb (truthy command) then
    (t ++ (if seamless then []
           else [Stderr "Failed to get command from AI service"]),
     Returned false)
  else if seamless then
    match command with
    | PStr command =>
        let command :=
          PyStr.replace command
            (String PyStr.backslash EmptyString)
            (String PyStr.backslash (String PyStr.backslash EmptyString)) in
        (t ++ [Stdout command], Returned true)
    | _ => (t, Raised AttributeError)
    end
  else
    let '(t', success) := execute_command w command None in
    (t ++ (if show_prompt_setting w then [Stdout ("Query: " +:+ query)] else [])
       ++ t',
     Returned success).

(** [main()], from the parsed command line to the exit status.
    [parser.error] prints the usage and the message and ends the process
    with status 2; an uncaught exception ends it with status 1. *)
Definition main (w : world) (args : Namespace) : list effect * Z :=
  match query args with
  | [] => ([Usage "No query provided. Use --help for usage information."], 2%Z)
  | _ =>
      let query := PyStr.join " " (query args) in
      match ShellMate_init w with
      | (t, inr status) => (t, status)
      | (t, inl shellmate) =>
          match run w shellmate query (seamless args) with
          | (t', Returned success) => (t ++ t', if success then 0%Z else 1%Z)
          | (t', Raised e) => (t ++ t' ++ [Traceback e], 1%Z)
          end
      end
  end.

End WithStr.

End Shellmate.

(** ** Readings of the traces *)

Module Trace.
Import Py.

(** The attempt numbers of the backend calls, in the order made. *)
Fixpoint invoked (t : list Lambda.effect) : list nat :=
  match t with
  | [] => []
  | Lambda.Invoke attempt :: t' => attempt :: invoked t'
  | Lambda.Sleep _ :: t' => invoked t'
  end.

(** The calls numbered from [first] on, one more than there are
    [delays], with one sleep after each call but the last. *)
Fixpoint interleaved (first : nat) (delays : list Q) : list Lambda.effect :=
  match delays with
  | [] => [Lambda.Invoke first]
  | delay :: rest =>
      Lambda.Invoke first :: Lambda.Sleep delay :: interleaved (S first) rest
  end.

(** The time slept in all. *)
Definition total_sleep (t : list Lambda.effect) : Q :=
  fold_right Qplus 0%Q (Lambda.sleeps t).

(** The longest sleep the loop can make after attempt [n], and the sum of
    these over the attempts that can be followed by a sleep. *)
Definition longest_sleep (n : nat) : Q :=
  (inject_Z (Lambda.base_delay * 2 ^ Z.of_nat n) + (1 # 2))%Q.

Definition sleep_budget (attempts : list nat) : Q :=
  fold_right
    (fun n acc =>
       ((if (n <? Lambda.max_retries)%nat then longest_sleep n else 0) + acc)%Q)
    0%Q attempts.

(** Every character of [s] is a printable ASCII character, from the space
    to the tilde. *)
Fixpoint printable (s : string) : bool :=
  match s with
  | EmptyString => true
  | String c s' =>
      (32 <=? Ascii.nat_of_ascii c)%nat && (Ascii.nat_of_ascii c <=? 126)%nat
      && printable s'
  end.

(** The prompts at which the client read a line. *)
Fixpoint prompts (t : list Shellmate.effect) : list string :=
  match t with
  | [] => []
  | Shellmate.Input prompt :: t' => prompt :: prompts t'
  | _ :: t' => prompts t'
  end.

(** The requests the client sent. *)
Fixpoint requests (t : list Shellmate.effect) : list Shellmate.request :=
  match t with
  | [] => []
  | Shellmate.Urlopen req :: t' => req :: requests t'
  | _ :: t' => requests t'
  end.

(** The uncaught exceptions reported. *)
Fixpoint tracebacks (t : list Shellmate.effect) : list exn :=
  match t with
  | [] => []
  | Shellmate.Traceback e :: t' => e :: tracebacks t'
  | _ :: t' => tracebacks t'
  end.

End Trace.

(** Every pair of backslashes of [s] read as one backslash, from left to
    right: how a reader of escaped text undoes [PyStr.double_backslashes]. *)
Fixpoint halve_backslashes (s : string) : string :=
  match s with
  | EmptyString => EmptyString
  | String c s' =>
      if Ascii.eqb c PyStr.backslash then
        match s' with
        | String c' s'' =>
            if Ascii.eqb c' PyStr.backslash
            then String PyStr.backslash (halve_backslashes s'')
            else String c (halve_backslashes s')
        | EmptyString => String c EmptyString
        end
      else String c (halve_backslashes s')
  end.

(** ** The installer: [shellmate/install.py] *)

Module Install.
Import Py.

Definition obind {A B} (o : outcome A) (k : A -> outcome B) : outcome B :=
  match o with
  | Returned a => k a
  | Raised e => Raised e
  end.

Notation "'let?' x := o 'in' k" := (obind o (fun x => k))
  (at level 10, x pattern, o at level 100, k at level 200,
   format "'[v' 'let?'  x  :=  o  'in' '/' k ']'").

(** *** Python operations on decoded JSON *)

(** [needle in v] for a string [needle]: a substring of a string, an
    element of a list, a key of a dict; other values are not containers. *)
Definition contains (needle : string) (v : pyval) : outcome bool :=
  match v with
  | PStr s => Returned (PyStr.occurs needle s)
  | PList l =>
      Returned (existsb (fun x => match x with
                                  | PStr s => String.eqb s needle
                                  | _ => false
                                  end) l)
  | PDict d => Returned (bool_decide (is_Some (d !! needle)))
  | _ => Raised TypeError
  end.

(** The values a [for] loop over [v] goes through. The keys of a dict and
    the characters of a string are strings. *)
Definition iterate (v : pyval) : outcome (list pyval) :=
  match v with
  | PList l => Returned l
  | PDict d => Returned (PStr <$> (map_to_list d).*1)
  | PStr s =>
      Returned ((fun c => PStr (String c EmptyString))
                  <$> String.list_ascii_of_string s)
  | _ => Raised TypeError
  end.

(** [v.lower()]: only a string has the method. *)
Definition method_lower (v : pyval) : outcome string :=
  match v with
  | PStr s => Returned (PyStr.lower s)
  | _ => Raised AttributeError
  end.

(** Whether [v[:8]] can be taken: of a string and of a list. *)
Definition sliceable (v : pyval) : bool :=
  match v with
  | PStr _ | PList _ => true
  | _ => false
  end.

(** *** [get_aws_config] *)

Definition stack_tag : string := "aws:cloudformation:stack-name".
Definition stack_name : string := "shellmate-dev".
Definition endpoint_key : string := "SHELLMATE_API_ENDPOINT".
Definition api_key_key : string := "SHELLMATE_API_KEY".

(** The three calls of the [aws] command line. *)
Inductive aws_call :=
| DescribeStacks
| GetApiKeys
| GetApiKeyByName.

(** [subprocess.CompletedProcess], with the output as text. *)
Record completed := Completed {
  returncode : Z;
  stdout : string
}.

(** The first loop: the key whose stack tag holds the stack name. The
    result is [None] when the loop ends without [break]. *)
Fixpoint find_by_tag (items : list pyval) : outcome (option pyval) :=
  match items with
  | [] => Returned None
  | key_info :: rest =>
      let? tags := dict_get key_info "tags" (PDict ∅) in
      let? tagged := contains stack_tag tags in
      if tagged then
        let? stack := getitem tags stack_tag in
        let? ours := contains stack_name stack in
        if ours then
          let? value := dict_get key_info "value" PNone in
          Returned (Some value)
        else find_by_tag rest
      else find_by_tag rest
  end.

(** The second loop: the key whose name holds [shellmate]. *)
Fixpoint find_by_name (items : list pyval) : outcome (option pyval) :=
  match items with
  | [] => Returned None
  | key_info :: rest =>
      let? name := dict_get key_info "name" (PStr EmptyString) in
      let? lowered := method_lower name in
      if PyStr.occurs "shellmate" lowered then
        let? value := dict_get key_info "value" PNone in
        Returned (Some value)
      else find_by_name rest
  end.

(** The body of the inner [try], after [json.loads]: the value of
    [api_key] when the block is left, at its end or by an exception. *)
Definition select_api_key (api_keys : pyval) : pyval :=
  match (let? items := dict_get api_keys "items" (PList []) in
         let? key_infos := iterate items in
         find_by_tag key_infos) with
  | Raised _ => PNone
  | Returned found =>
      let api_key := default PNone found in
      if truthy api_key then api_key
      else
        match (let? items := dict_get api_keys "items" (PList []) in
               let? key_infos := iterate items in
               find_by_name key_infos) with
        | Raised _ => api_key
        | Returned found =>
            let api_key := default api_key found in
            if truthy api_key then api_key
            else
              match dict_get api_keys "items" PNone with
              | Raised _ => api_key
              | Returned items =>
                  if truthy items then
                    match (let? items := getitem api_keys "items" in
                           let? first := getitem0 items in
                           dict_get first "value" PNone) with
                    | Raised _ => api_key
                    | Returned value => value
                    end
                  else api_key
              end
        end
  end.

(** Whether the output of a call is of use: the call succeeded and printed
    something other than [None]. *)
Definition useful (result : completed) : bool :=
  (returncode result =? 0)%Z
  && negb (String.eqb (PyStr.strip (stdout result)) EmptyString)
  && negb (String.eqb (PyStr.strip (stdout result)) "None").

(** What the installer does to the outside. Printed lines are not part
    of the trace. *)
Inductive effect :=
| Aws (call : aws_call)
| Asked (prompt : string)
| Ran (cmd : string)
| WroteConfig (text : string)
| Appended (file : string) (text : string).

(** The shell commands run, the configuration texts written, what was
    appended to the shell files, and the [aws] calls made. *)
Fixpoint commands (t : list effect) : list string :=
  match t with
  | [] => []
  | Ran cmd :: t' => cmd :: commands t'
  | _ :: t' => commands t'
  end.

Fixpoint configs_written (t : list effect) : list string :=
  match t with
  | [] => []
  | WroteConfig text :: t' => text :: configs_written t'
  | _ :: t' => configs_written t'
  end.

Fixpoint appends (t : list effect) : list (string * string) :=
  match t with
  | [] => []
  | Appended file text :: t' => (file, text) :: appends t'
  | _ :: t' => appends t'
  end.

Fixpoint aws_calls (t : list effect) : list aws_call :=
  match t with
  | [] => []
  | Aws call :: t' => call :: aws_calls t'
  | _ :: t' => aws_calls t'
  end.

(** The machine the installer runs on: what each [aws] call gives, what
    the operator types, whether Python 3.9 answers, what [shutil.which]
    finds, which paths exist, the paths of the two scripts to install,
    whether each shell command succeeds, the text of the template of the
    shell function when the file is there, and the two shell files when
    they are there. *)
Record world := World {
  aws : aws_call -> outcome completed;
  typed : list string;
  python39 : bool;
  which : string -> bool;
  path_exists : string -> bool;
  source_python : string;
  source_bash : string;
  run_command : string -> bool;
  template : option string;
  bashrc : option string;
  zshrc : option string
}.

Section WithBuiltins.

Variable json_loads : string -> option pyval.
Variable py_str : pyval -> string.

Definition config_of (endpoint : string) (api_key : pyval)
  : option (list (string * pyval)) :=
  if truthy api_key then
    if sliceable api_key
    then Some [(endpoint_key, PStr endpoint); (api_key_key, api_key)]
    else None
  else Some [(endpoint_key, PStr endpoint)].

(** [get_aws_config()]: the configuration found, or [None]; every
    exception ends in [None]. *)
Definition get_aws_config (w : world)
  : list effect * option (list (string * pyval)) :=
  match aws w DescribeStacks with
  | Raised _ => ([Aws DescribeStacks], None)
  | Returned result =>
      if negb (useful result) then ([Aws DescribeStacks], None)
      else
        let endpoint := PyStr.strip (stdout result) in
        let api_key :=
          match aws w GetApiKeys with
          | Raised _ => PNone
          | Returned result =>
              if (returncode result =? 0)%Z then
                match json_loads (stdout result) with
                | Some api_keys => select_api_key api_keys
                | None => PNone
                end
              else PNone
          end in
        if truthy api_key then
          ([Aws DescribeStacks; Aws GetApiKeys], config_of endpoint api_key)
        else
          match aws w GetApiKeyByName with
          | Raised _ =>
              ([Aws DescribeStacks; Aws GetApiKeys; Aws GetApiKeyByName], None)
          | Returned result =>
              let api_key :=
                if useful result then PStr (PyStr.strip (stdout result))
                else api_key in
              ([Aws DescribeStacks; Aws GetApiKeys; Aws GetApiKeyByName],
               config_of endpoint api_key)
          end
  end.

(** *** [create_config] *)

Definition format_value (v : pyval) : string :=
  match v with
  | PStr s => s
  | _ => py_str v
  end.

Definition q : string := String (Ascii.ascii_of_nat 34) EmptyString.

Definition lines (l : list string) : string := PyStr.join PyStr.nl l.

(** The text [create_config] writes to the configuration file. *)
Definition config_text (config_data : list (string * pyval)) : string :=
  "# ShellMate Configuration" +:+ PyStr.nl
  +:+ "# Auto-generated by installation script" +:+ PyStr.nl +:+ PyStr.nl
  +:+ String.concat EmptyString
        (map (fun kv => "export " +:+ kv.1 +:+ "=" +:+ q
                        +:+ format_value kv.2 +:+ q +:+ PyStr.nl)
           config_data).

(** *** [install_script] *)

(** [install_script(script_type)]: the commands run, and whether the
    script counts as installed. A failed symbolic link does not make it
    fail. *)
Definition install_script (w : world) (script_type : string)
  : list effect * bool :=
  let source_file :=
    if String.eqb script_type "python" then source_python w else source_bash w in
  let target_name :=
    if String.eqb script_type "python" then "shellmate-py" else "shellmate-sh" in
  if negb (path_exists w source_file) then ([], false)
  else
    let target_file := "/usr/local/bin/" +:+ target_name in
    let copy := "sudo cp " +:+ source_file +:+ " " +:+ target_file in
    let chmod := "sudo chmod +x " +:+ target_file in
    let link := "sudo ln -sf " +:+ target_file +:+ " /usr/local/bin/shellmate" in
    if negb (run_command w copy) then ([Ran copy], false)
    else if negb (run_command w chmod) then ([Ran copy; Ran chmod], false)
    else ([Ran copy; Ran chmod; Ran link], true).

(** *** [setup_shell_integration] *)

Definition marker : string := "ShellMate shell integration".

Definition seamless_call (binary : string) : string :=
  binary +:+ " --seamless " +:+ q +:+ "$@" +:+ q
  +:+ " 2>" +:+ q +:+ "$error_output" +:+ q.

Definition available_binaries (w : world) : list string :=
  (if path_exists w "/usr/local/bin/shellmate-py" || which w "shellmate-py"
   then ["shellmate-py"] else [])
  ++ (if path_exists w "/usr/local/bin/shellmate-sh" || which w "shellmate-sh"
      then ["shellmate-sh"] else []).

Definition function_calls_of (binaries : list string) : string :=
  match binaries with
  | [] =>
      "result=$(echo " +:+ q +:+ "No ShellMate binaries found" +:+ q
      +:+ " >&2; exit 1)"
  | [binary] => "result=$(" +:+ seamless_call binary +:+ ")"
  | _ => "result=$(" +:+ PyStr.join " || " (map seamless_call binaries) +:+ ")"
  end.

(** The shell function written in the source, used when the template
    file is not there. *)
Definition inline_template (function_calls : string) : string :=
  (lines
      [ EmptyString;
        "# ShellMate configuration";
        "if [[ -f ~/.config/shellmate/config ]]; then";
        "    source ~/.config/shellmate/config";
        "fi";
        EmptyString;
        "# ShellMate shell integration";
        "shellmate() {";
        "    # Check which shell we're using for proper command execution";
        "    if [[ -n " +:+ q +:+ "$ZSH_VERSION" +:+ q +:+ " ]]; then";
        "        # ZSH: Use print -z to pre-populate input buffer";
        "        local result exit_code";
        "        " ])
  +:+ function_calls
  +:+ (lines
      [ EmptyString;
        "        exit_code=$?";
        "        if [[ $exit_code -eq 0 && -n " +:+ q +:+ "$result" +:+ q +:+ " ]]; then";
        "            print -z " +:+ q +:+ "$result" +:+ q;
        "        else";
        "            echo " +:+ q +:+ "Failed to get command from ShellMate" +:+ q +:+ " >&2";
        "            return 1";
        "        fi";
        "    elif [[ -n " +:+ q +:+ "$BASH_VERSION" +:+ q +:+ " ]]; then";
        "        # BASH: Use read with pre-populated input";
        "        local result exit_code";
        "        " ])
  +:+ function_calls
  +:+ (lines
      [ EmptyString;
        "        exit_code=$?";
        "        if [[ $exit_code -eq 0 && -n " +:+ q +:+ "$result" +:+ q +:+ " ]]; then";
        "            local cmd";
        "            read -e -i " +:+ q +:+ "$result" +:+ q +:+ " cmd";
        "            if [[ -n " +:+ q +:+ "$cmd" +:+ q +:+ " ]]; then";
        "                eval " +:+ q +:+ "$cmd" +:+ q;
        "            fi";
        "        else";
        "            echo " +:+ q +:+ "Failed to get command from ShellMate" +:+ q +:+ " >&2";
        "            return 1";
        "        fi";
        "    else";
        "        # Fallback for other shells";
        "        local result exit_code";
        "        " ])
  +:+ function_calls
  +:+ (lines
      [ EmptyString;
        "        exit_code=$?";
        "        if [[ $exit_code -eq 0 && -n " +:+ q +:+ "$result" +:+ q +:+ " ]]; then";
        "            echo " +:+ q +:+ "Generated: $result" +:+ q;
        "            echo " +:+ q +:+ "Copy and paste to execute" +:+ q;
        "        else";
        "            echo " +:+ q +:+ "Failed to get command from ShellMate" +:+ q +:+ " >&2";
        "            return 1";
        "        fi";
        "    fi";
        "}";
        EmptyString ]).

Definition shell_function_of (w : world) : string :=
  let function_calls := function_calls_of (available_binaries w) in
  match template w with
  | Some text => PyStr.replace text "SHELLMATE_FUNCTION_CALLS" function_calls
  | None => inline_template function_calls
  end.

(** One turn of the loop over the shell files: what is appended to a file
    that is there and does not hold the marker yet. *)
Definition integration_for (shell_function : string) (content : option string)
  : option string :=
  match content with
  | Some text =>
      if PyStr.occurs marker text then None
      else Some (PyStr.nl +:+ shell_function)
  | None => None
  end.

Definition after_integration (shell_function : string) (content : option string)
  : option string :=
  match content, integration_for shell_function content with
  | Some text, Some added => Some (text +:+ added)
  | _, _ => content
  end.

(** [setup_shell_integration()]: what is appended to [.bashrc] and to
    [.zshrc], in this order. *)
Definition setup_shell_integration (w : world) : list effect :=
  let shell_function := shell_function_of w in
  (match integration_for shell_function (bashrc w) with
   | Some added => [Appended ".bashrc" added]
   | None => []
   end)
  ++ (match integration_for shell_function (zshrc w) with
      | Some added => [Appended ".zshrc" added]
      | None => []
      end).

(** The shell files once [setup_shell_integration] has run. *)
Definition integrated (w : world) : world :=
  World (aws w) (typed w) (python39 w) (which w) (path_exists w)
    (source_python w) (source_bash w) (run_command w) (template w)
    (after_integration (shell_function_of w) (bashrc w))
    (after_integration (shell_function_of w) (zshrc w)).

(** *** [main] *)

Definition end_of_input : exn := OtherError "EOFError".

(** [input(prompt).strip()], from the lines still to be typed. *)
Definition ask (prompt : string) (typed : list string)
  : list effect * outcome (string * list string) :=
  match typed with
  | [] => ([Asked prompt], Raised end_of_input)
  | line :: rest => ([Asked prompt], Returned (PyStr.strip line, rest))
  end.

(** The [while True] loop that asks for the choice. *)
Fixpoint ask_choice (typed : list string)
  : list effect * outcome (string * list string) :=
  match typed with
  | [] => ([Asked "Enter choice (1/2/3): "], Raised end_of_input)
  | line :: rest =>
      if bool_decide (PyStr.strip line ∈ ["1"; "2"; "3"])
      then ([Asked "Enter choice (1/2/3): "], Returned (PyStr.strip line, rest))
      else
        let '(t, r) := ask_choice rest in
        (Asked "Enter choice (1/2/3): " :: t, r)
  end.

Definition has_key (key : string) (config : list (string * pyval)) : bool :=
  existsb (fun kv => String.eqb kv.1 key) config.

(** The configuration typed by hand when none was found. *)
Definition manual_config (endpoint api_key : string) : list (string * pyval) :=
  if String.eqb endpoint EmptyString then []
  else if String.eqb api_key EmptyString then [(endpoint_key, PStr endpoint)]
  else [(endpoint_key, PStr endpoint); (api_key_key, PStr api_key)].

(** The Python part of [main]: [success] afterwards. *)
Definition python_step (w : world) (choice : string) : list effect * bool :=
  if bool_decide (choice ∈ ["1"; "3"]) then
    if negb (python39 w) then ([], negb (String.eqb choice "1"))
    else install_script w "python"
  else ([], true).

(** The Bash part of [main], from [success] so far. *)
Definition bash_step (w : world) (choice : string) (success : bool)
  : list effect * bool :=
  if bool_decide (choice ∈ ["2"; "3"]) then
    if negb (which w "curl") then ([], false)
    else
      let '(t, installed) := install_script w "bash" in
      (t, installed && success)
  else ([], success).

(** The start of [main]: the configuration found, or else typed by hand;
    with it, the lines still to be typed. *)
Definition usable_config (found : option (list (string * pyval)))
  : option (list (string * pyval)) :=
  match found with
  | Some config =>
      if match config with [] => false | _ => true end
         && has_key endpoint_key config
      then Some config else None
  | None => None
  end.

Definition configure (w : world)
  : io effect (list (string * pyval) * list string) :=
  let '(t0, found) := get_aws_config w in
  match usable_config found with
  | Some config => (t0, Returned (config, typed w))
  | None =>
      match ask "Enter API endpoint (or press Enter to skip): " (typed w) with
      | (t1, Raised e) => (t0 ++ t1, Raised e)
      | (t1, Returned (endpoint, typed)) =>
          match ask "Enter API key (or press Enter to skip): " typed with
          | (t2, Raised e) => (t0 ++ t1 ++ t2, Raised e)
          | (t2, Returned (api_key, typed)) =>
              (t0 ++ t1 ++ t2,
               Returned (manual_config endpoint api_key, typed))
          end
      end
  end.

(** The rest of [main], once the choice is made. *)
Definition install (w : world) (aws_config : list (string * pyval))
    (choice : string) : list effect * bool :=
  let '(t1, success) := python_step w choice in
  let '(t2, success) := bash_step w choice success in
  let t3 :=
    if success && match aws_config with [] => false | _ => true end
    then [WroteConfig (config_text aws_config)] else [] in
  let t4 := if success then setup_shell_integration w else [] in
  (t1 ++ t2 ++ t3 ++ t4, success).

(** [main()]: the value returned, which is the exit status of the
    process; an exception that leaves it ends the process with status 1. *)
Definition main (w : world) : io effect Z :=
  let* configured := configure w in
  let* chosen := ask_choice configured.2 in
  let '(t, success) := install w configured.1 chosen.1 in
  (t, Returned (if success then 0%Z else 1%Z)).

End WithBuiltins.

End Install.

(** ** Scenarios

    Concrete worlds and requests on which the properties below are
    exercised. *)

Module Scenario.
Import Py.

(** A backend that throttles attempts 0, 1 and 2 and answers attempt 3. *)
Definition throttled_thrice : Lambda.world :=
  Lambda.World
    (fun n =>
       if (n <? 3)%nat
       then Raised (ClientError "ThrottlingException" "Too many requests")
       else Returned "reply")
    (fun _ => (7 # 3)%Q).

(** A backend that rejects the request as invalid. *)
Definition rejecting : Lambda.world :=
  Lambda.World
    (fun _ => Raised (ClientError "ValidationException" "Malformed input request"))
    (fun _ => 0%Q).

(** A backend that is unavailable: a [ClientError] of another code. *)
Definition unavailable : Lambda.world :=
  Lambda.World
    (fun _ => Raised (ClientError "ServiceUnavailableException" "Try again"))
    (fun _ => 0%Q).

(** A backend whose call times out: the exception is not a
    [ClientError]. *)
Definition timed_out : Lambda.world :=
  Lambda.World
    (fun _ => Raised (OtherError "Read timeout on endpoint URL"))
    (fun _ => 0%Q).

(** A parser that reads every text as the reply of the backend: one
    content block whose text is a fenced command. *)
Definition loads_reply (_ : string) : option pyval :=
  Some (PDict {[ "content" :=
                   PList [PDict {[ "text" :=
                     PStr ("```bash" +:+ PyStr.nl +:+ "ls -la" +:+ PyStr.nl +:+ "```") ]}] ]}).

(** A direct invocation whose query is blank. *)
Definition blank_query : gmap string pyval :=
  {[ "query" := PStr "   " ]}.

(** A direct invocation with a query. *)
Definition list_files : gmap string pyval :=
  {[ "query" := PStr "list files" ]}.

(** A preflight request as the gateway hands it over: method [OPTIONS]
    and no body. *)
Definition preflight : gmap string pyval :=
  {[ "httpMethod" := PStr "OPTIONS"; "body" := PNone ]}.

(** A request without a body, as the gateway hands it over, and a direct
    invocation whose query is [null]. *)
Definition post_without_body : gmap string pyval :=
  {[ "httpMethod" := PStr "POST"; "body" := PNone ]}.

Definition null_query : gmap string pyval :=
  {[ "query" := PNone ]}.

(** A rendering of values for the client's messages: [str] on [None],
    booleans, integers and strings. *)
Definition render (v : pyval) : string :=
  match v with
  | PNone => "None"
  | PBool true => "True"
  | PBool false => "False"
  | PInt z => pretty z
  | PStr s => s
  | PList _ => "[...]"
  | PDict _ => "{...}"
  end.

Definition configured : gmap string string :=
  {[ "SHELLMATE_API_ENDPOINT" := "https://api.example.com/prod/query" ]}.

Definition client : Shellmate.ShellMate :=
  {| Shellmate.api_endpoint := "https://api.example.com/prod/query";
     Shellmate.api_key := None |}.

(** The service answers every request with status 500; the operator
    would cancel. *)
Definition service_down : Shellmate.world :=
  Shellmate.World configured "posix" "/home/user"
    (fun _ => Shellmate.HTTPError 500 "Internal Server Error")
    (fun _ => Shellmate.KeyboardInterrupt)
    (fun _ => Shellmate.Status 0).

(** The service answers with a command holding a backslash. *)
Definition find_command : string :=
  "grep " +:+ String PyStr.backslash ".txt notes".

Definition service_up (typed : Shellmate.typed) : Shellmate.world :=
  Shellmate.World configured "posix" "/home/user"
    (fun _ => Shellmate.Json (PDict {[ "command" := PStr find_command ]}))
    (fun _ => typed)
    (fun _ => Shellmate.Status 0).


Definition no_query : Shellmate.Namespace :=
  {| Shellmate.query := []; Shellmate.seamless := false |}.

Definition ask (seamless : bool) : Shellmate.Namespace :=
  {| Shellmate.query := ["list"; "text"; "files"];
     Shellmate.seamless := seamless |}.

(** A backend that answers at once. *)
Definition answering : Lambda.world :=
  Lambda.World (fun _ => Returned "reply") (fun _ => 0%Q).

(** A request with a query and a context that is not an object. *)
Definition bad_context : gmap string pyval :=
  {[ "query" := PStr "list files"; "context" := PStr "posix" ]}.

(** A request as the gateway hands it over: the body is JSON text. The
    other keys differ between the two events. *)
Definition posted : gmap string pyval :=
  {[ "httpMethod" := PStr "POST"; "body" := PStr "{...}" ]}.

Definition posted_again : gmap string pyval :=
  {[ "httpMethod" := PStr "GET"; "path" := PStr "/query";
     "body" := PStr "{...}" ]}.

(** A parser that reads every text as a request for [list files]. *)
Definition loads_request (_ : string) : option pyval :=
  Some (PDict {[ "query" := PStr " list files " ]}).

(** A machine on which the endpoint is not configured. *)
Definition unconfigured : Shellmate.world :=
  Shellmate.World ∅ "posix" "/home/user"
    (fun _ => Shellmate.Json (PDict {[ "command" := PStr "ls" ]}))
    (fun _ => Shellmate.Line "ls")
    (fun _ => Shellmate.Status 0).

(** The service answers with a command that is a number. *)
Definition service_number : Shellmate.world :=
  Shellmate.World configured "posix" "/home/user"
    (fun _ => Shellmate.Json (PDict {[ "command" := PInt 5 ]}))
    (fun _ => Shellmate.Line "ls")
    (fun _ => Shellmate.Status 0).

(** A machine with an API key, on which the command the operator submits
    fails. *)
Definition keyed : Shellmate.world :=
  Shellmate.World
    (<[ "SHELLMATE_API_KEY" := "secret" ]> (<[ "SHELL" := "/usr/bin/zsh" ]> configured))
    "posix" "/home/user"
    (fun _ => Shellmate.Json (PDict {[ "command" := PStr "ls" ]}))
    (fun _ => Shellmate.Line "ls -la /nowhere")
    (fun _ => Shellmate.Status 512).

(** A machine whose endpoint is written without a scheme:
    [urllib.request.Request] refuses it, and nothing is sent. *)
Definition no_scheme : Shellmate.world :=
  Shellmate.World
    {[ "SHELLMATE_API_ENDPOINT" := "api.example.com/prod/query" ]}
    "posix" "/home/user"
    (fun _ => Shellmate.Unsent "unknown url type: 'api.example.com/prod/query'")
    (fun _ => Shellmate.KeyboardInterrupt)
    (fun _ => Shellmate.Status 0).

Definition bare_client : Shellmate.ShellMate :=
  {| Shellmate.api_endpoint := "api.example.com/prod/query";
     Shellmate.api_key := None |}.

(** A listing of API keys: the first is named after the tool, the second
    carries the tag of the stack. *)
Definition key_listing : pyval :=
  PDict {[ "items" :=
    PList [ PDict {[ "name" := PStr "ShellMate-old"; "value" := PStr "OLDKEY000" ]};
            PDict {[ "name" := PStr "other"; "value" := PStr "TAGGED001";
                     "tags" := PDict {[ Install.stack_tag := PStr "shellmate-dev" ]} ]} ] ]}.

Definition loads_listing (_ : string) : option pyval := Some key_listing.

(** A listing whose only key has a number as its value. *)
Definition loads_number (_ : string) : option pyval :=
  Some (PDict {[ "items" := PList [ PDict {[ "value" := PInt 12345 ]} ] ]}).

Definition new_line (s : string) : string := s +:+ PyStr.nl.

(** A machine with a deployed stack, on which everything works; the
    operator chooses both versions. Only [.bashrc] is there. *)
Definition deployed : Install.world :=
  Install.World
    (fun call =>
       match call with
       | Install.DescribeStacks =>
           Returned (Install.Completed 0 (new_line "https://abc.example.com/dev"))
       | Install.GetApiKeys => Returned (Install.Completed 0 "{...}")
       | Install.GetApiKeyByName => Returned (Install.Completed 0 (new_line "None"))
       end)
    ["both"; " 3 "]
    true (fun _ => true) (fun _ => true)
    "/opt/shellmate/src/shellmate.py" "/opt/shellmate/src/shellmate.sh"
    (fun _ => true) None (Some (new_line "# my settings")) None.

(** A machine without a deployment, without Python 3.9 and without curl;
    the operator types an endpoint and a key, and chooses both versions. *)
Definition bare : Install.world :=
  Install.World
    (fun _ => Returned (Install.Completed 254 EmptyString))
    [" https://typed.example.com "; "KEY"; "3"]
    false (fun _ => false) (fun _ => true)
    "/opt/shellmate/src/shellmate.py" "/opt/shellmate/src/shellmate.sh"
    (fun _ => true) None (Some (new_line "# my settings")) None.

(** The same machine, except that nothing can be copied to
    [shellmate-py]. *)
Definition python_copy_fails : Install.world :=
  Install.World
    (Install.aws deployed) ["3"]
    true (fun _ => true) (fun _ => true)
    "/opt/shellmate/src/shellmate.py" "/opt/shellmate/src/shellmate.sh"
    (fun cmd => negb (PyStr.occurs "shellmate-py" cmd))
    None (Some (new_line "# my settings")) None.

(** A backend that throttles every attempt. *)
Definition always_throttled : Lambda.world :=
  Lambda.World
    (fun _ => Raised (ClientError "TooManyRequestsException" "Slow down"))
    (fun n => (inject_Z (Z.of_nat n) + (1 # 4))%Q).

End Scenario.
(** * Properties *)

(** ** Facts about the string operations *)

Section StringFacts.
Import PyStr.

Lemma lstrip_starts_clean s : starts_clean (lstrip s).
Proof.
  induction s as [|c s IH]; simpl; [exact I|].
  destruct (isspace c) eqn:Hc; [exact IH | exact Hc].
Qed.

Lemma lstrip_clean s : starts_clean s -> lstrip s = s.
Proof. destruct s as [|c s]; simpl; [reflexivity|]. now intros ->. Qed.

Lemma rstrip_starts_clean s : starts_clean s -> starts_clean (rstrip s).
Proof.
  destruct s as [|c s]; simpl; [exact id|]. intros Hc.
  destruct (rstrip s); [rewrite Hc|]; exact Hc.
Qed.

Lemma rstrip_cons c s :
  rstrip (String c s)
  = match rstrip s with
    | EmptyString => if isspace c then EmptyString else String c EmptyString
    | r => String c r
    end.
Proof. reflexivity. Qed.

Lemma rstrip_idem s : rstrip (rstrip s) = rstrip s.
Proof.
  induction s as [|c s IH]; simpl; [reflexivity|].
  destruct (rstrip s) as [|d r] eqn:Hr.
  - destruct (isspace c) eqn:Hc; simpl; [reflexivity|]. now rewrite Hc.
  - rewrite rstrip_cons, IH. reflexivity.
Qed.

Lemma strip_idem s : strip (strip s) = strip s.
Proof.
  unfold strip.
  rewrite (lstrip_clean (rstrip (lstrip s))).
  - apply rstrip_idem.
  - apply rstrip_starts_clean, lstrip_starts_clean.
Qed.

Lemma prefix_cons a p b s :
  String.prefix (String a p) (String b s)
  = if Ascii.ascii_dec a b then String.prefix p s else false.
Proof. reflexivity. Qed.

Lemma prefix_app p s t :
  String.prefix p s = true -> String.prefix p (s +:+ t) = true.
Proof.
  revert s; induction p as [|a p IH]; intros [|b s]; simpl; try easy.
  - intros _. destruct t; reflexivity.
  - destruct (Ascii.ascii_dec a b); [apply IH | easy].
Qed.

Lemma occurs_app p s t : occurs p s = true -> occurs p (s +:+ t) = true.
Proof.
  induction s as [|b s IH]; simpl.
  - rewrite orb_false_r. intros H. destruct p; [|discriminate H].
    destruct t; reflexivity.
  - intros [H|H]%orb_true_iff; apply orb_true_iff.
    + left. exact (prefix_app p (String b s) t H).
    + right. exact (IH H).
Qed.

Lemma occurs_lstrip p s : occurs p (lstrip s) = true -> occurs p s = true.
Proof.
  induction s as [|c s IH]; simpl; [exact id|].
  destruct (isspace c); [|exact id].
  intros H. rewrite (IH H). apply orb_true_r.
Qed.

Lemma append_cons c s t : String c s +:+ t = String c (s +:+ t).
Proof. reflexivity. Qed.

Lemma append_nil t : EmptyString +:+ t = t.
Proof. reflexivity. Qed.

Lemma rstrip_is_prefix s : exists t, s = rstrip s +:+ t.
Proof.
  induction s as [|c s [t Ht]]; simpl; [now exists EmptyString|].
  destruct (rstrip s) as [|d r].
  - destruct (isspace c).
    + now exists (String c s).
    + exists t. rewrite append_cons. now f_equal.
  - exists t. rewrite append_cons. now f_equal.
Qed.

Lemma occurs_rstrip p s : occurs p (rstrip s) = true -> occurs p s = true.
Proof.
  intros H. destruct (rstrip_is_prefix s) as [t Ht]. rewrite Ht.
  now apply occurs_app.
Qed.

Lemma strip_absent p s : occurs p s = false -> occurs p (strip s) = false.
Proof.
  intros H. unfold strip.
  destruct (occurs p (rstrip (lstrip s))) eqn:E; [|reflexivity].
  apply occurs_rstrip, occurs_lstrip in E. congruence.
Qed.

Lemma occurs_cons p c s :
  occurs p (String c s) = String.prefix p (String c s) || occurs p s.
Proof. reflexivity. Qed.

Lemma replace_scan_0 old new c s :
  replace_scan old new 0 (String c s)
  = if String.prefix old (String c s)
    then new +:+ replace_scan old new (String.length old - 1) s
    else String c (replace_scan old new 0 s).
Proof. reflexivity. Qed.

Lemma replace_scan_absent old new s :
  occurs old s = false -> replace_scan old new 0 s = s.
Proof.
  induction s as [|c s IH]; [reflexivity|].
  rewrite occurs_cons, replace_scan_0.
  intros [H1 H2]%orb_false_iff.
  rewrite H1. f_equal. exact (IH H2).
Qed.

Lemma replace_absent s old new :
  old <> EmptyString -> occurs old s = false -> replace s old new = s.
Proof.
  intros Hne H. unfold replace. destruct old; [contradiction|].
  now apply replace_scan_absent.
Qed.

End StringFacts.

(** ** The response sanitizer *)

Section SanitizerFacts.
Import PyStr Lambda.

Lemma prefix_tick_scan s :
  String.prefix "`" s = false ->
  String.prefix "`" (replace_scan fence EmptyString 0 s) = false.
Proof.
  destruct s as [|c s]; [reflexivity|].
  rewrite replace_scan_0. unfold fence. rewrite !prefix_cons.
  destruct (Ascii.ascii_dec "`" c) as [->|Hc]; [|intros _].
  - destruct s; discriminate.
  - rewrite prefix_cons. destruct (Ascii.ascii_dec "`" c); [contradiction|reflexivity].
Qed.

Lemma prefix_ticks_scan s :
  String.prefix "``" s = false ->
  String.prefix "``" (replace_scan fence EmptyString 0 s) = false.
Proof.
  destruct s as [|c s]; [reflexivity|].
  rewrite replace_scan_0. unfold fence. rewrite !prefix_cons.
  destruct (Ascii.ascii_dec "`" c) as [<-|Hc].
  - intros H. destruct s as [|d s]; [reflexivity|].
    rewrite prefix_cons in *.
    destruct (Ascii.ascii_dec "`" d) as [<-|Hd].
    + destruct s; discriminate.
    + rewrite prefix_cons.
      destruct (Ascii.ascii_dec "`" "`"); [|contradiction].
      apply (prefix_tick_scan (String d s)).
      rewrite prefix_cons. destruct (Ascii.ascii_dec "`" d); [contradiction|reflexivity].
  - intros _. rewrite prefix_cons.
    destruct (Ascii.ascii_dec "`" c); [contradiction|reflexivity].
Qed.

(** Once the fences are taken out, none is left. *)
Lemma fence_removed skip s :
  occurs fence (replace_scan fence EmptyString skip s) = false.
Proof.
  revert skip; induction s as [|c s IH]; intros skip; [reflexivity|].
  destruct skip as [|k]; [|apply IH].
  rewrite replace_scan_0.
  destruct (String.prefix fence (String c s)) eqn:Hp.
  - rewrite append_nil. apply IH.
  - rewrite occurs_cons, IH, orb_false_r.
    unfold fence in *. rewrite prefix_cons in *.
    destruct (Ascii.ascii_dec "`" c); [|reflexivity].
    now apply prefix_ticks_scan.
Qed.

Lemma bash_fence_prefix s :
  String.prefix bash_fence s = true -> String.prefix fence s = true.
Proof.
  unfold bash_fence, fence.
  destruct s as [|c1 [|c2 [|c3 s]]]; try discriminate;
    rewrite !prefix_cons;
    repeat (destruct (Ascii.ascii_dec _ _); try discriminate).
  intros _. destruct s; reflexivity.
Qed.

Lemma bash_fence_absent s :
  occurs fence s = false -> occurs bash_fence s = false.
Proof.
  induction s as [|c s IH]; [reflexivity|].
  rewrite !occurs_cons. intros [H1 H2]%orb_false_iff.
  rewrite (IH H2), orb_false_r.
  destruct (String.prefix bash_fence (String c s)) eqn:E; [|reflexivity].
  apply bash_fence_prefix in E. congruence.
Qed.

(** The result of [sanitize] holds no fence and is already stripped. *)
Lemma sanitize_no_fence x : occurs fence (sanitize x) = false.
Proof. unfold sanitize, replace, fence at 2. apply strip_absent, fence_removed. Qed.

Lemma sanitize_stripped x : strip (sanitize x) = sanitize x.
Proof. unfold sanitize. apply strip_idem. Qed.

End SanitizerFacts.

(** *** A command between two fence lines *)

Section FencedReply.
Import PyStr Lambda.












End FencedReply.




(** ** The backend invoker *)

Section RetryFacts.
Import Py Lambda.

Lemma py_mod_half now : (0 <= py_mod now (1 # 2) /\ py_mod now (1 # 2) < 1 # 2)%Q.
Proof.
  unfold py_mod. set (y := (now / (1 # 2))%Q).
  assert (Hy : (now == y * (1 # 2))%Q) by (unfold y; field).
  pose proof (Qfloor_le y) as Hle. pose proof (Qlt_floor y) as Hlt.
  rewrite inject_Z_plus in Hlt. change (inject_Z 1) with 1%Q in Hlt.
  split; lra.
Qed.

Lemma on_failure_throttled n now code message :
  (n < max_retries)%nat -> code ∈ throttling_codes ->
  on_failure n now (ClientError code message) = Continue (throttle_delay n now).
Proof.
  intros Hn Hc. unfold on_failure.
  rewrite (bool_decide_eq_true_2 _ Hc).
  now apply Nat.ltb_lt in Hn as ->.
Qed.

Lemma on_failure_validation n now message :
  on_failure n now (ClientError "ValidationException" message)
  = Reraise (ClientError "ValidationException" message).
Proof. reflexivity. Qed.

Lemma on_failure_other n now code message :
  (n < max_retries)%nat -> code ∉ throttling_codes ->
  code <> "ValidationException" ->
  on_failure n now (ClientError code message) = Continue (retry_delay n).
Proof.
  intros Hn Hc Hv. unfold on_failure.
  rewrite (bool_decide_eq_false_2 _ Hc). simpl.
  apply String.eqb_neq in Hv as ->.
  now apply Nat.ltb_lt in Hn as ->.
Qed.

Lemma on_failure_last now e : on_failure max_retries now e = Reraise e.
Proof.
  destruct e as [code message| | | | | | |]; try reflexivity.
  unfold on_failure. rewrite Nat.ltb_irrefl, andb_false_r.
  now destruct (String.eqb code "ValidationException").
Qed.

Lemma retry_loop_continue w n delay rest :
  attempt_once w n = Continue delay ->
  retry_loop w (n :: rest)
  = (Invoke n :: Sleep delay :: (retry_loop w rest).1, (retry_loop w rest).2).
Proof. intros H. simpl. rewrite H. now destruct (retry_loop w rest). Qed.

Lemma retry_loop_break w n text rest :
  invoke_model w n = Returned text ->
  retry_loop w (n :: rest) = ([Invoke n], Returned text).
Proof. intros H. simpl. unfold attempt_once. now rewrite H. Qed.

Lemma retry_loop_reraise w n e rest :
  attempt_once w n = Reraise e ->
  retry_loop w (n :: rest) = ([Invoke n], Raised e).
Proof. intros H. simpl. now rewrite H. Qed.

Lemma attempts_bounded w l : (attempts (retry_loop w l).1 <= length l)%nat.
Proof.
  induction l as [|n l IH]; simpl; [lia|].
  destruct (attempt_once w n); simpl; try lia.
  destruct (retry_loop w l); simpl in *; lia.
Qed.

End RetryFacts.

Section InvokerProperties.
Import Py Lambda.

(** C1. When attempt [n] fails with a throttling error and [n] is below
    [max_retries = 5], the loop sleeps [base_delay * 2^n + jitter], with
    [base_delay = 2] and [0 <= jitter < 1/2], and goes on with the next
    attempt. Hence, against a backend that throttles attempts 0, 1 and 2
    and answers attempt 3, the invoker returns that answer after exactly
    4 attempts, having slept [2 + j0], [4 + j1] and [8 + j2]: without the
    jitter the delays are 2, 4 and 8, which do not decrease (and with it
    they still increase). In general the delay without its jitter does not
    decrease from one attempt to the next. *)
Theorem throttled_backoff :
  (forall w n code message rest,
      (n < max_retries)%nat ->
      code ∈ throttling_codes ->
      invoke_model w n = Raised (ClientError code message) ->
      exists jitter,
        (0 <= jitter)%Q /\ (jitter < 1 # 2)%Q /\
        retry_loop w (n :: rest)
        = (Invoke n :: Sleep (inject_Z (2 * 2 ^ Z.of_nat n) + jitter)
             :: (retry_loop w rest).1,
           (retry_loop w rest).2))
  /\ (forall w text,
        (forall n, (n < 3)%nat ->
           exists code message,
             code ∈ throttling_codes /\
             invoke_model w n = Raised (ClientError code message)) ->
        invoke_model w 3%nat = Returned text ->
        exists j0 j1 j2,
          Forall (fun j => 0 <= j /\ j < 1 # 2)%Q [j0; j1; j2] /\
          invoke_with_retry w
          = ([Invoke 0; Sleep (2 + j0); Invoke 1; Sleep (4 + j1);
              Invoke 2; Sleep (8 + j2); Invoke 3],
             Returned text) /\
          attempts (invoke_with_retry w).1 = 4%nat /\
          (2 <= 4 /\ 4 <= 8)%Q /\
          (2 + j0 < 4 + j1 /\ 4 + j1 < 8 + j2)%Q)
  /\ (forall n,
        (inject_Z (base_delay * 2 ^ Z.of_nat n)
         <= inject_Z (base_delay * 2 ^ Z.of_nat (S n)))%Q)
  /\ max_retries = 5%nat /\ base_delay = 2%Z.
Proof.
  split; [|split; [|split; [|split; reflexivity]]].
  3: { intros n. rewrite <- Zle_Qle. unfold base_delay.
       apply Z.mul_le_mono_nonneg_l; [lia|].
       apply Z.pow_le_mono_r; lia. }
  - intros w n code message rest Hn Hc Hf.
    exists (py_mod (time w n) (1 # 2)).
    destruct (py_mod_half (time w n)) as [H0 H1].
    split; [exact H0|split; [exact H1|]].
    apply retry_loop_continue. unfold attempt_once. rewrite Hf.
    now apply on_failure_throttled.
  - intros w text Hthr Hok.
    destruct (Hthr 0%nat) as (c0 & m0 & Hc0 & Hf0); [lia|].
    destruct (Hthr 1%nat) as (c1 & m1 & Hc1 & Hf1); [lia|].
    destruct (Hthr 2%nat) as (c2 & m2 & Hc2 & Hf2); [lia|].
    exists (py_mod (time w 0%nat) (1 # 2)), (py_mod (time w 1%nat) (1 # 2)),
      (py_mod (time w 2%nat) (1 # 2)).
    destruct (py_mod_half (time w 0%nat)) as [A0 B0].
    destruct (py_mod_half (time w 1%nat)) as [A1 B1].
    destruct (py_mod_half (time w 2%nat)) as [A2 B2].
    assert (Hrun : invoke_with_retry w
      = ([Invoke 0; Sleep (2 + py_mod (time w 0%nat) (1 # 2));
          Invoke 1; Sleep (4 + py_mod (time w 1%nat) (1 # 2));
          Invoke 2; Sleep (8 + py_mod (time w 2%nat) (1 # 2)); Invoke 3],
         Returned text)).
    { unfold invoke_with_retry. cbn [seq max_retries Nat.add].
      rewrite (retry_loop_continue w 0 (throttle_delay 0 (time w 0%nat)));
        [|unfold attempt_once; rewrite Hf0; apply on_failure_throttled;
          [unfold max_retries; lia|exact Hc0]].
      rewrite (retry_loop_continue w 1 (throttle_delay 1 (time w 1%nat)));
        [|unfold attempt_once; rewrite Hf1; apply on_failure_throttled;
          [unfold max_retries; lia|exact Hc1]].
      rewrite (retry_loop_continue w 2 (throttle_delay 2 (time w 2%nat)));
        [|unfold attempt_once; rewrite Hf2; apply on_failure_throttled;
          [unfold max_retries; lia|exact Hc2]].
      rewrite (retry_loop_break w 3 text _ Hok). reflexivity. }
    split; [repeat constructor; assumption|].
    split; [exact Hrun|]. rewrite Hrun.
    split; [reflexivity|]. split; [split; discriminate|]. split; lra.
Qed.

Lemma throttled_backoff_witness :
  (exists jitter,
      (0 <= jitter)%Q /\ (jitter < 1 # 2)%Q /\
      retry_loop Scenario.throttled_thrice [0; 1]%nat
      = (Invoke 0 :: Sleep (inject_Z (2 * 2 ^ Z.of_nat 0) + jitter)
           :: (retry_loop Scenario.throttled_thrice [1%nat]).1,
         (retry_loop Scenario.throttled_thrice [1%nat]).2))
  /\ attempts (invoke_with_retry Scenario.throttled_thrice).1 = 4%nat.
Proof.
  destruct throttled_backoff as (Hstep & Hrun & _).
  split.
  - apply (Hstep Scenario.throttled_thrice 0%nat "ThrottlingException"
             "Too many requests" [1%nat]).
    + unfold max_retries. lia.
    + unfold throttling_codes. constructor.
    + reflexivity.
  - destruct (Hrun Scenario.throttled_thrice "reply") as (j0 & j1 & j2 & _ & _ & H & _).
    + intros n Hn. exists "ThrottlingException", "Too many requests".
      split; [unfold throttling_codes; constructor|].
      simpl. apply Nat.ltb_lt in Hn. now rewrite Hn.
    + reflexivity.
    + exact H.
Defined.

(** C2. A validation error ends the loop at the attempt that met it,
    however many attempts remain: nothing is slept, no further call is
    made, and the error is raised again. When it is met at attempt 0 the
    invoker has made exactly one call, and [generate_shell_command]
    reports the failure by returning [None]. *)
Theorem validation_error_not_retried :
  forall json_loads w message,
    invoke_model w 0%nat = Raised (ClientError "ValidationException" message) ->
    invoke_with_retry w
    = ([Invoke 0], Raised (ClientError "ValidationException" message))
    /\ attempts (invoke_with_retry w).1 = 1%nat
    /\ sleeps (invoke_with_retry w).1 = []
    /\ (forall query context,
          generate_shell_command json_loads w query (PDict context)
          = ([Invoke 0], Returned None))
    /\ (forall n rest,
          invoke_model w n = Raised (ClientError "ValidationException" message) ->
          retry_loop w (n :: rest)
          = ([Invoke n], Raised (ClientError "ValidationException" message))).
Proof.
  intros json_loads w message H.
  assert (Hstep : forall n rest,
    invoke_model w n = Raised (ClientError "ValidationException" message) ->
    retry_loop w (n :: rest)
    = ([Invoke n], Raised (ClientError "ValidationException" message))).
  { intros n rest Hn. apply retry_loop_reraise.
    unfold attempt_once. rewrite Hn. apply on_failure_validation. }
  assert (Hrun : invoke_with_retry w
    = ([Invoke 0], Raised (ClientError "ValidationException" message))).
  { apply (Hstep 0%nat), H. }
  split; [exact Hrun|]. rewrite Hrun.
  split; [reflexivity|]. split; [reflexivity|]. split; [|exact Hstep].
  intros query context. unfold generate_shell_command. simpl.
  rewrite Hrun. reflexivity.
Qed.

Lemma validation_error_not_retried_witness :
  invoke_with_retry Scenario.rejecting
  = ([Invoke 0],
     Raised (ClientError "ValidationException" "Malformed input request"))
  /\ attempts (invoke_with_retry Scenario.rejecting).1 = 1%nat.
Proof.
  destruct (validation_error_not_retried (fun _ => None) Scenario.rejecting
              "Malformed input request") as (H1 & H2 & _).
  - reflexivity.
  - split; [exact H1 | exact H2].
Defined.

(** C3, as stated, fails: a failure that is not a [ClientError] (here a
    timeout of the call) is neither a throttling nor a validation error,
    and attempts remain, yet it is not retried. The [except ClientError]
    clause does not catch it: the invoker stops after one call, without
    any sleep. *)
Lemma unclassified_failure_not_retried :
  (0 < max_retries)%nat
  /\ invoke_model Scenario.timed_out 0%nat
     = Raised (OtherError "Read timeout on endpoint URL")
  /\ attempt_once Scenario.timed_out 0%nat
     = Reraise (OtherError "Read timeout on endpoint URL")
  /\ invoke_with_retry Scenario.timed_out
     = ([Invoke 0], Raised (OtherError "Read timeout on endpoint URL"))
  /\ sleeps (invoke_with_retry Scenario.timed_out).1 = []
  /\ attempts (invoke_with_retry Scenario.timed_out).1 = 1%nat.
Proof. unfold max_retries. repeat split; try reflexivity. lia. Qed.

(** C3, amended. A [ClientError] whose code is neither a throttling code
    nor [ValidationException] is retried after a sleep of exactly
    [1 + 0.5 * n] after failed attempt [n], as long as [n < 5]. A failure
    that is not a [ClientError] is not caught by the loop and ends the
    invocation at once, and so does every failure of attempt 5. The
    invoker makes at most 6 calls. *)
Theorem client_error_linear_backoff :
  (forall w n code message rest,
      (n < max_retries)%nat ->
      code ∉ throttling_codes ->
      code <> "ValidationException" ->
      invoke_model w n = Raised (ClientError code message) ->
      retry_loop w (n :: rest)
      = (Invoke n :: Sleep (1 + inject_Z (Z.of_nat n) * (1 # 2))
           :: (retry_loop w rest).1,
         (retry_loop w rest).2))
  /\ (forall w n e rest,
        (forall code message, e <> ClientError code message) ->
        invoke_model w n = Raised e ->
        retry_loop w (n :: rest) = ([Invoke n], Raised e))
  /\ (forall w e rest,
        invoke_model w max_retries = Raised e ->
        retry_loop w (max_retries :: rest) = ([Invoke max_retries], Raised e))
  /\ (forall w, (attempts (invoke_with_retry w).1 <= 6)%nat)
  /\ max_retries = 5%nat.
Proof.
  repeat split.
  - intros w n code message rest Hn Hc Hv Hf.
    apply (retry_loop_continue w n (retry_delay n)).
    unfold attempt_once. rewrite Hf. now apply on_failure_other.
  - intros w n e rest He Hf. apply retry_loop_reraise.
    unfold attempt_once. rewrite Hf.
    destruct e as [code message| | | | | | |]; try reflexivity.
    now destruct (He code message).
  - intros w e rest Hf. apply retry_loop_reraise.
    unfold attempt_once. rewrite Hf. apply on_failure_last.
  - intros w. apply (attempts_bounded w (seq 0 (max_retries + 1))).
Qed.

Lemma client_error_linear_backoff_witness :
  retry_loop Scenario.unavailable [4; 5]%nat
  = (Invoke 4 :: Sleep (1 + inject_Z (Z.of_nat 4) * (1 # 2))
       :: (retry_loop Scenario.unavailable [5%nat]).1,
     (retry_loop Scenario.unavailable [5%nat]).2)
  /\ retry_loop Scenario.timed_out [0; 1]%nat
     = ([Invoke 0], Raised (OtherError "Read timeout on endpoint URL"))
  /\ retry_loop Scenario.unavailable [max_retries]
     = ([Invoke max_retries],
        Raised (ClientError "ServiceUnavailableException" "Try again")).
Proof.
  destruct client_error_linear_backoff as (Hlin & Hother & Hlast & _).
  split; [|split].
  - apply (Hlin Scenario.unavailable 4%nat "ServiceUnavailableException"
             "Try again" [5%nat]).
    + unfold max_retries. lia.
    + unfold throttling_codes. intros H.
      repeat (apply elem_of_cons in H as [H|H]; [discriminate H|]).
      now apply elem_of_nil in H.
    + discriminate.
    + reflexivity.
  - apply Hother; [discriminate | reflexivity].
  - apply Hlast. reflexivity.
Defined.

End InvokerProperties.

(** ** The request handler *)

Section HandlerFacts.
Import Py Lambda.

Lemma bind_returned {E A B} (a : A) (k : A -> io E B) :
  bind (lift (Returned a)) k = k a.
Proof. unfold bind, lift. now destruct (k a). Qed.

Lemma bind_raised {E A B} (e : exn) (k : A -> io E B) :
  bind (lift (Raised e)) k = ([], Raised e).
Proof. reflexivity. Qed.

Lemma generate_with_dict json_loads w query d :
  generate_shell_command json_loads w query (PDict d)
  = ((invoke_with_retry w).1,
     Returned (generated json_loads (invoke_with_retry w).2)).
Proof.
  unfold generate_shell_command, dict_get. rewrite !bind_returned.
  destruct (invoke_with_retry w) as [t [text|e]]; simpl; [|now rewrite app_nil_r].
  destruct (extract_command json_loads text); simpl; now rewrite !app_nil_r.
Qed.

Lemma generate_without_dict json_loads w query context :
  (forall d, context <> PDict d) ->
  generate_shell_command json_loads w query context = ([], Raised AttributeError).
Proof.
  intros H. unfold generate_shell_command.
  destruct context; try reflexivity. now destruct (H d).
Qed.

Lemma retry_loop_calls w n rest : (retry_loop w (n :: rest)).1 <> [].
Proof.
  cbn [retry_loop]. destruct (attempt_once w n); try discriminate.
  destruct (retry_loop w rest). discriminate.
Qed.

Lemma invoke_with_retry_calls w : (invoke_with_retry w).1 <> [].
Proof. apply (retry_loop_calls w 0%nat (seq 1 max_retries)). Qed.

Lemma lambda_handler_no_dict json_loads w event :
  (forall d, request_body json_loads event <> Returned (PDict d)) ->
  lambda_handler json_loads w event
  = ([], Returned (error_response 500 "Internal server error")).
Proof.
  intros H. unfold lambda_handler, lambda_handler_try.
  destruct (request_body json_loads event) as [body|e]; [|reflexivity].
  destruct body; try reflexivity. now destruct (H d).
Qed.

Lemma lambda_handler_dict json_loads w event d :
  request_body json_loads event = Returned (PDict d) ->
  lambda_handler json_loads w event
  = match d !! "query" with
    | None => ([], Returned (error_response 400 "Query parameter is required"))
    | Some (PStr s) =>
        if String.eqb (PyStr.strip s) EmptyString
        then ([], Returned (error_response 400 "Query parameter is required"))
        else answer (PyStr.strip s)
               (generate_shell_command json_loads w (PyStr.strip s)
                  (default (PDict ∅) (d !! "context")))
    | Some _ => ([], Returned (error_response 500 "Internal server error"))
    end.
Proof.
  intros Hb. unfold lambda_handler, lambda_handler_try. rewrite Hb.
  rewrite bind_returned. unfold dict_get. rewrite bind_returned.
  destruct (d !! "query") as [v|]; cbn [default from_option id]; [|reflexivity].
  destruct v as [| | |s| |]; try reflexivity.
  unfold method_strip. rewrite !bind_returned.
  destruct (String.eqb (PyStr.strip s) EmptyString); [reflexivity|].
  unfold answer, try_except, bind.
  destruct (generate_shell_command _ _ _ _) as [t [[[|c command']|]|e]];
    cbn; now rewrite ?app_nil_r.
Qed.

(** The three ways a request is handled. *)
Lemma lambda_handler_cases json_loads w event :
  lambda_handler json_loads w event
  = ([], Returned (error_response 500 "Internal server error"))
  \/ lambda_handler json_loads w event
     = ([], Returned (error_response 400 "Query parameter is required"))
  \/ (exists query context,
        query <> EmptyString
        /\ lambda_handler json_loads w event
           = answer query (generate_shell_command json_loads w query context)).
Proof.
  destruct (request_body json_loads event) as [body|e] eqn:Hb.
  - destruct body as [| | | |l|d];
      try (left; apply lambda_handler_no_dict; rewrite Hb; discriminate).
    rewrite (lambda_handler_dict _ _ _ _ Hb).
    destruct (d !! "query") as [v|]; [|now right; left].
    destruct v as [| | |s| |]; try (now left).
    destruct (String.eqb (PyStr.strip s) EmptyString) eqn:Hs; [now right; left|].
    right; right. apply String.eqb_neq in Hs. eauto.
  - left. apply lambda_handler_no_dict. rewrite Hb. discriminate.
Qed.

Lemma answer_cases query g :
  (exists t, answer query g
             = (t, Returned (error_response 500 "Internal server error")))
  \/ (exists t, answer query g
                = (t, Returned (error_response 500 "Failed to generate shell command")))
  \/ (exists t c command,
        g = (t, Returned (Some (String c command)))
        /\ answer query g
           = (t, Returned (Response 200 json_headers
                    (json_dumps [("command", String c command); ("query", query)])))).
Proof.
  destruct g as [t [[[|c command]|]|e]]; cbn; eauto 7.
Qed.

(** The response depends on the backend only through the command it
    generated: two backends whose invokers both fail get the same one. *)
Lemma failures_indistinguishable json_loads w w' event e e' :
  (invoke_with_retry w).2 = Raised e ->
  (invoke_with_retry w').2 = Raised e' ->
  (lambda_handler json_loads w event).2 = (lambda_handler json_loads w' event).2.
Proof.
  intros He He'.
  destruct (request_body json_loads event) as [body|x] eqn:Hb.
  - destruct body as [| | | |l|d];
      try (rewrite !lambda_handler_no_dict by (rewrite Hb; discriminate);
           reflexivity).
    rewrite !(lambda_handler_dict _ _ _ _ Hb).
    destruct (d !! "query") as [v|]; [|reflexivity].
    destruct v as [| | |s| |]; try reflexivity.
    destruct (String.eqb (PyStr.strip s) EmptyString); [reflexivity|].
    destruct (default (PDict ∅) (d !! "context")) as [| | | | |c];
      try (rewrite !generate_without_dict by discriminate; reflexivity).
    rewrite !generate_with_dict, He, He'. reflexivity.
  - rewrite !lambda_handler_no_dict by (rewrite Hb; discriminate). reflexivity.
Qed.

(** What the handler returns, by what the generation gave. *)
Lemma lambda_handler_outcome json_loads w event :
  lambda_handler json_loads w event
  = ([], Returned (error_response 500 "Internal server error"))
  \/ lambda_handler json_loads w event
     = ([], Returned (error_response 400 "Query parameter is required"))
  \/ (exists query,
        query <> EmptyString
        /\ lambda_handler json_loads w event
           = answer query
               ((invoke_with_retry w).1,
                Returned (generated json_loads (invoke_with_retry w).2))).
Proof.
  destruct (lambda_handler_cases json_loads w event)
    as [H|[H|(query & context & Hq & H)]]; [now left|now right; left|].
  destruct context as [| | | | |d];
    try (left; rewrite H, generate_without_dict by discriminate; reflexivity).
  right; right. exists query. split; [exact Hq|].
  now rewrite H, generate_with_dict.
Qed.

Lemma answer_failed query t g :
  (forall a command, g <> Some (String a command)) ->
  answer query (t, Returned g)
  = (t, Returned (error_response 500 "Failed to generate shell command")).
Proof.
  intros H. destruct g as [[|a command]|]; try reflexivity.
  now destruct (H a command).
Qed.

End HandlerFacts.

Section HandlerProperties.
Import Py Lambda.

(** The branch that refuses a request for its query: when the request
    body is a JSON object whose query is absent, or is a string that is
    empty once stripped, the handler answers with status 400 and the body
    [{"error": "Query parameter is required"}], and its trace is empty:
    [generate_shell_command] is not called and the backend is never
    invoked. *)
Lemma empty_query_rejected :
  forall json_loads w event d,
    request_body json_loads event = Returned (PDict d) ->
    (d !! "query" = None
     \/ exists s, d !! "query" = Some (PStr s) /\ PyStr.strip s = EmptyString) ->
    exists r,
      lambda_handler json_loads w event = ([], Returned r)
      /\ statusCode r = 400%Z
      /\ body r = error_text "Query parameter is required"
      /\ headers r = json_headers
      /\ attempts (lambda_handler json_loads w event).1 = 0%nat.
Proof.
  intros json_loads w event d Hb Hq.
  exists (error_response 400 "Query parameter is required").
  assert (H : lambda_handler json_loads w event
              = ([], Returned (error_response 400 "Query parameter is required"))).
  { rewrite (lambda_handler_dict _ _ _ _ Hb).
    destruct Hq as [->|(s & -> & Hs)]; [reflexivity|].
    now rewrite Hs. }
  rewrite H. repeat split.
Qed.

Lemma empty_query_rejected_witness :
  exists r,
    lambda_handler (fun _ => None) Scenario.throttled_thrice Scenario.blank_query
    = ([], Returned r)
    /\ statusCode r = 400%Z
    /\ body r = error_text "Query parameter is required"
    /\ headers r = json_headers
    /\ attempts (lambda_handler (fun _ => None) Scenario.throttled_thrice
                   Scenario.blank_query).1 = 0%nat.
Proof.
  apply (empty_query_rejected (fun _ => None) Scenario.throttled_thrice
           Scenario.blank_query Scenario.blank_query).
  - reflexivity.
  - right. exists "   ". split; reflexivity.
Defined.

(** C4. The handler refuses a request without a query only when the
    body is a JSON object: then a missing [query] key, or a query that
    is a string and is blank, is answered with status 400 and
    [{"error": "Query parameter is required"}] without a call of the
    backend. A request whose query is absent in another way is not: when
    the request has no body (the body is [null]), and when the query is
    [null], reading the query raises and the answer is status 500 with
    [{"error": "Internal server error"}]. The backend is not called
    there either. *)
Theorem absent_query_not_refused :
  forall json_loads w event,
    (event !! "body" = Some PNone ->
     lambda_handler json_loads w event
     = ([], Returned (error_response 500 "Internal server error")))
    /\ (forall d,
          request_body json_loads event = Returned (PDict d) ->
          d !! "query" = Some PNone ->
          lambda_handler json_loads w event
          = ([], Returned (error_response 500 "Internal server error")))
    /\ (forall d,
          request_body json_loads event = Returned (PDict d) ->
          (d !! "query" = None
           \/ exists s, d !! "query" = Some (PStr s)
                        /\ PyStr.strip s = EmptyString) ->
          lambda_handler json_loads w event
          = ([], Returned (error_response 400 "Query parameter is required")))
    /\ statusCode (error_response 500 "Internal server error") = 500%Z
    /\ body (error_response 500 "Internal server error")
       = error_text "Internal server error"
    /\ error_response 500 "Internal server error"
       <> error_response 400 "Query parameter is required".
Proof.
  intros json_loads w event.
  split; [|split; [|split; [|split; [|split]]]];
    try reflexivity; try discriminate.
  - intros Hb. apply lambda_handler_no_dict. intros d.
    unfold request_body. rewrite Hb. discriminate.
  - intros d Hb Hq. rewrite (lambda_handler_dict _ _ _ _ Hb). now rewrite Hq.
  - intros d Hb Hq. rewrite (lambda_handler_dict _ _ _ _ Hb).
    destruct Hq as [->|(s & -> & Hs)]; [reflexivity|]. now rewrite Hs.
Qed.

Lemma absent_query_not_refused_witness :
  lambda_handler (fun _ => None) Scenario.answering Scenario.post_without_body
  = ([], Returned (error_response 500 "Internal server error"))
  /\ lambda_handler (fun _ => None) Scenario.answering Scenario.null_query
     = ([], Returned (error_response 500 "Internal server error"))
  /\ lambda_handler (fun _ => None) Scenario.answering Scenario.blank_query
     = ([], Returned (error_response 400 "Query parameter is required")).
Proof.
  split; [|split].
  - apply (absent_query_not_refused (fun _ => None) Scenario.answering
             Scenario.post_without_body). reflexivity.
  - apply (absent_query_not_refused (fun _ => None) Scenario.answering
             Scenario.null_query) with (d := Scenario.null_query); reflexivity.
  - apply (absent_query_not_refused (fun _ => None) Scenario.answering
             Scenario.blank_query) with (d := Scenario.blank_query);
      [reflexivity|].
    right. exists "   ". split; reflexivity.
Defined.

(** C8. The handler always returns a response and never raises. A
    response of status 500 is one of two fixed responses, whose bodies
    are [{"error": "Failed to generate shell command"}] and
    [{"error": "Internal server error"}]. Whenever the backend was
    called and no command came of it, it is the first: when the invoker
    raised, whatever the error, when the reply of the backend could not
    be decoded, and when the command extracted was empty. When the body
    of the handler's [try] raised, it is the second. Nothing of the
    error or of the backend's text reaches the response: the response is
    one of three fixed responses unless a command was generated, and
    another backend that fails, in whatever way, gets the same
    response. *)
Theorem handler_failures_generic :
  forall json_loads w event,
    exists r,
      (lambda_handler json_loads w event).2 = Returned r
      /\ (statusCode r = 500%Z ->
          r = error_response 500 "Failed to generate shell command"
          \/ r = error_response 500 "Internal server error")
      /\ (forall e,
            (invoke_with_retry w).2 = Raised e ->
            (lambda_handler json_loads w event).1 <> [] ->
            r = error_response 500 "Failed to generate shell command")
      /\ (forall e,
            (lambda_handler_try json_loads w event).2 = Raised e ->
            r = error_response 500 "Internal server error")
      /\ (forall w' e e',
            (invoke_with_retry w).2 = Raised e ->
            (invoke_with_retry w').2 = Raised e' ->
            (lambda_handler json_loads w' event).2 = Returned r)
      /\ body (error_response 500 "Failed to generate shell command")
         = error_text "Failed to generate shell command"
      /\ body (error_response 500 "Internal server error")
         = error_text "Internal server error"
      /\ ((lambda_handler json_loads w event).1 <> [] ->
          (forall text a command,
              (invoke_with_retry w).2 = Returned text ->
              extract_command json_loads text <> Returned (String a command)) ->
          r = error_response 500 "Failed to generate shell command")
      /\ (r = error_response 400 "Query parameter is required"
          \/ r = error_response 500 "Failed to generate shell command"
          \/ r = error_response 500 "Internal server error"
          \/ exists query text a command,
               (invoke_with_retry w).2 = Returned text
               /\ extract_command json_loads text = Returned (String a command)
               /\ r = Response 200 json_headers
                        (json_dumps [("command", String a command);
                                     ("query", query)]))
      /\ (forall w',
            (forall text a command,
                (invoke_with_retry w).2 = Returned text ->
                extract_command json_loads text <> Returned (String a command)) ->
            (forall text a command,
                (invoke_with_retry w').2 = Returned text ->
                extract_command json_loads text <> Returned (String a command)) ->
            (lambda_handler json_loads w' event).2 = Returned r).
Proof.
  intros json_loads w event.
  assert (Hgen : forall w0,
    (forall text a command,
        (invoke_with_retry w0).2 = Returned text ->
        extract_command json_loads text <> Returned (String a command)) ->
    forall a command,
      generated json_loads (invoke_with_retry w0).2 <> Some (String a command)).
  { intros w0 H a command. unfold generated.
    destruct (invoke_with_retry w0).2 as [text|e]; [|discriminate].
    specialize (H text a command eq_refl).
    destruct (extract_command json_loads text); congruence. }
  assert (Hraised : forall w0 e,
    (invoke_with_retry w0).2 = Raised e ->
    forall text a command,
      (invoke_with_retry w0).2 = Returned text ->
      extract_command json_loads text <> Returned (String a command)).
  { intros w0 e -> text a command. discriminate. }
  assert (Hsame : forall w',
    (forall text a command,
        (invoke_with_retry w).2 = Returned text ->
        extract_command json_loads text <> Returned (String a command)) ->
    (forall text a command,
        (invoke_with_retry w').2 = Returned text ->
        extract_command json_loads text <> Returned (String a command)) ->
    (lambda_handler json_loads w' event).2 = (lambda_handler json_loads w event).2).
  { intros w' Hw Hw'.
    destruct (request_body json_loads event) as [body|x] eqn:Hb.
    - destruct body as [| | | |l|d];
        try (rewrite !lambda_handler_no_dict by (rewrite Hb; discriminate);
             reflexivity).
      rewrite !(lambda_handler_dict _ _ _ _ Hb).
      destruct (d !! "query") as [v|]; [|reflexivity].
      destruct v as [| | |s| |]; try reflexivity.
      destruct (String.eqb (PyStr.strip s) EmptyString); [reflexivity|].
      destruct (default (PDict ∅) (d !! "context")) as [| | | | |c];
        try (rewrite !generate_without_dict by discriminate; reflexivity).
      rewrite !generate_with_dict.
      now rewrite !answer_failed by auto.
    - rewrite !lambda_handler_no_dict by (rewrite Hb; discriminate).
      reflexivity. }
  assert (Htry : forall e,
    (lambda_handler_try json_loads w event).2 = Raised e ->
    (lambda_handler json_loads w event).2
    = Returned (error_response 500 "Internal server error")).
  { intros e. unfold lambda_handler.
    destruct (lambda_handler_try json_loads w event) as [t [r|e']]; [discriminate|].
    reflexivity. }
  assert (Hcases : exists r,
    (lambda_handler json_loads w event).2 = Returned r
    /\ (statusCode r = 500%Z ->
        r = error_response 500 "Failed to generate shell command"
        \/ r = error_response 500 "Internal server error")
    /\ ((lambda_handler json_loads w event).1 <> [] ->
        (forall text a command,
            (invoke_with_retry w).2 = Returned text ->
            extract_command json_loads text <> Returned (String a command)) ->
        r = error_response 500 "Failed to generate shell command")
    /\ (r = error_response 400 "Query parameter is required"
        \/ r = error_response 500 "Failed to generate shell command"
        \/ r = error_response 500 "Internal server error"
        \/ exists query text a command,
             (invoke_with_retry w).2 = Returned text
             /\ extract_command json_loads text = Returned (String a command)
             /\ r = Response 200 json_headers
                      (json_dumps [("command", String a command);
                                   ("query", query)]))).
  { destruct (lambda_handler_outcome json_loads w event)
      as [H|[H|(query & Hq & H)]].
    - exists (error_response 500 "Internal server error").
      rewrite H. repeat split; auto.
      intros Hne. now destruct Hne.
    - exists (error_response 400 "Query parameter is required").
      rewrite H. repeat split; try discriminate; auto.
      intros Hne. now destruct Hne.
    - destruct (generated json_loads (invoke_with_retry w).2)
        as [[|a command]|] eqn:Hg;
        try (exists (error_response 500 "Failed to generate shell command");
             rewrite H; repeat split; now auto).
      exists (Response 200 json_headers
                (json_dumps [("command", String a command); ("query", query)])).
      rewrite H. cbn [answer snd fst].
      unfold generated in Hg.
      destruct (invoke_with_retry w).2 as [text|e] eqn:Hr; [|discriminate].
      destruct (extract_command json_loads text) as [command'|e] eqn:He;
        [|discriminate].
      injection Hg as ->.
      split; [reflexivity|]. split; [discriminate|]. split.
      + intros _ Hno. now destruct (Hno text a command eq_refl).
      + do 3 right. now exists query, text, a, command. }
  destruct Hcases as (r & Hr & H500 & Hfail & Hclosed).
  exists r. split; [exact Hr|]. split; [exact H500|].
  split; [|split; [|split; [|split; [|split; [|split; [|split]]]]]];
    try reflexivity.
  - intros e He Hne. apply (Hfail Hne). now apply (Hraised w e).
  - intros e He. apply Htry in He. rewrite Hr in He. now injection He.
  - intros w' e e' He He'. rewrite <- Hr. apply Hsame.
    + now apply (Hraised w e).
    + now apply (Hraised w' e').
  - exact Hfail.
  - exact Hclosed.
  - intros w' Hw Hw'. rewrite <- Hr. now apply Hsame.
Qed.

Lemma handler_failures_generic_witness :
  (lambda_handler (fun _ => None) Scenario.timed_out Scenario.list_files).2
  = Returned (error_response 500 "Failed to generate shell command")
  /\ (lambda_handler (fun _ => None) Scenario.timed_out Scenario.preflight).2
     = Returned (error_response 500 "Internal server error")
  /\ (lambda_handler (fun _ => None) Scenario.answering Scenario.list_files).2
     = Returned (error_response 500 "Failed to generate shell command").
Proof.
  split; [|split].
  - destruct (handler_failures_generic (fun _ => None) Scenario.timed_out
                Scenario.list_files) as (r & Hr & _ & Hfail & _).
    rewrite Hr. f_equal.
    apply (Hfail (OtherError "Read timeout on endpoint URL")).
    + reflexivity.
    + vm_compute. discriminate.
  - destruct (handler_failures_generic (fun _ => None) Scenario.timed_out
                Scenario.preflight) as (r & Hr & _ & _ & Htry & _).
    rewrite Hr. f_equal. apply (Htry AttributeError). reflexivity.
  - destruct (handler_failures_generic (fun _ => None) Scenario.answering
                Scenario.list_files)
      as (r & Hr & _ & _ & _ & _ & _ & _ & Hfail & _).
    rewrite Hr. f_equal. apply Hfail.
    + vm_compute. discriminate.
    + intros text a command _. vm_compute. discriminate.
Defined.

Lemma json_dumps_not_empty fields : json_dumps fields <> EmptyString.
Proof. unfold json_dumps. discriminate. Qed.

(** C9. The helper [handle_cors_preflight] builds the preflight response
    (status 200, empty body, the three methods advertised),
    but [lambda_handler] never calls it and never looks at the method of
    the request. A preflight request, which has method [OPTIONS] and no
    body, is handled like any other: reading the query of its missing
    body raises, and the answer is status 500. No request at all gets a
    response with an empty body or with the methods header. *)
Theorem preflight_not_dispatched :
  (statusCode handle_cors_preflight = 200%Z
   /\ body handle_cors_preflight = EmptyString
   /\ headers handle_cors_preflight !! "Access-Control-Allow-Methods"
      = Some "POST, GET, OPTIONS")
  /\ (forall json_loads w,
        lambda_handler json_loads w Scenario.preflight
        = ([], Returned (error_response 500 "Internal server error")))
  /\ (forall json_loads w event,
        exists r,
          (lambda_handler json_loads w event).2 = Returned r
          /\ headers r = json_headers
          /\ headers r !! "Access-Control-Allow-Methods" = None
          /\ body r <> EmptyString).
Proof.
  split; [repeat split|split].
  - intros json_loads w. reflexivity.
  - intros json_loads w event.
    assert (Hh : json_headers !! "Access-Control-Allow-Methods" = None)
      by reflexivity.
    destruct (lambda_handler_cases json_loads w event)
      as [H|[H|(query & context & _ & H)]].
    + eexists. rewrite H. repeat split; auto using json_dumps_not_empty.
    + eexists. rewrite H. repeat split; auto using json_dumps_not_empty.
    + destruct (answer_cases query
                  (generate_shell_command json_loads w query context))
        as [(t & Ha)|[(t & Ha)|(t & c & command & _ & Ha)]];
        rewrite Ha in H; eexists; rewrite H;
        repeat split; auto using json_dumps_not_empty.
Qed.

End HandlerProperties.

(** ** The command-line client *)

Section ClientFacts.
Import Py Shellmate.

Lemma replace_backslash s :
  PyStr.replace s (String PyStr.backslash EmptyString)
    (String PyStr.backslash (String PyStr.backslash EmptyString))
  = PyStr.double_backslashes s.
Proof.
  unfold PyStr.replace.
  induction s as [|c s IH]; [reflexivity|].
  rewrite replace_scan_0, prefix_cons. cbn [PyStr.double_backslashes].
  destruct (Ascii.ascii_dec PyStr.backslash c) as [<-|Hc].
  - replace (String.prefix EmptyString s) with true by now destruct s.
    cbn [String.length Nat.sub]. rewrite IH. reflexivity.
  - apply not_eq_sym, Ascii.eqb_neq in Hc. now rewrite Hc, IH.
Qed.

Lemma executed_app t t' : executed (t ++ t') = executed t ++ executed t'.
Proof. induction t as [|[] t IH]; simpl; now rewrite ?IH. Qed.



(** [query_ai] sends at most one request; it prints nothing on standard
    output and runs nothing; it writes one diagnostic exactly when it
    returns [None] for a failure. *)
Lemma query_ai_trace w self query :
  let req := build_request w self query in
  ((query_ai w self query).1 = [Urlopen req]
   /\ exists d, urlopen w req = Json (PDict d)
                /\ (query_ai w self query).2 = default (PStr EmptyString) (d !! "command"))
  \/ (exists diagnostic,
        ((query_ai w self query).1 = [Urlopen req; Stderr diagnostic]
         \/ (query_ai w self query).1 = [Stderr diagnostic])
        /\ (query_ai w self query).2 = PNone).
Proof.
  intros req. unfold query_ai. fold req.
  destruct (urlopen w req) as [message|code reason|reason|message|message|result];
    try (right; eexists; split; [auto|reflexivity]).
  destruct result as [| | | | |d];
    try (right; eexists; split; [left|]; reflexivity).
  left. split; [reflexivity|]. now exists d.
Qed.

Lemma query_ai_silent w self query :
  stdout_text (query_ai w self query).1 = EmptyString
  /\ executed (query_ai w self query).1 = [].
Proof.
  destruct (query_ai_trace w self query) as [[-> _]|(d & [-> | ->] & _)];
    split; reflexivity.
Qed.


Lemma run_seamless_failure py_str w self query :
  truthy (query_ai w self query).2 = false ->
  run py_str w self query true = ((query_ai w self query).1, Returned false).
Proof.
  unfold run. destruct (query_ai w self query) as [t command]. cbn [snd fst].
  intros ->. cbn. now rewrite app_nil_r.
Qed.


Lemma main_exit_of_run py_str w args self t success :
  query args <> [] ->
  ShellMate_init w = ([], inl self) ->
  run py_str w self (PyStr.join " " (query args)) (seamless args)
  = (t, Returned success) ->
  main py_str w args = (t, if success then 0%Z else 1%Z).
Proof.
  intros Hq Hi Hr. unfold main. destruct (query args); [contradiction|].
  now rewrite Hi, Hr.
Qed.

Lemma executed_staged (sp : bool) a b c d :
  executed ([Stdout a; SetPreInputHook b]
            ++ (if sp then [Stdout c] else []) ++ [Input d]) = [].
Proof. now destruct sp. Qed.

Lemma execute_command_cancelled py_str w command show_prompt :
  truthy command = true ->
  input w (prompt_char w) = KeyboardInterrupt
  \/ input w (prompt_char w) = EOFError ->
  (execute_command py_str w command show_prompt).2 = false
  /\ executed (execute_command py_str w command show_prompt).1 = [].
Proof.
  intros Ht Hi. unfold execute_command. rewrite Ht. cbn [negb].
  destruct Hi as [-> | ->]; cbn [fst snd];
    now rewrite executed_app, executed_staged.
Qed.

Lemma execute_command_blank py_str w command show_prompt text :
  truthy command = true ->
  input w (prompt_char w) = Line text ->
  PyStr.strip text = EmptyString ->
  (execute_command py_str w command show_prompt).2 = false
  /\ executed (execute_command py_str w command show_prompt).1 = [].
Proof.
  intros Ht Hi Hs. unfold execute_command. rewrite Ht, Hi, Hs.
  cbn [negb String.eqb fst snd].
  now rewrite executed_app, executed_staged.
Qed.

Lemma run_interactive py_str w self query :
  truthy (query_ai w self query).2 = true ->
  run py_str w self query false
  = ((query_ai w self query).1
       ++ (if show_prompt_setting w then [Stdout ("Query: " +:+ query)] else [])
       ++ (execute_command py_str w (query_ai w self query).2 None).1,
     Returned (execute_command py_str w (query_ai w self query).2 None).2).
Proof.
  unfold run. destruct (query_ai w self query) as [t command]. cbn [snd fst].
  intros ->. cbn [negb].
  now destruct (execute_command py_str w command None).
Qed.

Lemma run_interactive_failure py_str w self query :
  truthy (query_ai w self query).2 = false ->
  run py_str w self query false
  = ((query_ai w self query).1 ++ [Stderr "Failed to get command from AI service"],
     Returned false).
Proof.
  unfold run. destruct (query_ai w self query) as [t command]. cbn [snd fst].
  now intros ->.
Qed.

Lemma executed_run_interactive py_str w self query :
  truthy (query_ai w self query).2 = true ->
  executed (run py_str w self query false).1
  = executed (execute_command py_str w (query_ai w self query).2 None).1.
Proof.
  intros Ht. rewrite (run_interactive _ _ _ _ Ht). cbn [fst].
  rewrite !executed_app. destruct (query_ai_silent w self query) as [_ ->].
  now destruct (show_prompt_setting w).
Qed.

End ClientFacts.

Section ClientProperties.
Import Py Shellmate.




(** C7, as stated, fails: without a query argument the process ends with
    status 2, the status of [parser.error], not 1. *)
Lemma no_query_exits_with_2 :
  query Scenario.no_query = []
  /\ main Scenario.render Scenario.service_down Scenario.no_query
     = ([Usage "No query provided. Use --help for usage information."], 2%Z)
  /\ (main Scenario.render Scenario.service_down Scenario.no_query).2 <> 1%Z.
Proof. repeat split. discriminate. Qed.

(** C7, amended. Without a query argument the process ends with status
    2, after the usage message of [parser.error]. With a query and an
    endpoint, it ends with status 0 when [run] returns true and with
    status 1 when it returns false; in particular with status 1 after a
    generation failure, and with status 1 after the operator cancels at
    the staging prompt (interrupt or end of input), in which case no
    command is executed. With a query the status is always 0 or 1. *)
Theorem exit_status :
  forall py_str w args,
    (query args = [] ->
     main py_str w args
     = ([Usage "No query provided. Use --help for usage information."], 2%Z))
    /\ (forall self,
          query args <> [] ->
          ShellMate_init w = ([], inl self) ->
          (forall success,
              (run py_str w self (PyStr.join " " (query args)) (seamless args)).2
              = Returned success ->
              (main py_str w args).2 = if success then 0%Z else 1%Z)
          /\ (truthy (query_ai w self (PyStr.join " " (query args))).2 = false ->
              (main py_str w args).2 = 1%Z)
          /\ (seamless args = false ->
              truthy (query_ai w self (PyStr.join " " (query args))).2 = true ->
              input w (prompt_char w) = KeyboardInterrupt
              \/ input w (prompt_char w) = EOFError ->
              (main py_str w args).2 = 1%Z
              /\ executed (main py_str w args).1 = []))
    /\ (query args <> [] ->
        (main py_str w args).2 = 0%Z \/ (main py_str w args).2 = 1%Z).
Proof.
  intros py_str w args. split; [|split].
  3: { intros Hq. unfold main. destruct (query args) as [|q qs]; [contradiction|].
       unfold ShellMate_init.
       destruct (environ w !! "SHELLMATE_API_ENDPOINT") as [[|c endpoint]|];
         cbn [snd]; auto.
       match goal with
       | |- context [run ?a ?b ?c ?d ?e] => destruct (run a b c d e) as [t [[]|e']]
       end; cbn [snd]; auto. }
  - intros Hq. unfold main. now rewrite Hq.
  - intros self Hq Hi.
    assert (Hexit : forall t success,
      run py_str w self (PyStr.join " " (query args)) (seamless args)
      = (t, Returned success) ->
      main py_str w args = (t, if success then 0%Z else 1%Z)).
    { intros t success. now apply main_exit_of_run. }
    split; [|split].
    + intros success Hr.
      destruct (run py_str w self _ (seamless args)) as [t r] eqn:Hrun.
      cbn [snd] in Hr. subst r. now rewrite (Hexit t success).
    + intros Hf. destruct (seamless args).
      * now rewrite (Hexit _ false (run_seamless_failure py_str _ _ _ Hf)).
      * now rewrite (Hexit _ false (run_interactive_failure py_str _ _ _ Hf)).
    + intros Hs Ht Hc.
      destruct (execute_command_cancelled py_str w
                  (query_ai w self (PyStr.join " " (query args))).2 None Ht Hc)
        as [Hfalse Hnone].
      pose proof (run_interactive py_str w self _ Ht) as Hrun.
      pose proof (executed_run_interactive py_str w self _ Ht) as Hex.
      rewrite Hfalse in Hrun. rewrite Hs in Hexit.
      rewrite (Hexit _ false Hrun). cbn [fst snd]. split; [reflexivity|].
      rewrite Hrun in Hex. cbn [fst] in Hex. now rewrite Hex.
Qed.

Lemma exit_status_witness :
  main Scenario.render Scenario.service_down Scenario.no_query
  = ([Usage "No query provided. Use --help for usage information."], 2%Z)
  /\ (main Scenario.render Scenario.service_down (Scenario.ask false)).2 = 1%Z
  /\ ((main Scenario.render (Scenario.service_up EOFError) (Scenario.ask false)).2
      = 1%Z
      /\ executed
           (main Scenario.render (Scenario.service_up EOFError)
              (Scenario.ask false)).1 = [])
  /\ (main Scenario.render (Scenario.service_up (Line "ls")) (Scenario.ask false)).2
     = 0%Z.
Proof.
  split; [|split; [|split]].
  - apply (exit_status Scenario.render Scenario.service_down Scenario.no_query).
    reflexivity.
  - destruct (exit_status Scenario.render Scenario.service_down
                (Scenario.ask false)) as (_ & H & _).
    destruct (H Scenario.client) as (_ & Hfail & _);
      [discriminate|reflexivity|].
    apply Hfail. reflexivity.
  - destruct (exit_status Scenario.render (Scenario.service_up EOFError)
                (Scenario.ask false)) as (_ & H & _).
    destruct (H Scenario.client) as (_ & _ & Hcancel);
      [discriminate|reflexivity|].
    apply Hcancel; [reflexivity|reflexivity|right; reflexivity].
  - destruct (exit_status Scenario.render (Scenario.service_up (Line "ls"))
                (Scenario.ask false)) as (_ & H & _).
    destruct (H Scenario.client) as (Hrun & _);
      [discriminate|reflexivity|].
    apply (Hrun true). reflexivity.
Defined.

(** C10. In interactive mode, when the line the operator submits is
    empty or holds only white space, [execute_command] returns false
    without reaching [os.system], and so does [run]. A cancellation
    (interrupt or end of input) has the same outcome: false, and nothing
    executed. *)
Theorem blank_line_not_executed :
  forall py_str w command show_prompt text,
    truthy command = true ->
    input w (prompt_char w) = Line text ->
    PyStr.strip text = EmptyString ->
    (execute_command py_str w command show_prompt).2 = false
    /\ executed (execute_command py_str w command show_prompt).1 = []
    /\ (forall self query,
          (query_ai w self query).2 = command ->
          (run py_str w self query false).2 = Returned false
          /\ executed (run py_str w self query false).1 = [])
    /\ (forall w',
          input w' (prompt_char w') = KeyboardInterrupt
          \/ input w' (prompt_char w') = EOFError ->
          (execute_command py_str w' command show_prompt).2
          = (execute_command py_str w command show_prompt).2
          /\ executed (execute_command py_str w' command show_prompt).1
             = executed (execute_command py_str w command show_prompt).1).
Proof.
  intros py_str w command show_prompt text Ht Hi Hs.
  destruct (execute_command_blank py_str w command show_prompt text Ht Hi Hs)
    as [Hfalse Hnone].
  split; [exact Hfalse|]. split; [exact Hnone|]. split.
  - intros self query Hq. subst command.
    rewrite (executed_run_interactive py_str w self query Ht).
    rewrite (run_interactive py_str w self query Ht). cbn [snd].
    destruct (execute_command_blank py_str w (query_ai w self query).2
                None text Ht Hi Hs) as [-> ->].
    split; reflexivity.
  - intros w' Hc.
    destruct (execute_command_cancelled py_str w' command show_prompt Ht Hc)
      as [-> ->].
    now rewrite Hfalse, Hnone.
Qed.

Lemma blank_line_not_executed_witness :
  (execute_command Scenario.render (Scenario.service_up (Line "   "))
     (PStr Scenario.find_command) None).2 = false
  /\ executed
       (execute_command Scenario.render (Scenario.service_up (Line "   "))
          (PStr Scenario.find_command) None).1 = [].
Proof.
  destruct (blank_line_not_executed Scenario.render
              (Scenario.service_up (Line "   "))
              (PStr Scenario.find_command) None "   ")
    as (H1 & H2 & _); [reflexivity|reflexivity|reflexivity|].
  split; [exact H1 | exact H2].
Defined.

End ClientProperties.



(** ** Worked examples *)

Section Examples.
Import Py.

(** Only the tag [bash] is removed with the fence; another tag stays. *)
Example sanitize_other_tag :
  Lambda.sanitize ("```sh" +:+ PyStr.nl +:+ "ls" +:+ PyStr.nl +:+ "```")
  = "sh" +:+ PyStr.nl +:+ "ls".
Proof. reflexivity. Qed.

Example sanitize_blank : Lambda.sanitize "  ``` " = EmptyString.
Proof. reflexivity. Qed.

Example json_dumps_escapes :
  Lambda.json_dumps [("command", "grep " +:+ String PyStr.backslash "." +:+ PyStr.nl)]
  = "{" +:+ Lambda.quoted "command" +:+ ": "
    +:+ Lambda.quoted ("grep " +:+ String PyStr.backslash (String PyStr.backslash ".")
                       +:+ String PyStr.backslash "n")
    +:+ "}".
Proof. reflexivity. Qed.

(** A request answered after three throttled attempts. *)
Example handler_answers :
  Lambda.attempts
    (Lambda.lambda_handler Scenario.loads_reply Scenario.throttled_thrice
       Scenario.list_files).1 = 4%nat
  /\ (Lambda.lambda_handler Scenario.loads_reply Scenario.throttled_thrice
        Scenario.list_files).2
     = Returned
         (Lambda.Response 200 Lambda.json_headers
            ("{" +:+ Lambda.quoted "command" +:+ ": " +:+ Lambda.quoted "ls -la"
             +:+ ", " +:+ Lambda.quoted "query" +:+ ": "
             +:+ Lambda.quoted "list files" +:+ "}")).
Proof. split; reflexivity. Qed.

(** A preflight event without the [body] key is read as the body itself
    and is refused for its missing query. *)
Example preflight_without_body :
  Lambda.lambda_handler Scenario.loads_reply Scenario.throttled_thrice
    {[ "httpMethod" := PStr "OPTIONS" ]}
  = ([], Returned (Lambda.error_response 400 "Query parameter is required")).
Proof. reflexivity. Qed.

(** The operator confirms an edited line: that line is what runs. *)
Example confirmed_line_runs :
  Shellmate.main Scenario.render (Scenario.service_up (Shellmate.Line "ls -la"))
    (Scenario.ask false)
  = ([Shellmate.Urlopen
        (Shellmate.build_request (Scenario.service_up (Shellmate.Line "ls -la"))
           Scenario.client "list text files");
      Shellmate.Stdout "Query: list text files";
      Shellmate.Stdout ("Generated command: " +:+ Scenario.find_command);
      Shellmate.SetPreInputHook (Some (PStr Scenario.find_command));
      Shellmate.Stdout "Press Enter to execute, or Ctrl+C to cancel:";
      Shellmate.Input "$ ";
      Shellmate.SetPreInputHook None;
      Shellmate.System "ls -la"],
     0%Z).
Proof. reflexivity. Qed.

End Examples.

(** * Further properties *)

(** ** The retry loop as a whole *)

Section RetryLoop.
Import Py Lambda.

Lemma attempt_once_break w n text :
  attempt_once w n = Break text -> invoke_model w n = Returned text.
Proof.
  unfold attempt_once. destruct (invoke_model w n) as [text'|e].
  - now intros [= ->].
  - unfold on_failure. destruct e as [code message| | | | | | |]; try discriminate.
    repeat (match goal with |- context [if ?b then _ else _] => destruct b end);
      discriminate.
Qed.

Lemma attempt_once_reraise w n e :
  attempt_once w n = Reraise e -> invoke_model w n = Raised e.
Proof.
  unfold attempt_once. destruct (invoke_model w n) as [text'|e']; [discriminate|].
  unfold on_failure. destruct e' as [code message| | | | | | |];
    try (now intros [= ->]).
  repeat (match goal with |- context [if ?b then _ else _] => destruct b end);
    try discriminate; now intros [= ->].
Qed.

Lemma validation_not_throttling : "ValidationException" ∉ throttling_codes.
Proof.
  unfold throttling_codes. intros H.
  repeat (apply elem_of_cons in H as [H|H]; [discriminate H|]).
  now apply elem_of_nil in H.
Qed.

(** An attempt is followed by a sleep only when it is not the last one and
    failed with a [ClientError] other than a validation error. *)
Lemma attempt_once_continue w n delay :
  attempt_once w n = Continue delay ->
  (n < max_retries)%nat
  /\ exists code message,
       invoke_model w n = Raised (ClientError code message)
       /\ code <> "ValidationException"
       /\ (((code ∈ throttling_codes) /\ delay = throttle_delay n (time w n))
           \/ ((code ∉ throttling_codes) /\ delay = retry_delay n)).
Proof.
  unfold attempt_once. destruct (invoke_model w n) as [text'|e]; [discriminate|].
  unfold on_failure. destruct e as [code message| | | | | | |]; try discriminate.
  destruct (decide (code ∈ throttling_codes)) as [Hthr|Hthr].
  - rewrite (bool_decide_eq_true_2 _ Hthr).
    destruct (n <? max_retries)%nat eqn:Hn; cbn [andb].
    + intros [= <-]. split; [now apply Nat.ltb_lt|]. exists code, message.
      split; [reflexivity|]. split; [|now left].
      intros ->. now apply validation_not_throttling.
    + now destruct (String.eqb code "ValidationException").
  - rewrite (bool_decide_eq_false_2 _ Hthr). cbn [andb].
    destruct (String.eqb code "ValidationException") eqn:Hv; [discriminate|].
    destruct (n <? max_retries)%nat eqn:Hn; [|discriminate].
    intros [= <-]. split; [now apply Nat.ltb_lt|]. exists code, message.
    split; [reflexivity|]. split; [now apply String.eqb_neq|now right].
Qed.

(** The loop from attempt [a] to the last one. *)
Lemma retry_loop_from w len :
  forall a,
    (a + len = max_retries)%nat ->
    exists n,
      (a <= n <= max_retries)%nat
      /\ (retry_loop w (seq a (S len))).2 = invoke_model w n
      /\ Trace.invoked (retry_loop w (seq a (S len))).1 = seq a (S (n - a))
      /\ length (sleeps (retry_loop w (seq a (S len))).1) = (n - a)%nat
      /\ attempts (retry_loop w (seq a (S len))).1 = S (n - a)
      /\ (forall i, (a <= i < n)%nat -> exists d, attempt_once w i = Continue d)
      /\ (forall d, attempt_once w n <> Continue d)
      /\ (exists t, (retry_loop w (seq a (S len))).1 = t ++ [Invoke n]).
Proof.
  induction len as [|len IH]; intros a Ha.
  - exists a. replace (a - a)%nat with 0%nat by lia.
    assert (Hlast : forall d, attempt_once w a <> Continue d).
    { intros d Hd. apply attempt_once_continue in Hd as [Hlt _]. lia. }
    cbn [seq retry_loop]. destruct (attempt_once w a) as [text|d|e] eqn:Hs.
    + apply attempt_once_break in Hs. rewrite Hs.
      repeat split; try reflexivity; try lia; try discriminate. now exists [].
    + now destruct (Hlast d).
    + apply attempt_once_reraise in Hs. rewrite Hs.
      repeat split; try reflexivity; try lia; try discriminate. now exists [].
  - change (seq a (S (S len))) with (a :: seq (S a) (S len)).
    cbn [retry_loop]. destruct (attempt_once w a) as [text|d|e] eqn:Hs.
    + exists a. replace (a - a)%nat with 0%nat by lia.
      pose proof (attempt_once_break _ _ _ Hs) as Hb. rewrite Hb.
      repeat split; try reflexivity; try lia; try (now exists []).
      intros d'. rewrite Hs. discriminate.
    + destruct (IH (S a))
        as (n & Hn & Hr & Hi & Hl & Hat & Hc & Hstop & (t' & Ht')); [lia|].
      exists n. destruct (retry_loop w (seq (S a) (S len))) as [t r].
      cbn [fst snd] in *. cbn [Trace.invoked sleeps attempts length].
      replace (n - a)%nat with (S (n - S a)) by lia.
      repeat split; try lia; try assumption.
      * cbn [seq]. now rewrite Hi.
      * intros i Hrange. destruct (decide (i = a)) as [->|Hne]; [eauto|].
        apply Hc. lia.
      * exists (Invoke a :: Sleep d :: t'). now rewrite Ht'.
    + exists a. replace (a - a)%nat with 0%nat by lia.
      pose proof (attempt_once_reraise _ _ _ Hs) as Hb. rewrite Hb.
      repeat split; try reflexivity; try lia; try (now exists []).
      intros d'. rewrite Hs. discriminate.
Qed.

(** The calls and the sleeps of the loop alternate. *)
Lemma retry_loop_interleaved w len :
  forall a,
    (a + len = max_retries)%nat ->
    (retry_loop w (seq a (S len))).1
    = Trace.interleaved a (sleeps (retry_loop w (seq a (S len))).1).
Proof.
  induction len as [|len IH]; intros a Ha.
  - cbn [seq retry_loop]. destruct (attempt_once w a) as [text|d|e] eqn:Hs;
      try reflexivity.
    apply attempt_once_continue in Hs as [Hlt _]. lia.
  - change (seq a (S (S len))) with (a :: seq (S a) (S len)).
    cbn [retry_loop]. destruct (attempt_once w a) as [text|d|e];
      try reflexivity.
    specialize (IH (S a) ltac:(lia)).
    destruct (retry_loop w (seq (S a) (S len))) as [t r].
    cbn [fst sleeps Trace.interleaved] in *. now rewrite <- IH.
Qed.

End RetryLoop.

Section RetryBounds.
Import Py Lambda.

Lemma retry_delay_bounds n :
  (n < max_retries)%nat ->
  (1 <= retry_delay n /\ retry_delay n <= Trace.longest_sleep n)%Q.
Proof.
  unfold max_retries. intros Hn.
  do 5 (destruct n as [|n]; [split; vm_compute; discriminate|]). lia.
Qed.

Lemma throttle_delay_bounds n now :
  (n < max_retries)%nat ->
  (1 <= throttle_delay n now /\ throttle_delay n now <= Trace.longest_sleep n)%Q.
Proof.
  unfold max_retries, throttle_delay, Trace.longest_sleep. intros Hn.
  destruct (py_mod_half now) as [H0 H1].
  assert (Hb : (2 <= inject_Z (base_delay * 2 ^ Z.of_nat n))%Q).
  { change 2%Q with (inject_Z 2). rewrite <- Zle_Qle. unfold base_delay.
    assert (1 <= 2 ^ Z.of_nat n)%Z by (apply Z.pow_le_mono_r with (b := 0%Z); lia).
    lia. }
  split; lra.
Qed.

Lemma continue_bounds w n d :
  attempt_once w n = Continue d ->
  (n < max_retries)%nat /\ (1 <= d /\ d <= Trace.longest_sleep n)%Q.
Proof.
  intros H. apply attempt_once_continue in H
    as (Hn & code & message & _ & _ & [[_ ->]|[_ ->]]);
    split; auto using throttle_delay_bounds, retry_delay_bounds.
Qed.

Lemma sleep_budget_nonneg l : (0 <= Trace.sleep_budget l)%Q.
Proof.
  induction l as [|n l IH]; cbn [Trace.sleep_budget fold_right]; [lra|].
  fold (Trace.sleep_budget l).
  destruct (n <? max_retries)%nat eqn:Hn; [|lra].
  apply Nat.ltb_lt in Hn.
  destruct (throttle_delay_bounds n 0 Hn).
  unfold throttle_delay, Trace.longest_sleep in *.
  destruct (py_mod_half 0). lra.
Qed.

Lemma total_sleep_budget w l :
  (Trace.total_sleep (retry_loop w l).1 <= Trace.sleep_budget l)%Q.
Proof.
  induction l as [|n l IH]; [cbn; lra|].
  cbn [retry_loop Trace.sleep_budget fold_right]. fold (Trace.sleep_budget l).
  pose proof (sleep_budget_nonneg l) as Hl.
  destruct (attempt_once w n) as [text|d|e] eqn:Hs.
  - unfold Trace.total_sleep. cbn [fst sleeps fold_right].
    destruct (n <? max_retries)%nat eqn:Hn; [|lra].
    apply Nat.ltb_lt in Hn. destruct (throttle_delay_bounds n 0 Hn).
    unfold throttle_delay, Trace.longest_sleep in *.
    destruct (py_mod_half 0). lra.
  - apply continue_bounds in Hs as (Hn & H1 & H2).
    apply Nat.ltb_lt in Hn as Hn'. rewrite Hn'.
    destruct (retry_loop w l) as [t r]. cbn [fst] in *.
    unfold Trace.total_sleep in *. cbn [sleeps fold_right]. lra.
  - unfold Trace.total_sleep. cbn [fst sleeps fold_right].
    destruct (n <? max_retries)%nat eqn:Hn; [|lra].
    apply Nat.ltb_lt in Hn. destruct (throttle_delay_bounds n 0 Hn).
    unfold throttle_delay, Trace.longest_sleep in *.
    destruct (py_mod_half 0). lra.
Qed.

Lemma sleeps_bounded w l :
  Forall (fun d => 1 <= d /\ d <= 65 # 2)%Q (sleeps (retry_loop w l).1).
Proof.
  induction l as [|n l IH]; [constructor|].
  cbn [retry_loop]. destruct (attempt_once w n) as [text|d|e] eqn:Hs;
    try constructor.
  apply continue_bounds in Hs as (Hn & H1 & H2).
  destruct (retry_loop w l) as [t r]. cbn [fst sleeps] in *.
  constructor; [|exact IH]. split; [exact H1|].
  assert (Trace.longest_sleep n <= 65 # 2)%Q; [|lra].
  unfold max_retries in Hn.
  do 5 (destruct n as [|n]; [vm_compute; discriminate|]). lia.
Qed.

End RetryBounds.

Section RetryLoopProperties.
Import Py Lambda.

(** Around a sleep of an alternating trace: the call it follows and the
    call it is followed by. *)
Lemma interleaved_around delays :
  forall first before after delay,
    Trace.interleaved first delays = before ++ Sleep delay :: after ->
    exists before' after',
      before = before' ++ [Invoke (first + length (sleeps before))]
      /\ after = Invoke (S (first + length (sleeps before))) :: after'.
Proof.
  induction delays as [|d delays IH]; intros first before after delay H.
  - cbn [Trace.interleaved] in H.
    destruct before as [|x [|y before]]; discriminate H.
  - cbn [Trace.interleaved] in H.
    destruct before as [|x [|y before]].
    + discriminate H.
    + cbn [app] in H. injection H as <- _ <-.
      exists [], (match delays with
                  | [] => []
                  | d' :: rest => Sleep d' :: Trace.interleaved (S (S first)) rest
                  end).
      cbn [sleeps length app]. rewrite Nat.add_0_r.
      split; [reflexivity|]. now destruct delays.
    + cbn [app] in H. injection H as <- <- H.
      destruct (IH _ _ _ _ H) as (b' & a' & Hb & Ha).
      exists (Invoke first :: Sleep d :: b'), a'.
      cbn [sleeps length app].
      replace (first + S (length (sleeps before)))%nat
        with (S first + length (sleeps before))%nat by lia.
      split; [now rewrite <- Hb | exact Ha].
Qed.

(** X1. The invoker ends at the first attempt that succeeds, raises
    something other than a [ClientError], raises a validation error, or
    is attempt 5, and returns or raises exactly what the backend did
    there; every earlier attempt failed with a [ClientError] other than a
    validation error. In particular the loop never runs out without a
    result. *)
Theorem invoker_result_is_last_attempt :
  forall w,
    exists n,
      (n <= 5)%nat
      /\ (invoke_with_retry w).2 = invoke_model w n
      /\ attempts (invoke_with_retry w).1 = S n
      /\ (forall i, (i < n)%nat ->
            exists code message,
              invoke_model w i = Raised (ClientError code message)
              /\ code <> "ValidationException")
      /\ (forall code message,
            (n < 5)%nat ->
            invoke_model w n = Raised (ClientError code message) ->
            code = "ValidationException").
Proof.
  intros w.
  destruct (retry_loop_from w max_retries 0%nat eq_refl)
    as (n & Hn & Hr & _ & _ & Ha & Hc & Hstop & _).
  rewrite Nat.sub_0_r in Ha.
  exists n. split; [exact (proj2 Hn)|]. split; [exact Hr|]. split; [exact Ha|].
  split.
  - intros i Hi. destruct (Hc i) as [d Hd]; [lia|].
    apply attempt_once_continue in Hd as (_ & code & message & H1 & H2 & _).
    eauto.
  - intros code message Hlt Hf.
    destruct (decide (code = "ValidationException")) as [|Hne]; [assumption|].
    exfalso. destruct (decide (code ∈ throttling_codes)) as [Hthr|Hthr].
    + apply (Hstop (throttle_delay n (time w n))).
      unfold attempt_once. rewrite Hf. now apply on_failure_throttled.
    + apply (Hstop (retry_delay n)).
      unfold attempt_once. rewrite Hf. now apply on_failure_other.
Qed.

Lemma invoker_result_is_last_attempt_witness :
  exists n,
    (n <= 5)%nat
    /\ (invoke_with_retry Scenario.throttled_thrice).2
       = invoke_model Scenario.throttled_thrice n
    /\ attempts (invoke_with_retry Scenario.throttled_thrice).1 = S n.
Proof.
  destruct (invoker_result_is_last_attempt Scenario.throttled_thrice)
    as (n & H1 & H2 & H3 & _).
  exists n. split; [exact H1|]. split; [exact H2 | exact H3].
Defined.

(** X2. The trace of the invoker has a fixed shape: between 1 and 6 calls,
    numbered 0, 1, 2, ... without a gap, one sleep between two
    consecutive calls and none after the last. The whole trace is call 0,
    sleep, call 1, sleep, ..., call n: it begins with a call, a call is
    followed by a sleep or by nothing, and a sleep by the next call. *)
Theorem invoker_trace_shape :
  forall w,
    (1 <= attempts (invoke_with_retry w).1 <= 6)%nat
    /\ Trace.invoked (invoke_with_retry w).1
       = seq 0 (attempts (invoke_with_retry w).1)
    /\ S (length (sleeps (invoke_with_retry w).1))
       = attempts (invoke_with_retry w).1
    /\ (exists t, (invoke_with_retry w).1
                  = t ++ [Invoke (attempts (invoke_with_retry w).1 - 1)])
    /\ (invoke_with_retry w).1
       = Trace.interleaved 0 (sleeps (invoke_with_retry w).1)
    /\ (forall before after delay,
          (invoke_with_retry w).1 = before ++ Sleep delay :: after ->
          exists before' after',
            before = before' ++ [Invoke (length (sleeps before))]
            /\ after = Invoke (S (length (sleeps before))) :: after').
Proof.
  intros w.
  destruct (retry_loop_from w max_retries 0%nat eq_refl)
    as (n & Hn & _ & Hi & Hl & Ha & _ & _ & (t & Ht)).
  pose proof (retry_loop_interleaved w max_retries 0%nat eq_refl) as Hshape.
  change (retry_loop w (seq 0 (S max_retries))) with (invoke_with_retry w) in *.
  rewrite Nat.sub_0_r in *.
  rewrite Ha, Hl, Hi. unfold max_retries in Hn.
  split; [lia|]. split; [reflexivity|]. split; [reflexivity|].
  split; [|split].
  - exists t. rewrite Ht. now replace (S n - 1)%nat with n by lia.
  - exact Hshape.
  - intros before after delay H. rewrite Hshape in H.
    exact (interleaved_around _ 0%nat before after delay H).
Qed.

Lemma invoker_trace_shape_witness :
  exists before' after',
    [Invoke 0; Sleep (18 # 8); Invoke 1] = before' ++ [Invoke 1]
    /\ [Invoke 2; Sleep (66 # 8); Invoke 3; Sleep (130 # 8); Invoke 4;
        Sleep (258 # 8); Invoke 5]
       = Invoke 2 :: after'.
Proof.
  destruct (invoker_trace_shape Scenario.always_throttled) as (_ & _ & _ & _ & _ & H).
  apply (H [Invoke 0; Sleep (18 # 8); Invoke 1]
           [Invoke 2; Sleep (66 # 8); Invoke 3; Sleep (130 # 8); Invoke 4;
            Sleep (258 # 8); Invoke 5]
           (34 # 8)%Q).
  vm_compute. reflexivity.
Defined.

(** X3. Whatever the backend does, every sleep of the invoker lasts at
    least 1 and at most 32.5 time units, and all its sleeps together last
    at most 64.5. *)
Theorem invoker_sleep_bounded :
  forall w,
    Forall (fun d => 1 <= d /\ d <= 65 # 2)%Q (sleeps (invoke_with_retry w).1)
    /\ (Trace.total_sleep (invoke_with_retry w).1 <= 129 # 2)%Q.
Proof.
  intros w. split; [apply sleeps_bounded|].
  pose proof (total_sleep_budget w (seq 0 (max_retries + 1))) as H.
  change (retry_loop w (seq 0 (max_retries + 1))) with (invoke_with_retry w) in H.
  assert (Hb : (Trace.sleep_budget (seq 0 (max_retries + 1)) == 129 # 2)%Q)
    by (vm_compute; reflexivity).
  lra.
Qed.

(** X4. Against a backend that throttles every attempt, the invoker makes
    all 6 calls, sleeps between them for 62 time units at least, and then
    raises the throttling error of attempt 5; [generate_shell_command]
    returns [None] and the handler's caller has waited that long. *)
Theorem throttled_to_the_end :
  forall json_loads w,
    (forall n, (n <= 5)%nat ->
       exists code message,
         code ∈ throttling_codes /\
         invoke_model w n = Raised (ClientError code message)) ->
    attempts (invoke_with_retry w).1 = 6%nat
    /\ (invoke_with_retry w).2 = invoke_model w 5%nat
    /\ (62 <= Trace.total_sleep (invoke_with_retry w).1)%Q
    /\ (forall query context,
          (generate_shell_command json_loads w query (PDict context)).2
          = Returned None).
Proof.
  intros json_loads w Hthr.
  assert (Hstep : forall n, (n < 5)%nat ->
            attempt_once w n = Continue (throttle_delay n (time w n))).
  { intros n Hn. destruct (Hthr n) as (code & message & Hc & Hf); [lia|].
    unfold attempt_once. rewrite Hf. apply on_failure_throttled; [|exact Hc].
    unfold max_retries. lia. }
  destruct (Hthr 5%nat) as (code & message & Hc & Hf); [lia|].
  assert (Hrun : invoke_with_retry w
    = ([Invoke 0; Sleep (throttle_delay 0 (time w 0%nat));
        Invoke 1; Sleep (throttle_delay 1 (time w 1%nat));
        Invoke 2; Sleep (throttle_delay 2 (time w 2%nat));
        Invoke 3; Sleep (throttle_delay 3 (time w 3%nat));
        Invoke 4; Sleep (throttle_delay 4 (time w 4%nat));
        Invoke 5], invoke_model w 5%nat)).
  { unfold invoke_with_retry. cbn [seq max_retries Nat.add].
    do 5 (rewrite retry_loop_continue with (delay := throttle_delay _ (time w _))
            by (apply Hstep; lia)).
    rewrite (retry_loop_reraise w 5 (ClientError code message));
      [now rewrite Hf|].
    unfold attempt_once. rewrite Hf. apply (on_failure_last (time w 5%nat)). }
  rewrite Hrun. cbn [fst snd]. split; [reflexivity|]. split; [reflexivity|]. split.
  - unfold Trace.total_sleep, throttle_delay. cbn [sleeps fold_right].
    destruct (py_mod_half (time w 0%nat)), (py_mod_half (time w 1%nat)),
      (py_mod_half (time w 2%nat)), (py_mod_half (time w 3%nat)),
      (py_mod_half (time w 4%nat)).
    change (inject_Z (base_delay * 2 ^ Z.of_nat 0)) with 2%Q.
    change (inject_Z (base_delay * 2 ^ Z.of_nat 1)) with 4%Q.
    change (inject_Z (base_delay * 2 ^ Z.of_nat 2)) with 8%Q.
    change (inject_Z (base_delay * 2 ^ Z.of_nat 3)) with 16%Q.
    change (inject_Z (base_delay * 2 ^ Z.of_nat 4)) with 32%Q.
    lra.
  - intros query context. rewrite generate_with_dict, Hrun, Hf. reflexivity.
Qed.

Lemma throttled_to_the_end_witness :
  attempts (invoke_with_retry Scenario.always_throttled).1 = 6%nat
  /\ (62 <= Trace.total_sleep (invoke_with_retry Scenario.always_throttled).1)%Q.
Proof.
  destruct (throttled_to_the_end (fun _ => None) Scenario.always_throttled)
    as (H1 & _ & H3 & _).
  - intros n _. exists "TooManyRequestsException", "Slow down".
    split; [|reflexivity]. unfold throttling_codes.
    do 2 constructor.
  - split; [exact H1 | exact H3].
Defined.

End RetryLoopProperties.

(** ** The sanitizer, further *)

Section SanitizerProperties.
Import PyStr Lambda.

Lemma length_lstrip s : (String.length (lstrip s) <= String.length s)%nat.
Proof.
  induction s as [|c s IH]; cbn [lstrip String.length]; [lia|].
  destruct (isspace c); cbn [String.length]; lia.
Qed.

Lemma length_rstrip s : (String.length (rstrip s) <= String.length s)%nat.
Proof.
  induction s as [|c s IH]; [cbn; lia|].
  rewrite rstrip_cons. destruct (rstrip s) as [|d r].
  - destruct (isspace c); cbn [String.length] in *; lia.
  - cbn [String.length] in *. lia.
Qed.

Lemma length_strip s : (String.length (strip s) <= String.length s)%nat.
Proof.
  unfold strip. pose proof (length_rstrip (lstrip s)). pose proof (length_lstrip s).
  lia.
Qed.

Lemma length_remove old skip s :
  (String.length (replace_scan old EmptyString skip s) <= String.length s)%nat.
Proof.
  revert skip; induction s as [|c s IH]; intros skip; [cbn; lia|].
  destruct skip as [|k].
  - rewrite replace_scan_0. destruct (String.prefix old (String c s)).
    + rewrite append_nil. specialize (IH (String.length old - 1)%nat).
      cbn [String.length]. lia.
    + specialize (IH 0%nat). cbn [String.length]. lia.
  - cbn [replace_scan String.length]. specialize (IH k). lia.
Qed.

(** X5. What the sanitizer returns holds no fence anywhere, has no white
    space at either end, and is never longer than the raw text. *)
Theorem sanitize_output_clean :
  forall x,
    occurs fence (sanitize x) = false
    /\ occurs bash_fence (sanitize x) = false
    /\ strip (sanitize x) = sanitize x
    /\ starts_clean (sanitize x)
    /\ (String.length (sanitize x) <= String.length x)%nat.
Proof.
  intros x. split; [apply sanitize_no_fence|].
  split; [apply bash_fence_absent, sanitize_no_fence|].
  split; [apply sanitize_stripped|]. split.
  - unfold sanitize, strip at 1. apply rstrip_starts_clean, lstrip_starts_clean.
  - unfold sanitize, replace, bash_fence, fence.
    etransitivity; [apply length_strip|].
    etransitivity; [apply length_remove|].
    etransitivity; [apply length_remove|]. apply length_strip.
Qed.

(** X6. The texts the sanitizer leaves as they are are exactly the texts
    that hold no fence and have no white space at either end; a text
    without a fence is only stripped. *)
Theorem sanitize_fixed_points :
  forall x,
    (occurs fence x = false -> sanitize x = strip x)
    /\ (sanitize x = x <-> occurs fence x = false /\ strip x = x).
Proof.
  intros x.
  assert (H : occurs fence x = false -> sanitize x = strip x).
  { intros Hf. unfold sanitize.
    pose proof (strip_absent fence x Hf) as Hs.
    rewrite (replace_absent (strip x) bash_fence EmptyString),
      (replace_absent (strip x) fence EmptyString);
      auto using bash_fence_absent, strip_idem; discriminate. }
  split; [exact H|]. split.
  - intros Hx. split.
    + rewrite <- Hx. apply sanitize_no_fence.
    + rewrite <- Hx. apply sanitize_stripped.
  - intros [Hf Hs]. now rewrite (H Hf).
Qed.

Lemma sanitize_fixed_points_witness :
  sanitize "  ls -la  " = strip "  ls -la  " /\ sanitize "ls -la" = "ls -la".
Proof.
  split.
  - apply (sanitize_fixed_points "  ls -la  "). reflexivity.
  - apply (sanitize_fixed_points "ls -la"). split; reflexivity.
Defined.

End SanitizerProperties.

(** ** The request handler, further *)

Section HandlerFurther.
Import Py Lambda.

(** X7. A command is extracted from the reply of the backend exactly when
    the reply decodes to an object whose [content] is a list whose first
    element is an object with a string [text]; the command is that text
    sanitized, and later elements of the list are not looked at. *)
Theorem extract_command_first_block :
  forall json_loads text command,
    extract_command json_loads text = Returned command
    <-> exists d d' rest raw,
          json_loads text = Some (PDict d)
          /\ d !! "content" = Some (PList (PDict d' :: rest))
          /\ d' !! "text" = Some (PStr raw)
          /\ command = sanitize raw.
Proof.
  intros json_loads text command. unfold extract_command, loads. split.
  - destruct (json_loads text) as [[| | | | |d]|]; try discriminate.
    cbn [getitem]. destruct (d !! "content") as [content|] eqn:Hc;
      [|discriminate].
    destruct content as [| | |[|c s]|[|first rest]|]; try discriminate.
    cbn [getitem0]. destruct first as [| | | | |d']; try discriminate.
    cbn [getitem]. destruct (d' !! "text") as [v|] eqn:Ht; [|discriminate].
    destruct v as [| | |raw| |]; try discriminate.
    intros [= <-]. exists d, d', rest, raw. auto.
  - intros (d & d' & rest & raw & -> & Hc & Ht & ->).
    cbn [getitem]. rewrite Hc. cbn [getitem0 getitem]. now rewrite Ht.
Qed.

Lemma extract_command_first_block_witness :
  extract_command Scenario.loads_reply "reply" = Returned "ls -la".
Proof.
  apply (extract_command_first_block Scenario.loads_reply "reply" "ls -la").
  eexists _, _, _, _. split; [reflexivity|]. split; [reflexivity|].
  split; reflexivity.
Defined.

(** The handler for a request in order: a body that is an object, a query
    that is a string and not blank, and a context that is absent or an
    object. *)
Lemma lambda_handler_in_order json_loads w event d s :
  request_body json_loads event = Returned (PDict d) ->
  d !! "query" = Some (PStr s) ->
  PyStr.strip s <> EmptyString ->
  (d !! "context" = None \/ exists c, d !! "context" = Some (PDict c)) ->
  lambda_handler json_loads w event
  = ((invoke_with_retry w).1,
     Returned
       match generated json_loads (invoke_with_retry w).2 with
       | Some (String a command) =>
           Response 200 json_headers
             (json_dumps [("command", String a command);
                          ("query", PyStr.strip s)])
       | _ => error_response 500 "Failed to generate shell command"
       end).
Proof.
  intros Hb Hq Hs Hc. rewrite (lambda_handler_dict _ _ _ _ Hb), Hq.
  apply String.eqb_neq in Hs as ->.
  assert (Hd : exists c, default (PDict ∅) (d !! "context") = PDict c).
  { destruct Hc as [->|[c ->]]; eauto. }
  destruct Hd as [c ->]. rewrite generate_with_dict. unfold answer.
  now destruct (generated json_loads (invoke_with_retry w).2) as [[|a command]|].
Qed.

(** X8. For a request in order (the body an object, the query a string
    that is not blank, the context absent or an object) the handler runs
    the invoker once and answers from its result alone: status 200 with
    the command and the stripped query when a non-empty command was
    extracted, and the 500 response [Failed to generate shell command]
    in every other case. *)
Theorem request_in_order_answered :
  forall json_loads w event d s,
    request_body json_loads event = Returned (PDict d) ->
    d !! "query" = Some (PStr s) ->
    PyStr.strip s <> EmptyString ->
    (d !! "context" = None \/ exists c, d !! "context" = Some (PDict c)) ->
    (lambda_handler json_loads w event).1 = (invoke_with_retry w).1
    /\ (forall text a command,
          (invoke_with_retry w).2 = Returned text ->
          extract_command json_loads text = Returned (String a command) ->
          (lambda_handler json_loads w event).2
          = Returned (Response 200 json_headers
                        (json_dumps [("command", String a command);
                                     ("query", PyStr.strip s)])))
    /\ ((forall text a command,
           (invoke_with_retry w).2 = Returned text ->
           extract_command json_loads text <> Returned (String a command)) ->
        (lambda_handler json_loads w event).2
        = Returned (error_response 500 "Failed to generate shell command")).
Proof.
  intros json_loads w event d s Hb Hq Hs Hc.
  rewrite (lambda_handler_in_order _ _ _ _ _ Hb Hq Hs Hc). cbn [fst snd].
  split; [reflexivity|]. split.
  - intros text a command Hr He. unfold generated. now rewrite Hr, He.
  - intros Hno. unfold generated.
    destruct (invoke_with_retry w).2 as [text|e] eqn:Hr; [|reflexivity].
    destruct (extract_command json_loads text) as [[|a command]|e] eqn:He;
      try reflexivity.
    now destruct (Hno text a command).
Qed.

Lemma request_in_order_answered_witness :
  (lambda_handler Scenario.loads_reply Scenario.answering Scenario.list_files).2
  = Returned (Response 200 json_headers
                (json_dumps [("command", "ls -la"); ("query", "list files")])).
Proof.
  destruct (request_in_order_answered Scenario.loads_reply Scenario.answering
              Scenario.list_files Scenario.list_files "list files")
    as (_ & Hok & _);
    [reflexivity|reflexivity|discriminate|now left|].
  apply (Hok "reply" "l"%char "s -la"); reflexivity.
Defined.

(** X9. A request that is not in order is answered with the 500 response
    [Internal server error], not with 400, and the backend is not called:
    when the body does not decode to an object, when the query is there
    but is not a string, and when the query is in order but the context is
    there and is not an object. *)
Theorem malformed_request_is_internal_error :
  forall json_loads w event,
    (forall d, request_body json_loads event <> Returned (PDict d))
    \/ (exists d v,
          request_body json_loads event = Returned (PDict d)
          /\ d !! "query" = Some v /\ (forall s, v <> PStr s))
    \/ (exists d s v,
          request_body json_loads event = Returned (PDict d)
          /\ d !! "query" = Some (PStr s) /\ PyStr.strip s <> EmptyString
          /\ d !! "context" = Some v /\ (forall c, v <> PDict c)) ->
    lambda_handler json_loads w event
    = ([], Returned (error_response 500 "Internal server error")).
Proof.
  intros json_loads w event [H|[(d & v & Hb & Hq & Hv)|(d & s & v & Hb & Hq & Hs & Hc & Hv)]].
  - now apply lambda_handler_no_dict.
  - rewrite (lambda_handler_dict _ _ _ _ Hb), Hq.
    destruct v as [| | |s| |]; try reflexivity. now destruct (Hv s).
  - rewrite (lambda_handler_dict _ _ _ _ Hb), Hq, Hc.
    apply String.eqb_neq in Hs as ->. cbn [default from_option id].
    now rewrite generate_without_dict.
Qed.

Lemma malformed_request_is_internal_error_witness :
  lambda_handler Scenario.loads_reply Scenario.answering Scenario.bad_context
  = ([], Returned (error_response 500 "Internal server error"))
  /\ lambda_handler (fun _ => None) Scenario.answering Scenario.posted
     = ([], Returned (error_response 500 "Internal server error")).
Proof.
  split.
  - apply malformed_request_is_internal_error. right; right.
    exists Scenario.bad_context, "list files", (PStr "posix").
    split; [reflexivity|]. split; [reflexivity|]. split; [discriminate|].
    split; [reflexivity|discriminate].
  - apply malformed_request_is_internal_error. left. discriminate.
Defined.

Lemma extract_command_sanitized json_loads text command :
  extract_command json_loads text = Returned command ->
  exists raw, command = sanitize raw.
Proof.
  unfold extract_command.
  destruct (loads json_loads text) as [v|]; [|discriminate].
  destruct (getitem v "content") as [content|]; [|discriminate].
  destruct (getitem0 content) as [first|]; [|discriminate].
  destruct (getitem first "text") as [[| | |raw| |]|]; try discriminate.
  intros [= <-]. now exists raw.
Qed.

(** X10. A response of status 200 is only given after the backend
    answered, and it always carries a command that is not empty, holds no
    fence and has no white space at either end, together with the query,
    stripped and not empty. *)
Theorem ok_response_shape :
  forall json_loads w event r,
    (lambda_handler json_loads w event).2 = Returned r ->
    statusCode r = 200%Z ->
    exists query command text,
      (invoke_with_retry w).2 = Returned text
      /\ extract_command json_loads text = Returned command
      /\ (lambda_handler json_loads w event).1 = (invoke_with_retry w).1
      /\ body r = json_dumps [("command", command); ("query", query)]
      /\ headers r = json_headers
      /\ command <> EmptyString
      /\ PyStr.occurs fence command = false
      /\ PyStr.strip command = command
      /\ query <> EmptyString
      /\ PyStr.strip query = query.
Proof.
  intros json_loads w event r Hr Hst.
  destruct (request_body json_loads event) as [body|x] eqn:Hb.
  2: { rewrite lambda_handler_no_dict in Hr by (rewrite Hb; discriminate).
       injection Hr as <-. discriminate Hst. }
  destruct body as [| | | |l|d];
    try (rewrite lambda_handler_no_dict in Hr by (rewrite Hb; discriminate);
         injection Hr as <-; discriminate Hst).
  rewrite (lambda_handler_dict _ _ _ _ Hb) in Hr |- *.
  destruct (d !! "query") as [v|]; [|injection Hr as <-; discriminate Hst].
  destruct v as [| | |s| |]; try (injection Hr as <-; discriminate Hst).
  destruct (String.eqb (PyStr.strip s) EmptyString) eqn:Hs;
    [injection Hr as <-; discriminate Hst|].
  apply String.eqb_neq in Hs.
  destruct (default (PDict ∅) (d !! "context")) as [| | | | |c];
    try (rewrite generate_without_dict in Hr by discriminate;
         injection Hr as <-; discriminate Hst).
  rewrite generate_with_dict in Hr |- *. unfold answer, generated in *.
  destruct (invoke_with_retry w) as [t [text|e]]; cbn [fst snd] in *;
    [|injection Hr as <-; discriminate Hst].
  destruct (extract_command json_loads text) as [[|a command]|e] eqn:He;
    try (injection Hr as <-; discriminate Hst).
  injection Hr as <-. cbn [body headers].
  destruct (extract_command_sanitized _ _ _ He) as [raw Hraw].
  exists (PyStr.strip s), (String a command), text.
  split; [reflexivity|]. split; [exact He|]. split; [reflexivity|].
  split; [reflexivity|]. split; [reflexivity|]. split; [discriminate|].
  rewrite Hraw.
  split; [apply sanitize_no_fence|]. split; [apply sanitize_stripped|].
  split; [exact Hs|apply strip_idem].
Qed.

Lemma ok_response_shape_witness :
  exists query command text,
    (invoke_with_retry Scenario.answering).2 = Returned text
    /\ extract_command Scenario.loads_reply text = Returned command
    /\ command <> EmptyString
    /\ PyStr.strip query = query.
Proof.
  destruct (ok_response_shape Scenario.loads_reply Scenario.answering
              Scenario.list_files
              (Response 200 json_headers
                 (json_dumps [("command", "ls -la"); ("query", "list files")])))
    as (query & command & text & H1 & H2 & _ & _ & _ & H3 & _ & _ & _ & H4);
    [reflexivity|reflexivity|].
  exists query, command, text. auto.
Defined.

(** The handler sees of the event only its request body. *)
Lemma lambda_handler_via_body json_loads w event event' :
  request_body json_loads event = request_body json_loads event' ->
  lambda_handler json_loads w event = lambda_handler json_loads w event'.
Proof.
  intros H. destruct (request_body json_loads event) as [body|x] eqn:Hb.
  - destruct body as [| | | |l|d];
      try (rewrite !lambda_handler_no_dict;
           [reflexivity|rewrite <- H; discriminate|rewrite Hb; discriminate]).
    symmetry in H.
    now rewrite (lambda_handler_dict _ _ _ _ Hb), (lambda_handler_dict _ _ _ _ H).
  - rewrite !lambda_handler_no_dict;
      [reflexivity|rewrite <- H; discriminate|rewrite Hb; discriminate].
Qed.

(** X11. When the event has a [body], nothing else of the event matters:
    two events with the same body get the same answer, whatever their
    method, path, headers or other keys. And a body given as JSON text is
    handled as the value it decodes to, when that is not a string. *)
Theorem only_the_body_matters :
  forall json_loads w event event' v,
    event !! "body" = Some v ->
    (event' !! "body" = Some v ->
     lambda_handler json_loads w event = lambda_handler json_loads w event')
    /\ (forall s,
          v = PStr s ->
          forall v', json_loads s = Some v' ->
          (forall s', v' <> PStr s') ->
          event' !! "body" = Some v' ->
          lambda_handler json_loads w event = lambda_handler json_loads w event').
Proof.
  intros json_loads w event event' v Hv. split.
  - intros Hv'. apply lambda_handler_via_body. unfold request_body.
    now rewrite Hv, Hv'.
  - intros s -> v' Hl Hns Hv'. apply lambda_handler_via_body.
    unfold request_body, loads. rewrite Hv, Hv', Hl.
    destruct v'; try reflexivity. now destruct (Hns s0).
Qed.

Lemma only_the_body_matters_witness :
  lambda_handler Scenario.loads_request Scenario.answering Scenario.posted
  = lambda_handler Scenario.loads_request Scenario.answering Scenario.posted_again
  /\ lambda_handler Scenario.loads_request Scenario.answering Scenario.posted
     = lambda_handler Scenario.loads_request Scenario.answering
         {[ "body" := PDict {[ "query" := PStr " list files " ]} ]}.
Proof.
  destruct (only_the_body_matters Scenario.loads_request Scenario.answering
              Scenario.posted Scenario.posted_again (PStr "{...}") eq_refl)
    as [Hsame _].
  destruct (only_the_body_matters Scenario.loads_request Scenario.answering
              Scenario.posted
              {[ "body" := PDict {[ "query" := PStr " list files " ]} ]}
              (PStr "{...}") eq_refl)
    as [_ Htext].
  split.
  - apply Hsame. reflexivity.
  - apply (Htext "{...}" eq_refl (PDict {[ "query" := PStr " list files " ]}));
      [reflexivity|discriminate|reflexivity].
Defined.

Lemma printable_app s s' :
  Trace.printable (s +:+ s') = Trace.printable s && Trace.printable s'.
Proof.
  induction s as [|c s IH]; [reflexivity|].
  rewrite append_cons. cbn [Trace.printable]. rewrite IH.
  now rewrite !andb_assoc.
Qed.

Lemma printable_escape_char c : Trace.printable (json_escape_char c) = true.
Proof. destruct c as [[] [] [] [] [] [] [] []]; reflexivity. Qed.

Lemma printable_escape s : Trace.printable (json_escape s) = true.
Proof.
  induction s as [|c s IH]; [reflexivity|].
  cbn [json_escape]. now rewrite printable_app, printable_escape_char, IH.
Qed.

Lemma printable_json_string s : Trace.printable (json_string s) = true.
Proof.
  unfold json_string. cbn [Trace.printable].
  now rewrite printable_app, printable_escape.
Qed.

Lemma printable_join sep parts :
  Trace.printable sep = true ->
  Forall (fun p => Trace.printable p = true) parts ->
  Trace.printable (PyStr.join sep parts) = true.
Proof.
  intros Hsep. unfold PyStr.join.
  induction 1 as [|p parts Hp Hparts IH]; [reflexivity|].
  cbn [String.concat]. destruct parts as [|q parts]; [exact Hp|].
  rewrite !printable_app, Hp, Hsep. exact IH.
Qed.

Lemma printable_json_dumps fields : Trace.printable (json_dumps fields) = true.
Proof.
  unfold json_dumps. cbn [Trace.printable]. rewrite !printable_app.
  rewrite printable_join; [reflexivity|reflexivity|].
  induction fields as [|kv fields IH]; constructor; [|exact IH].
  now rewrite !printable_app, !printable_json_string.
Qed.

(** X12. The body of every response of the handler is made of printable
    ASCII characters only, whatever characters the query and the command
    hold: [json.dumps] escapes all others. *)
Theorem response_body_is_ascii :
  forall json_loads w event,
    exists r,
      (lambda_handler json_loads w event).2 = Returned r
      /\ Trace.printable (body r) = true.
Proof.
  intros json_loads w event.
  destruct (lambda_handler_cases json_loads w event)
    as [H|[H|(query & context & _ & H)]].
  - eexists. rewrite H. split; [reflexivity|apply printable_json_dumps].
  - eexists. rewrite H. split; [reflexivity|apply printable_json_dumps].
  - destruct (answer_cases query
                (generate_shell_command json_loads w query context))
      as [(t & Ha)|[(t & Ha)|(t & c & command & _ & Ha)]];
      rewrite Ha in H; eexists; rewrite H;
      (split; [reflexivity|apply printable_json_dumps]).
Qed.

End HandlerFurther.

(** ** The client, further *)

Section ClientFurther.
Import Py Shellmate.

Lemma prompts_app t t' : Trace.prompts (t ++ t') = Trace.prompts t ++ Trace.prompts t'.
Proof. induction t as [|[] t IH]; simpl; now rewrite ?IH. Qed.

Lemma requests_app t t' :
  Trace.requests (t ++ t') = Trace.requests t ++ Trace.requests t'.
Proof. induction t as [|[] t IH]; simpl; now rewrite ?IH. Qed.

(** [query_ai] sends the request it has built, once, unless its [try]
    ended before [urlopen]; it asks nothing and runs nothing. *)
Lemma query_ai_one_request w self query :
  Trace.requests (query_ai w self query).1
  = match urlopen w (build_request w self query) with
    | Unsent _ => []
    | _ => [build_request w self query]
    end
  /\ Trace.prompts (query_ai w self query).1 = []
  /\ executed (query_ai w self query).1 = [].
Proof.
  unfold query_ai.
  destruct (urlopen w (build_request w self query))
    as [message|code reason|reason|message|message|result];
    try (repeat split; reflexivity).
  destruct result; repeat split.
Qed.

Lemma run_seamless_cases py_str w self query :
  exists t r,
    run py_str w self query true = ((query_ai w self query).1 ++ t, r)
    /\ (t = [] \/ exists line, t = [Stdout line]).
Proof.
  unfold run. destruct (query_ai w self query) as [t command]. cbn [fst].
  destruct (truthy command).
  - cbn [negb].
    destruct command as [| | |s| |];
      try (exists [], (Raised AttributeError); rewrite app_nil_r; now auto).
    eexists [Stdout _], (Returned true). split; [reflexivity|]. right. eauto.
  - cbn [negb]. exists [], (Returned false). auto.
Qed.

Lemma seamless_never_executes_aux py_str w self query :
  executed (run py_str w self query true).1 = [].
Proof.
  destruct (run_seamless_cases py_str w self query) as (t & r & -> & Ht).
  cbn [fst]. rewrite executed_app.
  destruct (query_ai_one_request w self query) as (_ & _ & ->).
  now destruct Ht as [->|[line ->]].
Qed.

Lemma seamless_never_executes_requests py_str w self query :
  Trace.requests (run py_str w self query true).1
  = Trace.requests (query_ai w self query).1.
Proof.
  destruct (run_seamless_cases py_str w self query) as (t & r & -> & Ht).
  cbn [fst]. rewrite requests_app.
  destruct Ht as [->|[line ->]]; cbn [Trace.requests]; now rewrite app_nil_r.
Qed.

Lemma requests_when_unsent w self query message :
  urlopen w (build_request w self query) = Unsent message ->
  Trace.requests (query_ai w self query).1 = [].
Proof.
  intros H. destruct (query_ai_one_request w self query) as (-> & _).
  now rewrite H.
Qed.

Lemma requests_when_sent w self query :
  (forall message, urlopen w (build_request w self query) <> Unsent message) ->
  Trace.requests (query_ai w self query).1 = [build_request w self query].
Proof.
  intros H. destruct (query_ai_one_request w self query) as (-> & _).
  destruct (urlopen w (build_request w self query)); try reflexivity.
  now destruct (H message).
Qed.

Lemma execute_command_no_request py_str w command show_prompt :
  Trace.requests (execute_command py_str w command show_prompt).1 = [].
Proof.
  unfold execute_command. destruct (truthy command); cbn [negb]; [|reflexivity].
  assert (Hst : forall (sp : bool) a b c d,
    Trace.requests ([Stdout a; SetPreInputHook b]
                    ++ (if sp then [Stdout c] else []) ++ [Input d]) = [])
    by (now intros []).
  destruct (input w (prompt_char w)) as [text| | |message]; cbn [fst];
    try (now rewrite requests_app, Hst).
  destruct (negb (String.eqb (PyStr.strip text) EmptyString));
    [destruct (system w text)|]; cbn [fst]; now rewrite requests_app, Hst.
Qed.

(** X13. In seamless mode the client neither executes a command nor reads
    a line from the operator, whatever the service answers. It sends at
    most one request: none when the [try] of [query_ai] ends before
    [urlopen] is reached (the request could not be built, as for an
    endpoint without a scheme), and otherwise exactly the request built
    from the query. *)
Theorem seamless_never_executes :
  forall py_str w self query,
    executed (run py_str w self query true).1 = []
    /\ Trace.prompts (run py_str w self query true).1 = []
    /\ (forall message,
          urlopen w (build_request w self query) = Unsent message ->
          Trace.requests (run py_str w self query true).1 = [])
    /\ ((forall message,
           urlopen w (build_request w self query) <> Unsent message) ->
        Trace.requests (run py_str w self query true).1
        = [build_request w self query]).
Proof.
  intros py_str w self query.
  split; [apply seamless_never_executes_aux|]. split.
  - destruct (run_seamless_cases py_str w self query) as (t & r & -> & Ht).
    cbn [fst]. rewrite prompts_app.
    destruct (query_ai_one_request w self query) as (_ & -> & _).
    now destruct Ht as [->|[line ->]].
  - rewrite seamless_never_executes_requests. split.
    + apply requests_when_unsent.
    + apply requests_when_sent.
Qed.

Lemma seamless_never_executes_witness :
  Trace.requests
    (run Scenario.render Scenario.no_scheme Scenario.bare_client "list files" true).1
  = []
  /\ Trace.requests
       (run Scenario.render Scenario.service_down Scenario.client "list files" true).1
     = [build_request Scenario.service_down Scenario.client "list files"].
Proof.
  split.
  - destruct (seamless_never_executes Scenario.render Scenario.no_scheme
                Scenario.bare_client "list files") as (_ & _ & H & _).
    apply (H "unknown url type: 'api.example.com/prod/query'"). reflexivity.
  - destruct (seamless_never_executes Scenario.render Scenario.service_down
                Scenario.client "list files") as (_ & _ & _ & H).
    apply H. intros message. vm_compute. discriminate.
Defined.

Lemma execute_command_runs py_str w command show_prompt :
  executed (execute_command py_str w command show_prompt).1 = []
  \/ exists text,
       input w (prompt_char w) = Line text
       /\ PyStr.strip text <> EmptyString
       /\ executed (execute_command py_str w command show_prompt).1 = [text].
Proof.
  unfold execute_command. destruct (truthy command); cbn [negb]; [|now left].
  destruct (input w (prompt_char w)) as [text| | |message] eqn:Hi; cbn [fst];
    try (left; now rewrite executed_app, executed_staged).
  destruct (String.eqb (PyStr.strip text) EmptyString) eqn:Hs; cbn [negb fst].
  - left. now rewrite executed_app, executed_staged.
  - right. exists text. split; [reflexivity|].
    split; [now apply String.eqb_neq|].
    destruct (system w text); cbn [fst];
      now rewrite executed_app, executed_staged.
Qed.

(** X14. In interactive mode, when the operator submits a line that is
    not blank, that line, exactly as typed, is the one command executed,
    also when it differs from the generated command; the call succeeds if
    and only if [os.system] returned 0. *)
Theorem confirmed_line_is_executed :
  forall py_str w command show_prompt text,
    truthy command = true ->
    input w (prompt_char w) = Line text ->
    PyStr.strip text <> EmptyString ->
    executed (execute_command py_str w command show_prompt).1 = [text]
    /\ ((execute_command py_str w command show_prompt).2 = true
        <-> system w text = Status 0).
Proof.
  intros py_str w command show_prompt text Ht Hi Hs.
  unfold execute_command. rewrite Ht, Hi. cbn [negb].
  apply String.eqb_neq in Hs as ->. cbn [negb].
  destruct (system w text) as [status|message] eqn:Hsys; cbn [fst snd];
    rewrite executed_app, executed_staged; (split; [reflexivity|]).
  - split.
    + intros H. apply Z.eqb_eq in H. now subst.
    + now intros [= ->].
  - split; discriminate.
Qed.

Lemma confirmed_line_is_executed_witness :
  executed
    (execute_command Scenario.render Scenario.keyed (PStr "ls") None).1
  = ["ls -la /nowhere"]
  /\ (execute_command Scenario.render Scenario.keyed (PStr "ls") None).2 = false.
Proof.
  destruct (confirmed_line_is_executed Scenario.render Scenario.keyed (PStr "ls")
              None "ls -la /nowhere") as [H1 H2];
    [reflexivity|reflexivity|discriminate|].
  split; [exact H1|].
  destruct (execute_command Scenario.render Scenario.keyed (PStr "ls") None).2;
    [|reflexivity].
  destruct H2 as [H2 _]. discriminate (H2 eq_refl).
Defined.

(** X15. Whatever the command line, the environment and the service, the
    client executes nothing at all or exactly one command, and then it is
    the line the operator submitted at the prompt, in interactive mode:
    the generated command is never executed on its own. *)
Theorem only_the_submitted_line_runs :
  forall py_str w args,
    executed (main py_str w args).1 = []
    \/ (seamless args = false
        /\ exists text,
             input w (prompt_char w) = Line text
             /\ PyStr.strip text <> EmptyString
             /\ executed (main py_str w args).1 = [text]).
Proof.
  intros py_str w args. unfold main.
  destruct (query args) as [|word words]; [now left|].
  set (query := PyStr.join " " (word :: words)).
  unfold ShellMate_init.
  destruct (environ w !! "SHELLMATE_API_ENDPOINT") as [[|c endpoint]|];
    try (now left).
  set (self := {| api_endpoint := String c endpoint;
                  api_key := environ w !! "SHELLMATE_API_KEY" |}).
  destruct (seamless args) eqn:Hseam.
  - left. pose proof (seamless_never_executes_aux py_str w self query) as H.
    destruct (run py_str w self query true) as [t [success|e]];
      cbn [app fst] in *.
    + exact H.
    + now rewrite executed_app, H.
  - destruct (truthy (query_ai w self query).2) eqn:Ht.
    + rewrite (run_interactive _ _ _ _ Ht). cbn [app fst].
      rewrite !executed_app.
      destruct (query_ai_one_request w self query) as (_ & _ & ->).
      replace (executed (if show_prompt_setting w
                         then [Stdout ("Query: " +:+ query)] else []))
        with (@nil string) by now destruct (show_prompt_setting w).
      cbn [app].
      destruct (execute_command_runs py_str w (query_ai w self query).2 None)
        as [H|(text & Hi & Hs & H)]; [now left|].
      right. split; [reflexivity|]. exists text. auto.
    + left. rewrite (run_interactive_failure _ _ _ _ Ht). cbn [app fst].
      rewrite executed_app.
      now destruct (query_ai_one_request w self query) as (_ & _ & ->).
Qed.

(** X16. With a query but without an endpoint in the environment (the
    variable unset, or set to the empty string), the process prints one
    error line and ends with status 1 before anything else happens: no
    request is sent, nothing is read and nothing is executed. *)
Theorem missing_endpoint_stops_early :
  forall py_str w args,
    query args <> [] ->
    environ w !! "SHELLMATE_API_ENDPOINT" = None
    \/ environ w !! "SHELLMATE_API_ENDPOINT" = Some EmptyString ->
    main py_str w args
    = ([Stderr "Error: SHELLMATE_API_ENDPOINT environment variable not set"],
       1%Z)
    /\ Trace.requests (main py_str w args).1 = []
    /\ Trace.prompts (main py_str w args).1 = []
    /\ executed (main py_str w args).1 = [].
Proof.
  intros py_str w args Hq He.
  assert (H : main py_str w args
    = ([Stderr "Error: SHELLMATE_API_ENDPOINT environment variable not set"],
       1%Z)).
  { unfold main, ShellMate_init. destruct (query args); [contradiction|].
    now destruct He as [-> | ->]. }
  rewrite H. repeat split.
Qed.

Lemma missing_endpoint_stops_early_witness :
  main Scenario.render Scenario.unconfigured (Scenario.ask false)
  = ([Stderr "Error: SHELLMATE_API_ENDPOINT environment variable not set"],
     1%Z).
Proof.
  apply (missing_endpoint_stops_early Scenario.render Scenario.unconfigured
           (Scenario.ask false)); [discriminate|now left].
Defined.

(** X17. When the service answers with a command that is not a string
    and is not falsy (a number, a list, an object), seamless mode does not
    fail quietly: [command.replace] raises [AttributeError], nothing is
    printed on standard output, and the process ends with status 1 on the
    uncaught exception. *)
Theorem non_string_command_crashes_seamless :
  forall py_str w args self,
    query args <> [] ->
    seamless args = true ->
    ShellMate_init w = ([], inl self) ->
    truthy (query_ai w self (PyStr.join " " (query args))).2 = true ->
    (forall s, (query_ai w self (PyStr.join " " (query args))).2 <> PStr s) ->
    (run py_str w self (PyStr.join " " (query args)) true).2
    = Raised AttributeError
    /\ (main py_str w args).2 = 1%Z
    /\ Trace.tracebacks (main py_str w args).1 = [AttributeError]
    /\ stdout_text (main py_str w args).1 = EmptyString.
Proof.
  intros py_str w args self Hq Hs Hi Ht Hns.
  assert (Hrun : run py_str w self (PyStr.join " " (query args)) true
                 = ((query_ai w self (PyStr.join " " (query args))).1,
                    Raised AttributeError)).
  { unfold run.
    destruct (query_ai w self (PyStr.join " " (query args))) as [t command].
    cbn [fst snd] in *. rewrite Ht. cbn [negb].
    destruct command as [| | |s| |]; try reflexivity. now destruct (Hns s). }
  rewrite Hrun. split; [reflexivity|].
  unfold main. destruct (query args) as [|word words] eqn:Eq; [contradiction|].
  rewrite Hi, Hs, Hrun. cbn [app fst snd].
  destruct (query_ai_trace w self (PyStr.join " " (word :: words)))
    as [[-> _]|(d & [-> | ->] & _)]; repeat split.
Qed.

Lemma non_string_command_crashes_seamless_witness :
  (main Scenario.render Scenario.service_number (Scenario.ask true)).2 = 1%Z
  /\ Trace.tracebacks
       (main Scenario.render Scenario.service_number (Scenario.ask true)).1
     = [AttributeError].
Proof.
  destruct (non_string_command_crashes_seamless Scenario.render
              Scenario.service_number (Scenario.ask true) Scenario.client)
    as (_ & H1 & H2 & _);
    [discriminate|reflexivity|reflexivity|reflexivity|discriminate|].
  split; [exact H1 | exact H2].
Defined.

(** X18. With an endpoint and a query, the client builds one request:
    to the endpoint of the environment, with the words of the command
    line joined by single spaces as its query, with the name of the
    operating system and the working directory as its context, and with
    the API key header exactly when the key is set and not empty. It
    sends that request once and no other, unless the [try] of [query_ai]
    ends before [urlopen] is reached (as for an endpoint without a
    scheme), and then it sends none. The words matter only through their
    joining. *)
Theorem one_request_is_sent :
  forall py_str w args endpoint,
    query args <> [] ->
    environ w !! "SHELLMATE_API_ENDPOINT" = Some endpoint ->
    endpoint <> EmptyString ->
    (exists req,
       (forall message,
          urlopen w req = Unsent message ->
          Trace.requests (main py_str w args).1 = [])
       /\ ((forall message, urlopen w req <> Unsent message) ->
           Trace.requests (main py_str w args).1 = [req])
       /\ url req = endpoint
       /\ data_query req = PyStr.join " " (query args)
       /\ data_os req = os_name w
       /\ data_cwd req = getcwd w
       /\ request_headers req !! "Content-Type" = Some "application/json"
       /\ request_headers req !! "X-API-Key"
          = match environ w !! "SHELLMATE_API_KEY" with
            | Some EmptyString => None
            | key => key
            end)
    /\ (forall args',
          PyStr.join " " (query args') = PyStr.join " " (query args) ->
          query args' <> [] ->
          seamless args' = seamless args ->
          main py_str w args' = main py_str w args).
Proof.
  intros py_str w args endpoint Hq He Hne. split.
  - set (self := {| api_endpoint := endpoint;
                    api_key := environ w !! "SHELLMATE_API_KEY" |}).
    assert (Hi : ShellMate_init w = ([], inl self)).
    { unfold ShellMate_init. rewrite He. now destruct endpoint. }
    exists (build_request w self (PyStr.join " " (query args))).
    assert (Hmain : Trace.requests (main py_str w args).1
                    = Trace.requests
                        (query_ai w self (PyStr.join " " (query args))).1).
    { unfold main. destruct (query args) as [|word words]; [contradiction|].
      rewrite Hi. set (q := PyStr.join " " (word :: words)).
      assert (Hreq : Trace.requests (run py_str w self q (seamless args)).1
                     = Trace.requests (query_ai w self q).1).
      { destruct (seamless args).
        - apply seamless_never_executes_requests.
        - destruct (truthy (query_ai w self q).2) eqn:Ht.
          + rewrite (run_interactive _ _ _ _ Ht). cbn [fst].
            rewrite !requests_app.
            replace (Trace.requests
                       (if show_prompt_setting w
                        then [Stdout ("Query: " +:+ q)] else []))
              with (@nil request) by now destruct (show_prompt_setting w).
            rewrite execute_command_no_request. now rewrite !app_nil_r.
          + rewrite (run_interactive_failure _ _ _ _ Ht). cbn [fst].
            rewrite requests_app. cbn [Trace.requests]. now rewrite app_nil_r. }
      destruct (run py_str w self q (seamless args)) as [t [success|e]];
        cbn [app fst] in *; [exact Hreq|].
      rewrite requests_app, Hreq. cbn [Trace.requests]. now rewrite app_nil_r. }
    split; [|split].
    + intros message Hu. rewrite Hmain. now apply (requests_when_unsent _ _ _ message).
    + intros Hs. rewrite Hmain. now apply requests_when_sent.
    + do 4 (split; [reflexivity|]).
      unfold build_request, self. cbn [request_headers api_key].
      destruct (environ w !! "SHELLMATE_API_KEY") as [[|c key]|];
        split; reflexivity.
  - intros args' Hj Hq' Hs. unfold main.
    destruct (query args) as [|word words]; [contradiction|].
    destruct (query args') as [|word' words']; [contradiction|].
    now rewrite Hj, Hs.
Qed.

Lemma one_request_is_sent_witness :
  (exists req,
     Trace.requests (main Scenario.render Scenario.keyed (Scenario.ask false)).1
     = [req]
     /\ data_query req = "list text files"
     /\ request_headers req !! "X-API-Key" = Some "secret")
  /\ Trace.requests (main Scenario.render Scenario.no_scheme (Scenario.ask true)).1
     = []
  /\ main Scenario.render Scenario.keyed
       {| query := ["list text"; "files"]; seamless := false |}
     = main Scenario.render Scenario.keyed (Scenario.ask false).
Proof.
  destruct (one_request_is_sent Scenario.render Scenario.keyed (Scenario.ask false)
              "https://api.example.com/prod/query")
    as [(req & _ & H1 & Hurl & H2 & Hos & Hcwd & _ & H3) Hsame];
    [discriminate|reflexivity|discriminate|].
  destruct (one_request_is_sent Scenario.render Scenario.no_scheme
              (Scenario.ask true) "api.example.com/prod/query")
    as [(req' & H0 & _) _]; [discriminate|reflexivity|discriminate|].
  split; [|split].
  - exists req. split; [|split; [exact H2 | exact H3]].
    apply H1. intros message. vm_compute. discriminate.
  - apply (H0 "unknown url type: 'api.example.com/prod/query'").
    vm_compute. reflexivity.
  - apply Hsame; [reflexivity|discriminate|reflexivity].
Defined.

Lemma halve_double s :
  halve_backslashes (PyStr.double_backslashes s) = s.
Proof.
  induction s as [|c s IH]; [reflexivity|].
  cbn [PyStr.double_backslashes].
  destruct (Ascii.eqb c PyStr.backslash) eqn:Hc.
  - apply Ascii.eqb_eq in Hc as ->.
    cbn [halve_backslashes]. rewrite Ascii.eqb_refl. now rewrite IH.
  - cbn [halve_backslashes]. now rewrite Hc, IH.
Qed.

(** X19. The doubling of backslashes that seamless mode applies to the
    command loses nothing: reading every pair of backslashes back as one
    gives the command again, so two different commands are never printed
    alike; and the printed text has one character more for each backslash
    of the command. *)
Theorem backslash_doubling_is_reversible :
  forall command,
    let printed :=
      PyStr.replace command (String PyStr.backslash EmptyString)
        (String PyStr.backslash (String PyStr.backslash EmptyString)) in
    halve_backslashes printed = command
    /\ (forall command',
          PyStr.replace command' (String PyStr.backslash EmptyString)
            (String PyStr.backslash (String PyStr.backslash EmptyString))
          = printed ->
          command' = command)
    /\ String.length printed
       = (String.length command
          + length (filter (fun c => c = PyStr.backslash)
                      (String.list_ascii_of_string command)))%nat.
Proof.
  intros command printed. unfold printed. rewrite !replace_backslash.
  split; [apply halve_double|]. split.
  - intros command' H. rewrite replace_backslash in H.
    rewrite <- (halve_double command'), H. apply halve_double.
  - induction command as [|c s IH]; [reflexivity|].
    cbn [PyStr.double_backslashes String.list_ascii_of_string String.length].
    rewrite filter_cons.
    destruct (Ascii.eqb c PyStr.backslash) eqn:Hc.
    + apply Ascii.eqb_eq in Hc as ->.
      rewrite decide_True by reflexivity. cbn [String.length length].
      rewrite IH. lia.
    + apply Ascii.eqb_neq in Hc.
      rewrite decide_False by exact Hc. cbn [String.length]. now rewrite IH.
Qed.

Lemma backslash_doubling_is_reversible_witness :
  halve_backslashes
    (PyStr.replace Scenario.find_command (String PyStr.backslash EmptyString)
       (String PyStr.backslash (String PyStr.backslash EmptyString)))
  = Scenario.find_command
  /\ "grep " +:+ String PyStr.backslash ".txt notes" = Scenario.find_command.
Proof.
  destruct (backslash_doubling_is_reversible Scenario.find_command)
    as (Hback & Hinj & _).
  split; [exact Hback|]. apply Hinj. reflexivity.
Defined.

Lemma occurs_slash_after dir name :
  PyStr.occurs "/" (dir +:+ String "/" name) = true.
Proof.
  induction dir as [|c dir IH].
  - rewrite append_nil, occurs_cons, prefix_cons.
    destruct (Ascii.ascii_dec "/" "/"); [|contradiction].
    now destruct name.
  - rewrite append_cons, occurs_cons, IH. apply orb_true_r.
Qed.

Lemma basename_after_slash dir name :
  PyStr.occurs "/" name = false ->
  PyStr.basename (dir +:+ String "/" name) = name.
Proof.
  intros Hn. induction dir as [|c dir IH].
  - rewrite append_nil. cbn [PyStr.basename]. now rewrite Hn.
  - rewrite append_cons. cbn [PyStr.basename].
    now rewrite occurs_slash_after.
Qed.

(** X20. The prompt of the staged line follows the shell of the operator:
    it is [% ] when the last component of [SHELL] is [zsh], wherever zsh is
    installed, and [$ ] in every other case, also when [SHELL] is not
    set. *)
Theorem prompt_follows_the_shell :
  forall w,
    (forall dir,
        environ w !! "SHELL" = Some (dir +:+ "/zsh") -> prompt_char w = "% ")
    /\ (forall dir name,
          environ w !! "SHELL" = Some (dir +:+ String "/" name) ->
          PyStr.occurs "/" name = false ->
          name <> "zsh" ->
          prompt_char w = "$ ")
    /\ (environ w !! "SHELL" = None -> prompt_char w = "$ ")
    /\ (prompt_char w = "$ " \/ prompt_char w = "% ").
Proof.
  intros w. split; [|split; [|split]].
  - intros dir H. unfold prompt_char. rewrite H. cbn [default from_option id].
    now rewrite (basename_after_slash dir "zsh").
  - intros dir name H Hn Hz. unfold prompt_char. rewrite H.
    cbn [default from_option id]. rewrite (basename_after_slash dir name Hn).
    destruct (bool_decide (name ∈ ["bash"; "sh"])); [reflexivity|].
    now apply String.eqb_neq in Hz as ->.
  - intros H. unfold prompt_char. now rewrite H.
  - unfold prompt_char.
    destruct (bool_decide _); [now left|].
    destruct (String.eqb _ "zsh"); auto.
Qed.

Lemma prompt_follows_the_shell_witness :
  prompt_char Scenario.keyed = "% " /\ prompt_char Scenario.service_down = "$ ".
Proof.
  destruct (prompt_follows_the_shell Scenario.keyed) as (Hz & _).
  destruct (prompt_follows_the_shell Scenario.service_down) as (_ & _ & Hn & _).
  split.
  - apply (Hz "/usr/bin"). reflexivity.
  - apply Hn. reflexivity.
Defined.

End ClientFurther.

(** ** The installer: the configuration found *)

Section FoundConfiguration.
Import Py Install.

Lemma config_of_some endpoint api_key config :
  config_of endpoint api_key = Some config ->
  config = [(endpoint_key, PStr endpoint)] /\ truthy api_key = false
  \/ config = [(endpoint_key, PStr endpoint); (api_key_key, api_key)]
     /\ truthy api_key = true /\ sliceable api_key = true.
Proof.
  unfold config_of. destruct (truthy api_key).
  - destruct (sliceable api_key); [|discriminate]. intros [= <-]. now right.
  - intros [= <-]. now left.
Qed.

(** X21. [get_aws_config] finds a configuration only when the stack
    answers: if the first call fails, returns a code other than 0, or
    prints nothing or [None], the result is [None] and no key is asked
    for. A configuration found always starts with the endpoint, which is
    the stripped output of that call and is never empty, and holds an API
    key only if the key is truthy and is a string or a list. *)
Theorem found_configuration_shape :
  forall json_loads w,
    ((forall result, aws w DescribeStacks = Returned result -> useful result = false) ->
     get_aws_config json_loads w = ([Aws DescribeStacks], None))
    /\ (forall config,
          (get_aws_config json_loads w).2 = Some config ->
          exists result,
            aws w DescribeStacks = Returned result
            /\ returncode result = 0%Z
            /\ PyStr.strip (stdout result) <> EmptyString
            /\ PyStr.strip (stdout result) <> "None"
            /\ (config = [(endpoint_key, PStr (PyStr.strip (stdout result)))]
                \/ exists api_key,
                     config = [(endpoint_key, PStr (PyStr.strip (stdout result)));
                               (api_key_key, api_key)]
                     /\ truthy api_key = true
                     /\ sliceable api_key = true)).
Proof.
  intros json_loads w. split.
  - intros H. unfold get_aws_config.
    destruct (aws w DescribeStacks) as [result|e]; [|reflexivity].
    now rewrite (H result eq_refl).
  - intros config. unfold get_aws_config.
    destruct (aws w DescribeStacks) as [result|e]; [|discriminate].
    destruct (useful result) eqn:Hu; [|discriminate]. cbn [negb].
    intros H. exists result. split; [reflexivity|].
    unfold useful in Hu. apply andb_true_iff in Hu as [Hu H3].
    apply andb_true_iff in Hu as [H1 H2].
    apply Z.eqb_eq in H1. apply negb_true_iff, String.eqb_neq in H2, H3.
    split; [exact H1|]. split; [exact H2|]. split; [exact H3|].
    assert (Hc : exists api_key,
      config_of (PyStr.strip (stdout result)) api_key = Some config).
    { destruct (truthy _) in H; [eauto|].
      destruct (aws w GetApiKeyByName); [eauto|discriminate]. }
    destruct Hc as [api_key Hc].
    apply config_of_some in Hc as [[-> _]|(-> & Ht & Hs)]; eauto.
Qed.

Lemma found_configuration_shape_witness :
  get_aws_config Scenario.loads_listing Scenario.bare = ([Aws DescribeStacks], None)
  /\ exists result,
       aws Scenario.deployed DescribeStacks = Returned result
       /\ returncode result = 0%Z.
Proof.
  split.
  - apply (found_configuration_shape Scenario.loads_listing Scenario.bare).
    intros result [= <-]. reflexivity.
  - destruct (found_configuration_shape Scenario.loads_listing Scenario.deployed)
      as [_ H].
    destruct (H [(endpoint_key, PStr "https://abc.example.com/dev");
                 (api_key_key, PStr "TAGGED001")] eq_refl)
      as (result & H1 & H2 & _).
    exists result. split; [exact H1 | exact H2].
Defined.

End FoundConfiguration.

Section KeySelection.
Import Py Install.

Lemma find_by_tag_value items value :
  find_by_tag items = Returned (Some value) ->
  exists d, PDict d ∈ items /\ default PNone (d !! "value") = value.
Proof.
  induction items as [|key_info items IH]; [discriminate|].
  cbn [find_by_tag]. destruct key_info as [| | | | |d]; try discriminate.
  cbn [dict_get obind].
  assert (Hrest : find_by_tag items = Returned (Some value) ->
    exists d0, PDict d0 ∈ PDict d :: items /\ default PNone (d0 !! "value") = value).
  { intros H. destruct (IH H) as (d0 & Hin & Hv). exists d0.
    split; [now apply list_elem_of_further|exact Hv]. }
  destruct (contains stack_tag (default (PDict ∅) (d !! "tags"))) as [[]|];
    cbn [obind]; [|exact Hrest|discriminate].
  destruct (getitem (default (PDict ∅) (d !! "tags")) stack_tag) as [stack|];
    cbn [obind]; [|discriminate].
  destruct (contains stack_name stack) as [[]|]; cbn [obind];
    [|exact Hrest|discriminate].
  intros [= <-]. exists d. split; [apply list_elem_of_here|reflexivity].
Qed.

Lemma find_by_name_value items value :
  find_by_name items = Returned (Some value) ->
  exists d, PDict d ∈ items /\ default PNone (d !! "value") = value.
Proof.
  induction items as [|key_info items IH]; [discriminate|].
  cbn [find_by_name]. destruct key_info as [| | | | |d]; try discriminate.
  cbn [dict_get obind].
  destruct (method_lower (default (PStr EmptyString) (d !! "name"))) as [lowered|];
    cbn [obind]; [|discriminate].
  destruct (PyStr.occurs "shellmate" lowered).
  - intros [= <-]. exists d. split; [apply list_elem_of_here|reflexivity].
  - intros H. destruct (IH H) as (d0 & Hin & Hv). exists d0.
    split; [now apply list_elem_of_further|exact Hv].
Qed.

Lemma iterate_dicts items key_infos d :
  iterate items = Returned key_infos ->
  PDict d ∈ key_infos ->
  items = PList key_infos.
Proof.
  destruct items as [| | |s|l|m]; try discriminate; intros [= <-] Hin.
  - apply list_elem_of_fmap in Hin as (c & Hc & _). discriminate Hc.
  - reflexivity.
  - apply list_elem_of_fmap in Hin as (k & Hk & _). discriminate Hk.
Qed.

(** X22. The API key [select_api_key] picks from the listing is never
    made up: when it is truthy, the listing is an object whose [items] is
    a list, and the key is the [value] of one of the objects of that
    list. *)
Theorem selected_key_is_listed :
  forall api_keys,
    truthy (select_api_key api_keys) = true ->
    exists a key_infos d,
      api_keys = PDict a
      /\ a !! "items" = Some (PList key_infos)
      /\ PDict d ∈ key_infos
      /\ d !! "value" = Some (select_api_key api_keys).
Proof.
  intros api_keys. unfold select_api_key.
  destruct api_keys as [| | | | |a]; try discriminate.
  cbn [dict_get getitem obind].
  assert (Hitems : forall key_infos d,
    iterate (default (PList []) (a !! "items")) = Returned key_infos ->
    PDict d ∈ key_infos -> a !! "items" = Some (PList key_infos)).
  { intros key_infos d Hi Hin. pose proof (iterate_dicts _ _ _ Hi Hin) as H.
    destruct (a !! "items") as [items|]; cbn [default from_option id] in *.
    - now subst.
    - injection H as <-. now apply elem_of_nil in Hin. }
  assert (Hval : forall (d : gmap string pyval) v,
    default PNone (d !! "value") = v ->
    truthy v = true -> d !! "value" = Some v).
  { intros d v <- Hv. destruct (d !! "value"); [reflexivity|discriminate Hv]. }
  destruct (iterate (default (PList []) (a !! "items"))) as [key_infos|] eqn:Hi;
    cbn [obind]; [|discriminate].
  destruct (find_by_tag key_infos) as [found|] eqn:H1; [|discriminate].
  destruct (truthy (default PNone found)) eqn:Ht1.
  { intros _. destruct found as [v|]; [|discriminate Ht1].
    destruct (find_by_tag_value _ _ H1) as (d & Hin & Hv).
    exists a, key_infos, d. cbn [default from_option id] in *.
    split; [reflexivity|]. split; [now apply (Hitems key_infos d)|]. auto. }
  destruct (find_by_name key_infos) as [found2|] eqn:H2;
    [|now rewrite Ht1].
  destruct (truthy (default (default PNone found) found2)) eqn:Ht2.
  { intros _. destruct found2 as [v|];
      cbn [default from_option id] in Ht2 |- *; [|now rewrite Ht1 in Ht2].
    destruct (find_by_name_value _ _ H2) as (d & Hin & Hv).
    exists a, key_infos, d.
    split; [reflexivity|]. split; [now apply (Hitems key_infos d)|]. auto. }
  assert (Hno : truthy (default (default PNone found) found2) = true ->
    exists (a0 : gmap string pyval) key_infos0 (d : gmap string pyval),
      PDict a = PDict a0 /\ a0 !! "items" = Some (PList key_infos0)
      /\ PDict d ∈ key_infos0
      /\ d !! "value" = Some (default (default PNone found) found2))
    by (intros Hx; congruence).
  destruct (a !! "items") as [items|] eqn:Ha; cbn [default from_option id] in *;
    [|exact Hno].
  destruct (truthy items); [|exact Hno].
  cbn [obind].
  destruct (getitem0 items) as [first|] eqn:H0; cbn [obind]; [|exact Hno].
  destruct first as [| | | | |d]; cbn [dict_get]; try exact Hno.
  intros Ht3.
  destruct items as [| | |[|c s]|[|x l]|m]; try discriminate H0.
  injection H0 as ->. injection Hi as <-.
  exists a, (PDict d :: l), d. split; [reflexivity|]. split; [exact Ha|].
  split; [apply list_elem_of_here|]. now apply Hval.
Qed.

Lemma selected_key_is_listed_witness :
  exists a key_infos d,
    Scenario.key_listing = PDict a
    /\ a !! "items" = Some (PList key_infos)
    /\ PDict d ∈ key_infos
    /\ d !! "value" = Some (select_api_key Scenario.key_listing).
Proof.
  apply (selected_key_is_listed Scenario.key_listing). reflexivity.
Defined.

End KeySelection.

(** ** The installer as a whole *)

Section Installer.
Import Py Install.

Variable json_loads : string -> option pyval.
Variable py_str : pyval -> string.

Lemma configs_written_app t u :
  configs_written (t ++ u) = configs_written t ++ configs_written u.
Proof. induction t as [|[] t IH]; cbn; now rewrite ?IH. Qed.

Lemma appends_app t u : appends (t ++ u) = appends t ++ appends u.
Proof. induction t as [|[] t IH]; cbn; now rewrite ?IH. Qed.

Lemma commands_app t u : commands (t ++ u) = commands t ++ commands u.
Proof. induction t as [|[] t IH]; cbn; now rewrite ?IH. Qed.

(** A trace that leaves the configuration file and the shell files as
    they were. *)
Lemma get_aws_config_writes_nothing w :
  configs_written (get_aws_config json_loads w).1 = []
  /\ appends (get_aws_config json_loads w).1 = [].
Proof.
  unfold get_aws_config.
  destruct (aws w DescribeStacks) as [result|e]; [|now split].
  destruct (negb (useful result)); [now split|].
  destruct (truthy _); [now split|].
  destruct (aws w GetApiKeyByName); now split.
Qed.

Lemma ask_writes_nothing prompt typed :
  configs_written (ask prompt typed).1 = [] /\ appends (ask prompt typed).1 = [].
Proof. destruct typed; now split. Qed.

Lemma ask_choice_writes_nothing typed :
  configs_written (ask_choice typed).1 = [] /\ appends (ask_choice typed).1 = [].
Proof.
  induction typed as [|line rest IH]; [now split|]. cbn [ask_choice].
  destruct (bool_decide _); [now split|].
  destruct (ask_choice rest) as [t r]. exact IH.
Qed.

Lemma install_script_writes_nothing w script_type :
  configs_written (install_script w script_type).1 = []
  /\ appends (install_script w script_type).1 = [].
Proof.
  unfold install_script.
  destruct (negb (path_exists w _)); [now split|].
  destruct (negb (run_command w _)); [now split|].
  destruct (negb (run_command w _)); now split.
Qed.

Lemma setup_shell_integration_commands w :
  commands (setup_shell_integration w) = []
  /\ configs_written (setup_shell_integration w) = [].
Proof.
  unfold setup_shell_integration.
  destruct (integration_for _ (bashrc w)), (integration_for _ (zshrc w));
    now split.
Qed.

Lemma python_step_writes_nothing w choice :
  configs_written (python_step w choice).1 = []
  /\ appends (python_step w choice).1 = [].
Proof.
  unfold python_step. destruct (bool_decide _); [|now split].
  destruct (negb (python39 w)); [now split|].
  apply install_script_writes_nothing.
Qed.

Lemma bash_step_writes_nothing w choice success :
  configs_written (bash_step w choice success).1 = []
  /\ appends (bash_step w choice success).1 = [].
Proof.
  unfold bash_step. destruct (bool_decide _); [|now split].
  destruct (negb (which w "curl")); [now split|].
  pose proof (install_script_writes_nothing w "bash") as H.
  now destruct (install_script w "bash").
Qed.

(** What [configure] hands on: no configuration, or one that starts with
    a non-empty endpoint. *)
Lemma config_of_endpoint endpoint api_key config :
  config_of endpoint api_key = Some config ->
  exists rest, config = (endpoint_key, PStr endpoint) :: rest.
Proof.
  unfold config_of. destruct (truthy api_key); [destruct (sliceable api_key)|];
    intros [= <-]; eauto.
Qed.

Lemma get_aws_config_endpoint w config :
  (get_aws_config json_loads w).2 = Some config ->
  exists endpoint rest,
    endpoint <> EmptyString /\ config = (endpoint_key, PStr endpoint) :: rest.
Proof.
  unfold get_aws_config.
  destruct (aws w DescribeStacks) as [result|e]; [|discriminate].
  destruct (useful result) eqn:Hu; [|discriminate]. cbn [negb].
  unfold useful in Hu. apply andb_true_iff in Hu as [Hu _].
  apply andb_true_iff in Hu as [_ Hu].
  apply negb_true_iff, String.eqb_neq in Hu.
  intros H. exists (PyStr.strip (stdout result)).
  assert (Hc : exists api_key,
    config_of (PyStr.strip (stdout result)) api_key = Some config).
  { destruct (truthy _) in H; [eauto|].
    destruct (aws w GetApiKeyByName); [eauto|discriminate]. }
  destruct Hc as [api_key Hc].
  destruct (config_of_endpoint _ _ _ Hc) as [rest ->]. eauto.
Qed.

Lemma manual_config_endpoint endpoint api_key :
  manual_config endpoint api_key = []
  \/ exists rest,
       endpoint <> EmptyString
       /\ manual_config endpoint api_key = (endpoint_key, PStr endpoint) :: rest.
Proof.
  unfold manual_config.
  destruct (String.eqb endpoint EmptyString) eqn:He; [now left|right].
  apply String.eqb_neq in He.
  destruct (String.eqb api_key EmptyString); eauto.
Qed.

Lemma configure_gives w t config typed' :
  configure json_loads w = (t, Returned (config, typed')) ->
  configs_written t = [] /\ appends t = []
  /\ (config = []
      \/ exists endpoint rest,
           endpoint <> EmptyString
           /\ config = (endpoint_key, PStr endpoint) :: rest).
Proof.
  unfold configure.
  pose proof (get_aws_config_writes_nothing w) as [Hc Ha].
  pose proof (get_aws_config_endpoint w) as He.
  destruct (get_aws_config json_loads w) as [t0 found]. cbn [fst snd] in *.
  destruct (usable_config found) as [config0|] eqn:Hu.
  - intros [= <- <- <-]. split; [exact Hc|]. split; [exact Ha|]. right.
    unfold usable_config in Hu. destruct found as [c|]; [|discriminate].
    destruct (_ && _) in Hu; [|discriminate]. injection Hu as <-.
    now apply He.
  - destruct (typed w) as [|l1 [|l2 rest]]; cbn [ask]; try discriminate.
    intros [= <- <- <-].
    rewrite !configs_written_app, !appends_app, Hc, Ha.
    split; [reflexivity|]. split; [reflexivity|].
    destruct (manual_config_endpoint (PyStr.strip l1) (PyStr.strip l2))
      as [->|(rest' & Hne & ->)]; [now left|right; eauto].
Qed.

Lemma configure_raises w t e :
  configure json_loads w = (t, Raised e) ->
  configs_written t = [] /\ appends t = [] /\ e = end_of_input.
Proof.
  unfold configure.
  pose proof (get_aws_config_writes_nothing w) as [Hc Ha].
  destruct (get_aws_config json_loads w) as [t0 found]. cbn [fst snd] in *.
  destruct (usable_config found) as [config0|]; [discriminate|].
  destruct (typed w) as [|l1 [|l2 rest]]; cbn [ask]; try discriminate;
    intros [= <- <-]; rewrite !configs_written_app, !appends_app, Hc, Ha;
    now repeat split.
Qed.

Lemma ask_choice_raises typed t e :
  ask_choice typed = (t, Raised e) -> e = end_of_input.
Proof.
  revert t. induction typed as [|line rest IH]; intros t; cbn [ask_choice].
  - now intros [= _ <-].
  - destruct (bool_decide _); [discriminate|].
    destruct (ask_choice rest) as [t' r]. intros [= _ ->]. now apply (IH t').
Qed.

Lemma install_failed w aws_config choice :
  (install py_str w aws_config choice).2 = false ->
  configs_written (install py_str w aws_config choice).1 = []
  /\ appends (install py_str w aws_config choice).1 = [].
Proof.
  unfold install.
  pose proof (python_step_writes_nothing w choice) as [Hc1 Ha1].
  destruct (python_step w choice) as [t1 s1].
  pose proof (bash_step_writes_nothing w choice s1) as [Hc2 Ha2].
  destruct (bash_step w choice s1) as [t2 s2]. cbn [fst snd] in *.
  intros ->. cbn [andb].
  rewrite !configs_written_app, !appends_app, Hc1, Hc2, Ha1, Ha2.
  now split.
Qed.

Lemma install_config w aws_config choice :
  configs_written (install py_str w aws_config choice).1
  = if (install py_str w aws_config choice).2
       && match aws_config with [] => false | _ => true end
    then [config_text py_str aws_config] else [].
Proof.
  unfold install.
  pose proof (python_step_writes_nothing w choice) as [Hc1 _].
  destruct (python_step w choice) as [t1 s1].
  pose proof (bash_step_writes_nothing w choice s1) as [Hc2 _].
  destruct (bash_step w choice s1) as [t2 s2]. cbn [fst snd] in *.
  rewrite !configs_written_app, Hc1, Hc2. cbn [app].
  destruct s2; cbn [andb].
  - destruct (setup_shell_integration_commands w) as [_ ->].
    rewrite app_nil_r. now destruct aws_config.
  - reflexivity.
Qed.

(** X23. A run of the installer that does not end with status 0 ends
    with status 1 or with the end of the operator's input, and has
    written no configuration file and appended nothing to a shell file:
    the only traces it can leave are the commands of [install_script]. *)
Theorem failed_install_writes_nothing :
  forall w,
    (main json_loads py_str w).2 <> Returned 0%Z ->
    ((main json_loads py_str w).2 = Returned 1%Z
     \/ (main json_loads py_str w).2 = Raised end_of_input)
    /\ configs_written (main json_loads py_str w).1 = []
    /\ appends (main json_loads py_str w).1 = [].
Proof.
  intros w. unfold main, bind.
  destruct (configure json_loads w) as [t0 [[config typed']|e]] eqn:Hc.
  - destruct (configure_gives _ _ _ _ Hc) as (Hc0 & Ha0 & _). cbn [fst snd].
    pose proof (ask_choice_writes_nothing typed') as [Hc1 Ha1].
    destruct (ask_choice typed') as [t1 [[choice rest]|e]] eqn:Hq;
      cbn [fst snd] in *.
    + pose proof (install_failed w config choice) as Hf.
      destruct (install py_str w config choice) as [t2 success].
      cbn [fst snd] in *. destruct success; [congruence|]. intros _.
      destruct (Hf eq_refl) as [Hc2 Ha2].
      rewrite !configs_written_app, !appends_app, Hc0, Hc1, Hc2, Ha0, Ha1, Ha2.
      split; [now left|now split].
    + intros _. rewrite (ask_choice_raises _ _ _ Hq).
      rewrite !configs_written_app, !appends_app, Hc0, Hc1, Ha0, Ha1.
      split; [now right|now split].
  - destruct (configure_raises _ _ _ Hc) as (Hc0 & Ha0 & ->). cbn [fst snd].
    intros _. split; [now right|now split].
Qed.


(** X24. Every configuration file the installer writes starts its
    exports with a non-empty endpoint, whether the configuration was
    found or typed by hand; at most one is written, and only by a run
    that ends with status 0. *)
Theorem written_config_has_endpoint :
  forall w text,
    text ∈ configs_written (main json_loads py_str w).1 ->
    exists endpoint rest,
      endpoint <> EmptyString
      /\ text = config_text py_str ((endpoint_key, PStr endpoint) :: rest)
      /\ configs_written (main json_loads py_str w).1 = [text]
      /\ (main json_loads py_str w).2 = Returned 0%Z.
Proof.
  intros w text. unfold main, bind.
  destruct (configure json_loads w) as [t0 [[config typed']|e]] eqn:Hc.
  - destruct (configure_gives _ _ _ _ Hc) as (Hc0 & Ha0 & Hcfg). cbn [fst snd].
    pose proof (ask_choice_writes_nothing typed') as [Hc1 _].
    destruct (ask_choice typed') as [t1 [[choice rest]|e]] eqn:Hq;
      cbn [fst snd] in *.
    + pose proof (install_config w config choice) as Hi.
      destruct (install py_str w config choice) as [t2 success].
      cbn [fst snd] in *.
      rewrite !configs_written_app, Hc0, Hc1, Hi. cbn [app].
      destruct success; cbn [andb]; [|now intros ?%elem_of_nil].
      destruct Hcfg as [->|(endpoint & rest' & Hne & ->)];
        [now intros ?%elem_of_nil|].
      intros ->%list_elem_of_singleton. exists endpoint, rest'. now repeat split.
    + rewrite !configs_written_app, Hc0, Hc1. now intros ?%elem_of_nil.
  - destruct (configure_raises _ _ _ Hc) as (Hc0 & _). cbn [fst snd].
    rewrite Hc0. now intros ?%elem_of_nil.
Qed.

Lemma occurs_after p s t :
  PyStr.occurs p t = true -> PyStr.occurs p (s +:+ t) = true.
Proof.
  intros H. induction s as [|c s IH]; [exact H|].
  change (String c s +:+ t) with (String c (s +:+ t)). cbn [PyStr.occurs].
  rewrite IH. apply orb_true_r.
Qed.

Lemma inline_template_marked function_calls :
  PyStr.occurs marker (inline_template function_calls) = true.
Proof. unfold inline_template. now apply occurs_app. Qed.

Lemma integration_settled shell_function content :
  PyStr.occurs marker shell_function = true ->
  integration_for shell_function (after_integration shell_function content) = None.
Proof.
  intros H. unfold after_integration.
  destruct content as [text|]; [|reflexivity]. cbn [integration_for].
  destruct (PyStr.occurs marker text) eqn:Ht; cbn [integration_for].
  - now rewrite Ht.
  - now rewrite !occurs_after.
Qed.

(** X25. The shell integration is added once. The shell function built
    from the text in the source always holds the marker line, and when
    the shell function holds it, running [setup_shell_integration] again
    on the shell files it has updated appends nothing. *)
Theorem integration_is_added_once :
  forall w,
    (template w = None -> PyStr.occurs marker (shell_function_of w) = true)
    /\ (PyStr.occurs marker (shell_function_of w) = true ->
        setup_shell_integration (integrated w) = []).
Proof.
  intros w. split.
  - unfold shell_function_of. intros ->. apply inline_template_marked.
  - intros H. unfold setup_shell_integration.
    change (shell_function_of (integrated w)) with (shell_function_of w).
    change (bashrc (integrated w))
      with (after_integration (shell_function_of w) (bashrc w)).
    change (zshrc (integrated w))
      with (after_integration (shell_function_of w) (zshrc w)).
    now rewrite !integration_settled.
Qed.

Lemma install_script_done w script_type :
  (install_script w script_type).2 = true ->
  exists copy chmod,
    commands (install_script w script_type).1
    = [copy; chmod;
       "sudo ln -sf /usr/local/bin/"
         +:+ (if String.eqb script_type "python"
              then "shellmate-py" else "shellmate-sh")
         +:+ " /usr/local/bin/shellmate"].
Proof.
  unfold install_script.
  destruct (negb (path_exists w _)); [discriminate|].
  destruct (negb (run_command w _)); [discriminate|].
  destruct (negb (run_command w _)); [discriminate|]. intros _.
  cbn [fst commands].
  destruct (String.eqb script_type "python"); do 2 eexists; reflexivity.
Qed.

(** X26. Whenever the Bash version is among those chosen and the
    installation succeeds, the last command run is the one that points
    [/usr/local/bin/shellmate] to the Bash version: after choosing both,
    the link made for the Python version is replaced. *)
Theorem link_is_left_on_bash :
  forall w aws_config choice,
    choice ∈ ["2"; "3"] ->
    (install py_str w aws_config choice).2 = true ->
    last (commands (install py_str w aws_config choice).1)
    = Some "sudo ln -sf /usr/local/bin/shellmate-sh /usr/local/bin/shellmate".
Proof.
  intros w aws_config choice Hin. unfold install.
  destruct (python_step w choice) as [t1 s1].
  unfold bash_step. rewrite (bool_decide_eq_true_2 _ Hin).
  destruct (negb (which w "curl")); [discriminate|].
  pose proof (install_script_done w "bash") as Hd.
  destruct (install_script w "bash") as [t2 installed]. cbn [fst snd] in *.
  intros Hs. rewrite Hs. apply andb_true_iff in Hs as [-> _].
  destruct (Hd eq_refl) as (copy & chmod & Ht2).
  destruct (setup_shell_integration_commands w) as [Hc _].
  rewrite !commands_app, Ht2, Hc, app_nil_r.
  assert (Hw : commands (if true && match aws_config with [] => false | _ => true end
                         then [WroteConfig (config_text py_str aws_config)] else [])
               = []) by now destruct aws_config.
  rewrite Hw, app_nil_r.
  change [copy; chmod; ?x] with ([copy; chmod] ++ [x]).
  now rewrite app_assoc, last_snoc.
Qed.

(** X27. After choosing both versions, a failed installation of the
    Python version does not stop the installer: the commands that
    install the Bash version are still run, then the run fails without
    a configuration file or a shell integration. *)
Theorem failed_python_does_not_stop_bash :
  forall w aws_config,
    python39 w = true ->
    which w "curl" = true ->
    (install_script w "python").2 = false ->
    install py_str w aws_config "3"
    = ((install_script w "python").1 ++ (install_script w "bash").1, false).
Proof.
  intros w aws_config Hp Hc Hf. unfold install, python_step, bash_step.
  rewrite Hp, Hc. cbn [negb].
  rewrite !bool_decide_eq_true_2 by (rewrite !elem_of_cons; auto).
  destruct (install_script w "python") as [t1 s1].
  destruct (install_script w "bash") as [t2 s2]. cbn [fst snd] in *.
  subst s1. rewrite andb_false_r. cbn [andb]. now rewrite !app_nil_r.
Qed.

(** X28. The choice is the first line typed that strips to [1], [2] or
    [3]: the lines before it are asked for again, one prompt each, and
    the lines after it are left. When no line is valid the loop ends
    with the end of the input, after one prompt more than there are
    lines. *)
Theorem choice_is_first_valid_line :
  forall skipped,
    Forall (fun line => PyStr.strip line ∉ ["1"; "2"; "3"]) skipped ->
    ask_choice skipped
    = (replicate (S (length skipped)) (Asked "Enter choice (1/2/3): "),
       Raised end_of_input)
    /\ forall line rest,
         PyStr.strip line ∈ ["1"; "2"; "3"] ->
         ask_choice (skipped ++ line :: rest)
         = (replicate (S (length skipped)) (Asked "Enter choice (1/2/3): "),
            Returned (PyStr.strip line, rest)).
Proof.
  intros skipped H. induction H as [|l skipped Hl _ [IH1 IH2]].
  - split; [reflexivity|]. intros line rest Hin. cbn [app ask_choice].
    now rewrite (bool_decide_eq_true_2 _ Hin).
  - split.
    + cbn [ask_choice]. now rewrite (bool_decide_eq_false_2 _ Hl), IH1.
    + intros line rest Hin. cbn [app ask_choice].
      now rewrite (bool_decide_eq_false_2 _ Hl), (IH2 line rest Hin).
Qed.

(** X29. An API key that is truthy but is neither a string nor a list,
    such as a number, makes [get_aws_config] lose the endpoint it has
    found: printing the first characters of the key raises, the result
    is [None], and [main] goes on to ask the operator for the endpoint. *)
Theorem unsliceable_key_discards_endpoint :
  forall w stack listing api_keys,
    aws w DescribeStacks = Returned stack ->
    useful stack = true ->
    aws w GetApiKeys = Returned listing ->
    returncode listing = 0%Z ->
    json_loads (stdout listing) = Some api_keys ->
    truthy (select_api_key api_keys) = true ->
    sliceable (select_api_key api_keys) = false ->
    get_aws_config json_loads w = ([Aws DescribeStacks; Aws GetApiKeys], None)
    /\ exists t,
         (main json_loads py_str w).1
         = [Aws DescribeStacks; Aws GetApiKeys;
            Asked "Enter API endpoint (or press Enter to skip): "] ++ t.
Proof.
  intros w stack listing api_keys H1 H2 H3 H4 H5 H6 H7.
  assert (Hg : get_aws_config json_loads w
               = ([Aws DescribeStacks; Aws GetApiKeys], None)).
  { unfold get_aws_config. rewrite H1, H2, H3, H4, H5. cbn [negb Z.eqb].
    rewrite H6. unfold config_of. now rewrite H6, H7. }
  split; [exact Hg|].
  unfold main, bind, configure. rewrite Hg. cbn [usable_config].
  destruct (typed w) as [|l1 [|l2 rest]]; cbn [ask fst snd app].
  - now eexists.
  - now eexists.
  - destruct (ask_choice rest) as [t1 [[choice rest']|e]]; cbn [fst snd].
    + destruct (install py_str w _ choice) as [t2 success]. now eexists.
    + now eexists.
Qed.

End Installer.

Section InstallerOnMachines.
Import Py Install.

Lemma failed_install_writes_nothing_witness :
  (main Scenario.loads_listing Scenario.render Scenario.bare).2 = Returned 1%Z
  /\ configs_written (main Scenario.loads_listing Scenario.render Scenario.bare).1 = []
  /\ appends (main Scenario.loads_listing Scenario.render Scenario.bare).1 = [].
Proof.
  destruct (failed_install_writes_nothing Scenario.loads_listing Scenario.render
              Scenario.bare) as (_ & H).
  - vm_compute. discriminate.
  - split; [vm_compute; reflexivity|exact H].
Defined.

Lemma written_config_has_endpoint_witness :
  exists endpoint rest,
    endpoint <> EmptyString
    /\ config_text Scenario.render
         [(endpoint_key, PStr "https://abc.example.com/dev");
          (api_key_key, PStr "TAGGED001")]
       = config_text Scenario.render ((endpoint_key, PStr endpoint) :: rest)
    /\ configs_written
         (main Scenario.loads_listing Scenario.render Scenario.deployed).1
       = [config_text Scenario.render
            [(endpoint_key, PStr "https://abc.example.com/dev");
             (api_key_key, PStr "TAGGED001")]]
    /\ (main Scenario.loads_listing Scenario.render Scenario.deployed).2
       = Returned 0%Z.
Proof.
  apply (written_config_has_endpoint Scenario.loads_listing Scenario.render
           Scenario.deployed).
  vm_compute. constructor.
Defined.

Lemma integration_is_added_once_witness :
  PyStr.occurs marker (shell_function_of Scenario.deployed) = true
  /\ setup_shell_integration (integrated Scenario.deployed) = [].
Proof.
  destruct (integration_is_added_once Scenario.deployed) as [H1 H2].
  split; [apply H1; reflexivity|apply H2, H1; reflexivity].
Defined.

Lemma link_is_left_on_bash_witness :
  last (commands (install Scenario.render Scenario.deployed [] "3").1)
  = Some "sudo ln -sf /usr/local/bin/shellmate-sh /usr/local/bin/shellmate".
Proof.
  apply (link_is_left_on_bash Scenario.render Scenario.deployed [] "3").
  - apply list_elem_of_further, list_elem_of_here.
  - vm_compute. reflexivity.
Defined.

Lemma failed_python_does_not_stop_bash_witness :
  install Scenario.render Scenario.python_copy_fails [] "3"
  = ((install_script Scenario.python_copy_fails "python").1
     ++ (install_script Scenario.python_copy_fails "bash").1, false)
  /\ commands (install_script Scenario.python_copy_fails "bash").1
     = ["sudo cp /opt/shellmate/src/shellmate.sh /usr/local/bin/shellmate-sh";
        "sudo chmod +x /usr/local/bin/shellmate-sh";
        "sudo ln -sf /usr/local/bin/shellmate-sh /usr/local/bin/shellmate"].
Proof.
  split.
  - apply (failed_python_does_not_stop_bash Scenario.render
             Scenario.python_copy_fails []); vm_compute; reflexivity.
  - vm_compute. reflexivity.
Defined.

Lemma choice_is_first_valid_line_witness :
  ask_choice ["both"; " 3 "; "left"]
  = ([Asked "Enter choice (1/2/3): "; Asked "Enter choice (1/2/3): "],
     Returned ("3", ["left"])).
Proof.
  refine (proj2 (choice_is_first_valid_line ["both"] _) " 3 " ["left"] _).
  - constructor; [|constructor].
    intros H. apply (bool_decide_eq_true_2 _) in H. vm_compute in H.
    discriminate H.
  - apply (bool_decide_eq_true_1 _). vm_compute. reflexivity.
Defined.

Lemma unsliceable_key_discards_endpoint_witness :
  get_aws_config Scenario.loads_number Scenario.deployed
  = ([Aws DescribeStacks; Aws GetApiKeys], None)
  /\ exists t,
       (main Scenario.loads_number Scenario.render Scenario.deployed).1
       = [Aws DescribeStacks; Aws GetApiKeys;
          Asked "Enter API endpoint (or press Enter to skip): "] ++ t.
Proof.
  eapply (unsliceable_key_discards_endpoint Scenario.loads_number Scenario.render
            Scenario.deployed); try reflexivity.
Defined.

End InstallerOnMachines.
